(** * Context7 agent: the conversation store

    A shallow embedding of [HistoryManager] ([src/history.py]) and of the
    parts of its environment its behaviour depends on: Python values of
    the JSON kind and their equality, the [json] encoder and decoder,
    [os.path.dirname], [os.makedirs], [os.path.isfile] and text files.
    The chat orchestrator is present through its tests only and is
    modelled from the specification.  After the store come the helpers
    of [src/utils.py], the tables of [src/themes.py] and the command
    line of [src/cli.py], with the methods of the built-in types they
    call.

    Conventions.
    - A Python [str] is a Rocq [string], one character per code point
      below 256, and an [int] is a [Z].  The decoder reports text it
      cannot represent in this fragment (a float literal, an escape of a
      code point above 255) as [OutsideFragment], and [json.loads] then
      answers [Unmodelled]; no theorem concludes anything about such text.
      The limits of the interpreter (the depth of its recursion, the
      number of digits of an integer literal) are not modelled.
    - A Python [dict] is an association list in insertion order; the
      dictionaries Python can build are those whose keys are pairwise
      distinct ([wf_pyval]).
    - A file holds text: decoding its bytes is not modelled.
    - A method is a function from the world (the store object [self] and
      the disk) to the world after the call and its outcome: what a method
      changed before it raised stays changed, as in Python.  The three
      attributes of the store are held by value: no method of the class
      makes one an alias of another. *)

From Stdlib Require Import ZArith Ascii String List Bool Lia.
From Stdlib Require Import DecimalString DecimalZ DecimalPos DecimalFacts.
From stdpp Require Import gmap strings list.

Local Open Scope string_scope.
Local Open Scope list_scope.

(* ===================================================================== *)
(** ** Python values *)
(* ===================================================================== *)

Module Py.

(** The values [json.load] can return and [json.dump] can write, floats
    apart. *)
#[warnings="-register-all"]
Inductive pyval : Type :=
| PyNone
| PyBool (b : bool)
| PyInt (z : Z)
| PyStr (s : string)
| PyList (l : list pyval)
| PyDict (d : list (string * pyval)).

(** The exceptions the modelled code can raise. *)
Inductive exn : Type :=
| JSONDecodeError
| FileNotFoundError
| FileExistsError
| IsADirectoryError
| AttributeError
| TypeError.

(** How a call ends.  [Unmodelled] marks a run that left the fragment
    described above; it is never the outcome a theorem concludes. *)
Inductive outcome (A : Type) : Type :=
| Returns (a : A)
| Raises (e : exn)
| Unmodelled.
Arguments Returns {A} a.
Arguments Raises {A} e.
Arguments Unmodelled {A}.

Definition exn_eqb (a b : exn) : bool :=
  match a, b with
  | JSONDecodeError, JSONDecodeError
  | FileNotFoundError, FileNotFoundError
  | FileExistsError, FileExistsError
  | IsADirectoryError, IsADirectoryError
  | AttributeError, AttributeError
  | TypeError, TypeError => true
  | _, _ => false
  end.

(** [d[k]] as [dict.get] reads it: the value stored under [k], if any. *)
Fixpoint dict_lookup (k : string) (d : list (string * pyval)) : option pyval :=
  match d with
  | [] => None
  | (k', v) :: r => if String.eqb k k' then Some v else dict_lookup k r
  end.

(** [d[k] = v]: an existing key keeps its position, a new one goes last. *)
Fixpoint dict_set (d : list (string * pyval)) (k : string) (v : pyval)
  : list (string * pyval) :=
  match d with
  | [] => [(k, v)]
  | (k', v') :: r =>
      if String.eqb k k' then (k', v) :: r else (k', v') :: dict_set r k v
  end.

(** [dict(pairs)]. *)
Definition dict_of_pairs (pairs : list (string * pyval)) : list (string * pyval) :=
  fold_left (fun d kv => dict_set d (fst kv) (snd kv)) pairs [].

Fixpoint distinct (l : list string) : bool :=
  match l with
  | [] => true
  | k :: r => negb (existsb (String.eqb k) r) && distinct r
  end.

(** The values Python can hold: every dictionary has pairwise distinct
    keys. *)
Fixpoint wf_pyval (v : pyval) : bool :=
  match v with
  | PyList l => forallb wf_pyval l
  | PyDict d =>
      distinct (map fst d)
      && (fix wf_items (d : list (string * pyval)) : bool :=
            match d with
            | [] => true
            | (_, x) :: r => wf_pyval x && wf_items r
            end) d
  | _ => true
  end.

(** Python's [==] on these values.  [bool] is a subclass of [int], so
    [True == 1]; lists compare element by element; dictionaries compare as
    maps, whatever the insertion order. *)
Fixpoint py_eq (a b : pyval) {struct a} : bool :=
  match a, b with
  | PyNone, PyNone => true
  | PyBool x, PyBool y => Bool.eqb x y
  | PyBool x, PyInt y => Z.eqb (Z.b2z x) y
  | PyInt x, PyBool y => Z.eqb x (Z.b2z y)
  | PyInt x, PyInt y => Z.eqb x y
  | PyStr x, PyStr y => String.eqb x y
  | PyList la, PyList lb =>
      (fix eq_items (la lb : list pyval) {struct la} : bool :=
         match la, lb with
         | [], [] => true
         | x :: xs, y :: ys => py_eq x y && eq_items xs ys
         | _, _ => false
         end) la lb
  | PyDict da, PyDict db =>
      Nat.eqb (length da) (length db)
      && (fix eq_entries (da : list (string * pyval)) : bool :=
            match da with
            | [] => true
            | (k, x) :: r =>
                match dict_lookup k db with
                | Some y => py_eq x y
                | None => false
                end && eq_entries r
            end) da
  | _, _ => false
  end.

(** [x in l] for a list [l]: some element equals [x]. *)
Definition list_contains (l : list pyval) (x : pyval) : bool :=
  existsb (fun e => py_eq x e) l.

(** Whether [x] occurs as a contiguous run of [s] ([x in s] on strings). *)
Fixpoint is_prefix (x s : list ascii) : bool :=
  match x, s with
  | [], _ => true
  | a :: x', b :: s' => Ascii.eqb a b && is_prefix x' s'
  | _ :: _, [] => false
  end.

Fixpoint is_infix (x s : list ascii) : bool :=
  is_prefix x s || match s with [] => false | _ :: s' => is_infix x s' end.

End Py.
Export Py.

(* ===================================================================== *)
(** ** The [json] module *)
(* ===================================================================== *)

Module Json.

Definition chars (s : string) : list ascii := list_ascii_of_string s.
Definition text (l : list ascii) : string := string_of_list_ascii l.

Definition dquote : ascii := "034"%char.
Definition backslash : ascii := "092"%char.
Definition newline : ascii := "010"%char.

(** *** Encoder ([json.encoder], [indent=2], [ensure_ascii=True]) *)

Definition hex_digit (n : nat) : ascii :=
  nth n (chars "0123456789abcdef") "0"%char.

(** ['\\u{0:04x}'.format(n)] for a code point below 256. *)
Definition escape_u (c : ascii) : list ascii :=
  let n := nat_of_ascii c in
  [backslash; "u"; "0"; "0"; hex_digit (n / 16); hex_digit (n mod 16)]%char.

(** [ESCAPE_DCT] and its fallback: the replacement of one character that
    [ESCAPE_ASCII] matches (a backslash, a double quote, or anything
    outside the range from the space to the tilde); other characters
    stay. *)
Definition escape_char (c : ascii) : list ascii :=
  if Ascii.eqb c backslash then [backslash; backslash]
  else if Ascii.eqb c dquote then [backslash; dquote]
  else if Ascii.eqb c "008" then [backslash; "b"]%char
  else if Ascii.eqb c "012" then [backslash; "f"]%char
  else if Ascii.eqb c "010" then [backslash; "n"]%char
  else if Ascii.eqb c "013" then [backslash; "r"]%char
  else if Ascii.eqb c "009" then [backslash; "t"]%char
  else if (32 <=? nat_of_ascii c)%nat && (nat_of_ascii c <=? 126)%nat then [c]
  else escape_u c.

Definition py_encode_basestring_ascii (s : string) : string :=
  text (dquote :: flat_map escape_char (chars s) ++ [dquote]).

(** [int.__repr__]. *)
Definition intstr (z : Z) : string := NilZero.string_of_int (Z.to_int z).

(** ['\n' + _indent * level] with [_indent = ' ' * 2]. *)
Definition newline_indent (level : nat) : string :=
  text (newline :: repeat " "%char (2 * level)).

(** The values the encoder writes in one piece. *)
Definition atom_repr (v : pyval) : option string :=
  match v with
  | PyNone => Some "null"
  | PyBool true => Some "true"
  | PyBool false => Some "false"
  | PyInt z => Some (intstr z)
  | PyStr s => Some (py_encode_basestring_ascii s)
  | PyList _ | PyDict _ => None
  end.

(** The loop of [_iterencode_list] over the items: the opening bracket or
    the separator goes out in one chunk with an item written in one
    piece, and in a chunk of its own before the chunks [enc] yields for a
    list or a dictionary. *)
Definition list_chunks (enc : pyval -> list string) (level : nat)
  : bool -> list pyval -> list string :=
  fix items (first : bool) (l : list pyval) {struct l} : list string :=
    match l with
    | [] => []
    | x :: r =>
        let buf := (if first then "[" else ",") +:+ newline_indent (S level) in
        match atom_repr x with
        | Some a => [buf +:+ a]
        | None => buf :: enc x
        end ++ items false r
    end.

(** The loop of [_iterencode_dict] over the items. *)
Definition dict_chunks (enc : pyval -> list string) (level : nat)
  : bool -> list (string * pyval) -> list string :=
  fix items (first : bool) (d : list (string * pyval)) {struct d} : list string :=
    match d with
    | [] => []
    | (k, x) :: r =>
        (if first then [] else ["," +:+ newline_indent (S level)])
        ++ py_encode_basestring_ascii k :: ": " :: enc x ++ items false r
    end.

(** [_make_iterencode]'s [_iterencode]: the chunks it yields for [v] at
    indentation [level], in order. *)
Fixpoint iterencode (v : pyval) (level : nat) {struct v} : list string :=
  match v with
  | PyNone => ["null"]
  | PyBool true => ["true"]
  | PyBool false => ["false"]
  | PyInt z => [intstr z]
  | PyStr s => [py_encode_basestring_ascii s]
  | PyList [] => ["[]"]
  | PyList l =>
      list_chunks (fun x => iterencode x (S level)) level true l
      ++ [newline_indent level; "]"]
  | PyDict [] => ["{}"]
  | PyDict d =>
      "{" :: newline_indent (S level)
      :: dict_chunks (fun x => iterencode x (S level)) level true d
      ++ [newline_indent level; "}"]
  end.

(** [json.dumps(obj, indent=2)]: [''.join(chunks)]. *)
Definition json_dumps (obj : pyval) : string :=
  String.concat "" (iterencode obj 0).

(** *** Decoder ([json.decoder], [json.scanner], [strict=True]) *)

Inductive scan (A : Type) : Type :=
| Scanned (a : A) (rest : list ascii)
| Malformed          (* JSONDecodeError, or StopIteration turned into one *)
| OutsideFragment    (* a float, or a character above 255 *)
| NoFuel.
Arguments Scanned {A} a rest.
Arguments Malformed {A}.
Arguments OutsideFragment {A}.
Arguments NoFuel {A}.

Definition is_ws (c : ascii) : bool :=
  Ascii.eqb c " " || Ascii.eqb c "009" || Ascii.eqb c "010" || Ascii.eqb c "013".

(** [WHITESPACE.match(s, idx).end()]. *)
Fixpoint skip_ws (s : list ascii) : list ascii :=
  match s with
  | c :: t => if is_ws c then skip_ws t else s
  | [] => []
  end.

Definition hex_value (c : ascii) : option nat :=
  let n := nat_of_ascii c in
  if (48 <=? n)%nat && (n <=? 57)%nat then Some (n - 48)%nat
  else if (97 <=? n)%nat && (n <=? 102)%nat then Some (n - 87)%nat
  else if (65 <=? n)%nat && (n <=? 70)%nat then Some (n - 55)%nat
  else None.

(** [_decode_uXXXX] of the C scanner: four hexadecimal digits. *)
Definition decode_uXXXX (a b c d : ascii) : option nat :=
  match hex_value a, hex_value b, hex_value c, hex_value d with
  | Some x, Some y, Some z, Some w => Some (((x * 16 + y) * 16 + z) * 16 + w)%nat
  | _, _, _, _ => None
  end.

(** [BACKSLASH]. *)
Definition unescape (c : ascii) : option ascii :=
  if Ascii.eqb c dquote then Some dquote
  else if Ascii.eqb c backslash then Some backslash
  else if Ascii.eqb c "/" then Some "/"%char
  else if Ascii.eqb c "b" then Some "008"%char
  else if Ascii.eqb c "f" then Some "012"%char
  else if Ascii.eqb c "n" then Some "010"%char
  else if Ascii.eqb c "r" then Some "013"%char
  else if Ascii.eqb c "t" then Some "009"%char
  else None.

Definition scan_cons (c : ascii) (r : scan string) : scan string :=
  match r with
  | Scanned s rest => Scanned (String c s) rest
  | other => other
  end.

(** [scanstring(s, end, strict=True)], from the character after the
    opening quote. *)
Fixpoint scanstring (s : list ascii) : scan string :=
  match s with
  | [] => Malformed
  | c :: t =>
      if Ascii.eqb c dquote then Scanned EmptyString t
      else if Ascii.eqb c backslash then
        match t with
        | [] => Malformed
        | e :: t1 =>
            if Ascii.eqb e "u" then
              match t1 with
              | h1 :: h2 :: h3 :: h4 :: t2 =>
                  match decode_uXXXX h1 h2 h3 h4 with
                  | Some n =>
                      if (n <? 256)%nat then scan_cons (ascii_of_nat n) (scanstring t2)
                      else OutsideFragment
                  | None => Malformed
                  end
              | _ => Malformed
              end
            else
              match unescape e with
              | Some ch => scan_cons ch (scanstring t1)
              | None => Malformed
              end
        end
      else if (nat_of_ascii c <? 32)%nat then Malformed
      else scan_cons c (scanstring t)
  end.

Definition digit (c : ascii) : option (Decimal.uint -> Decimal.uint) :=
  if Ascii.eqb c "0" then Some Decimal.D0
  else if Ascii.eqb c "1" then Some Decimal.D1
  else if Ascii.eqb c "2" then Some Decimal.D2
  else if Ascii.eqb c "3" then Some Decimal.D3
  else if Ascii.eqb c "4" then Some Decimal.D4
  else if Ascii.eqb c "5" then Some Decimal.D5
  else if Ascii.eqb c "6" then Some Decimal.D6
  else if Ascii.eqb c "7" then Some Decimal.D7
  else if Ascii.eqb c "8" then Some Decimal.D8
  else if Ascii.eqb c "9" then Some Decimal.D9
  else None.

Definition is_digit (c : ascii) : bool :=
  match digit c with Some _ => true | None => false end.

(** The longest run of digits. *)
Fixpoint scan_digits (s : list ascii) : Decimal.uint * list ascii :=
  match s with
  | [] => (Decimal.Nil, [])
  | c :: t =>
      match digit c with
      | Some k => let (d, r) := scan_digits t in (k d, r)
      | None => (Decimal.Nil, s)
      end
  end.

(** Whether the fraction group (a dot and digits) or the exponent group
    (e or E, an optional sign, digits) of [NUMBER_RE] matches here: the
    number is then a float. *)
Definition frac_follows (s : list ascii) : bool :=
  match s with
  | p :: c :: _ => Ascii.eqb p "." && is_digit c
  | _ => false
  end.

Definition exp_follows (s : list ascii) : bool :=
  match s with
  | e :: c :: t =>
      (Ascii.eqb e "e" || Ascii.eqb e "E")
      && (is_digit c
          || ((Ascii.eqb c "+" || Ascii.eqb c "-")
              && match t with c' :: _ => is_digit c' | [] => false end))
  | _ => false
  end.

Definition number_result (neg : bool) (d : Decimal.uint) (rest : list ascii)
  : scan pyval :=
  if frac_follows rest || exp_follows rest then OutsideFragment
  else Scanned (PyInt (if neg then (- Z.of_uint d)%Z else Z.of_uint d)) rest.

(** [NUMBER_RE.match]: an optional minus sign, then either a single zero
    or a non-zero digit and the digits after it, then the optional
    fraction and exponent groups; [None] when it does not match. *)
Definition match_number (s : list ascii) : option (scan pyval) :=
  let '(neg, s1) :=
    match s with
    | c :: t => if Ascii.eqb c "-" then (true, t) else (false, s)
    | [] => (false, s)
    end in
  match s1 with
  | c :: t =>
      if Ascii.eqb c "0" then Some (number_result neg (Decimal.D0 Decimal.Nil) t)
      else if is_digit c then
        let (d, r) := scan_digits s1 in Some (number_result neg d r)
      else None
  | [] => None
  end.

(** [py_make_scanner]'s [_scan_once], with [JSONObject] and [JSONArray].
    The fuel bounds the calls still to make: a value and a round of a
    loop each read at least one character, so twice the length of the
    text, and one, is enough. *)
Fixpoint scan_once (fuel : nat) (s : list ascii) {struct fuel} : scan pyval :=
  match fuel with
  | O => NoFuel
  | S n =>
      match s with
      | [] => Malformed
      | c :: t =>
          if Ascii.eqb c dquote then
            match scanstring t with
            | Scanned x r => Scanned (PyStr x) r
            | Malformed => Malformed
            | OutsideFragment => OutsideFragment
            | NoFuel => NoFuel
            end
          else if Ascii.eqb c "{" then
            match skip_ws t with
            | c1 :: t1 =>
                if Ascii.eqb c1 "}" then Scanned (PyDict []) t1
                else if Ascii.eqb c1 dquote then object_loop n t1 []
                else Malformed
            | [] => Malformed
            end
          else if Ascii.eqb c "[" then
            match skip_ws t with
            | c1 :: t1 =>
                if Ascii.eqb c1 "]" then Scanned (PyList []) t1
                else array_loop n (c1 :: t1) []
            | [] => Malformed
            end
          else if is_prefix (chars "null") s then Scanned PyNone (drop 4 s)
          else if is_prefix (chars "true") s then Scanned (PyBool true) (drop 4 s)
          else if is_prefix (chars "false") s then Scanned (PyBool false) (drop 5 s)
          else
            match match_number s with
            | Some r => r
            | None =>
                if is_prefix (chars "NaN") s
                   || is_prefix (chars "Infinity") s
                   || is_prefix (chars "-Infinity") s
                then OutsideFragment
                else Malformed
            end
      end
  end

(** The loop of [JSONArray], at the start of a value; [acc] holds the
    values read so far. *)
with array_loop (fuel : nat) (s : list ascii) (acc : list pyval) {struct fuel}
  : scan pyval :=
  match fuel with
  | O => NoFuel
  | S n =>
      match scan_once n s with
      | Scanned v r =>
          match skip_ws r with
          | c :: t =>
              if Ascii.eqb c "]" then Scanned (PyList (acc ++ [v])) t
              else if Ascii.eqb c "," then array_loop n (skip_ws t) (acc ++ [v])
              else Malformed
          | [] => Malformed
          end
      | Malformed => Malformed
      | OutsideFragment => OutsideFragment
      | NoFuel => NoFuel
      end
  end

(** The loop of [JSONObject], after the opening quote of a key; [acc]
    holds the pairs read so far. *)
with object_loop (fuel : nat) (s : list ascii) (acc : list (string * pyval))
  {struct fuel} : scan pyval :=
  match fuel with
  | O => NoFuel
  | S n =>
      match scanstring s with
      | Scanned k r =>
          match skip_ws r with
          | c :: t =>
              if Ascii.eqb c ":" then
                match scan_once n (skip_ws t) with
                | Scanned v r1 =>
                    match skip_ws r1 with
                    | c1 :: t1 =>
                        if Ascii.eqb c1 "}" then
                          Scanned (PyDict (dict_of_pairs (acc ++ [(k, v)]))) t1
                        else if Ascii.eqb c1 "," then
                          match skip_ws t1 with
                          | c2 :: t2 =>
                              if Ascii.eqb c2 dquote
                              then object_loop n t2 (acc ++ [(k, v)])
                              else Malformed
                          | [] => Malformed
                          end
                        else Malformed
                    | [] => Malformed
                    end
                | Malformed => Malformed
                | OutsideFragment => OutsideFragment
                | NoFuel => NoFuel
                end
              else Malformed
          | [] => Malformed
          end
      | Malformed => Malformed
      | OutsideFragment => OutsideFragment
      | NoFuel => NoFuel
      end
  end.

(** [json.loads(s)]: [JSONDecoder.decode], which skips the white space
    around the one value and refuses anything after it. *)
Definition json_loads (s : string) : outcome pyval :=
  let l := skip_ws (chars s) in
  match scan_once (S (2 * length l)) l with
  | Scanned v r =>
      match skip_ws r with
      | [] => Returns v
      | _ :: _ => Raises JSONDecodeError
      end
  | Malformed => Raises JSONDecodeError
  | OutsideFragment => Unmodelled
  | NoFuel => Unmodelled
  end.

End Json.
Export Json.


(* ===================================================================== *)
(** ** The file system and [os] *)
(* ===================================================================== *)

Module Os.

(** What a path names: a regular file with its text, or a directory.
    Paths are compared as written; the ancestors of a directory are not
    tracked. *)
Inductive node : Type :=
| File (content : string)
| Dir.

Fixpoint drop_while (p : ascii -> bool) (l : list ascii) : list ascii :=
  match l with
  | c :: t => if p c then drop_while p t else l
  | [] => []
  end.

Definition is_sep (c : ascii) : bool := Ascii.eqb c "/".

(** [posixpath.dirname]: the text up to the last slash, without the
    slashes that end it unless it is made of slashes only. *)
Definition os_path_dirname (p : string) : string :=
  let head := rev (drop_while (fun c => negb (is_sep c)) (rev (chars p))) in
  if forallb is_sep head then text head
  else text (rev (drop_while is_sep (rev head))).

(** [os.path.expanduser] on a path that starts with [~/], for a user whose
    home directory is [home]. *)
Definition os_path_expanduser (home : string) (p : string) : string :=
  match chars p with
  | c :: rest =>
      if Ascii.eqb c "~"
      then text (rev (drop_while is_sep (rev (chars home))) ++ rest)
      else p
  | [] => p
  end.

(** A path without a directory component: no slash in it. *)
Definition bare_filename (p : string) : bool :=
  forallb (fun c => negb (is_sep c)) (chars p).

Definition os_path_isfile (p : string) (d : gmap string node) : bool :=
  match d !! p with
  | Some (File _) => true
  | _ => false
  end.

(** [os.makedirs(name, exist_ok=True)]: [mkdir] of the empty path fails
    with [FileNotFoundError]; a regular file in the way is a
    [FileExistsError], which [exist_ok] forgives for directories only. *)
Definition os_makedirs (name : string) (d : gmap string node)
  : gmap string node * outcome unit :=
  if String.eqb name "" then (d, Raises FileNotFoundError)
  else
    match d !! name with
    | Some (File _) => (d, Raises FileExistsError)
    | Some Dir => (d, Returns tt)
    | None => (<[name := Dir]> d, Returns tt)
    end.

(** [open(path, "w")]: the file is created, or emptied if it exists. *)
Definition open_w (path : string) (d : gmap string node)
  : gmap string node * outcome unit :=
  match d !! path with
  | Some Dir => (d, Raises IsADirectoryError)
  | _ => (<[path := File ""]> d, Returns tt)
  end.

(** [f.write(chunk)] on the file opened at [path]. *)
Definition file_write (path : string) (chunk : string) (d : gmap string node)
  : gmap string node :=
  match d !! path with
  | Some (File c) => <[path := File (c +:+ chunk)]> d
  | _ => d
  end.

(** [open(path, "r")] and [f.read()]. *)
Definition read_text (path : string) (d : gmap string node) : outcome string :=
  match d !! path with
  | Some (File c) => Returns c
  | Some Dir => Raises IsADirectoryError
  | None => Raises FileNotFoundError
  end.

End Os.
Export Os.

(* ===================================================================== *)
(** ** [HistoryManager] *)
(* ===================================================================== *)

Module History.

(** The attributes [__init__] sets.  [load] binds them to whatever the
    file holds, so each is a Python value, a list in the usual case. *)
Record HistoryManager : Type := mkHistoryManager {
  filepath : string;
  history : pyval;
  bookmarks : pyval;
  sessions : pyval
}.

(** The store object a method runs on, and the disk. *)
Record world : Type := mkWorld {
  self : HistoryManager;
  fs : gmap string node
}.

(** A method: the world after the call, and how the call ended. *)
Definition M (A : Type) : Type := world -> world * outcome A.

Definition ret {A : Type} (a : A) : M A := fun w => (w, Returns a).

Definition bind {A B : Type} (m : M A) (k : A -> M B) : M B :=
  fun w =>
    match m w with
    | (w', Returns a) => k a w'
    | (w', Raises e) => (w', Raises e)
    | (w', Unmodelled) => (w', Unmodelled)
    end.

#[export] Instance M_ret : MRet M := @ret.
#[export] Instance M_bind : MBind M := fun A B k m => bind m k.

(** A call whose outcome does not touch the world. *)
Definition lift {A : Type} (o : outcome A) : M A := fun w => (w, o).

(** [try: body except (e1, ...): handler]. *)
Definition try_except {A : Type} (body : M A) (caught : list exn) (handler : M A)
  : M A :=
  fun w =>
    match body w with
    | (w', Raises e) =>
        if existsb (exn_eqb e) caught then handler w' else (w', Raises e)
    | other => other
    end.

Definition get_self : M HistoryManager := fun w => (w, Returns (self w)).

Definition set_history (v : pyval) : M unit :=
  fun w =>
    (mkWorld (mkHistoryManager (filepath (self w)) v (bookmarks (self w))
                (sessions (self w))) (fs w), Returns tt).

Definition set_bookmarks (v : pyval) : M unit :=
  fun w =>
    (mkWorld (mkHistoryManager (filepath (self w)) (history (self w)) v
                (sessions (self w))) (fs w), Returns tt).

Definition set_sessions (v : pyval) : M unit :=
  fun w =>
    (mkWorld (mkHistoryManager (filepath (self w)) (history (self w))
                (bookmarks (self w)) v) (fs w), Returns tt).

(** A call on the disk alone. *)
Definition on_fs {A : Type} (f : gmap string node -> gmap string node * outcome A)
  : M A :=
  fun w => let (d, o) := f (fs w) in (mkWorld (self w) d, o).

(** *** Methods of the built-in types the store calls *)

(** [obj.append(x)]: lists have it. *)
Definition py_append (obj x : pyval) : outcome pyval :=
  match obj with
  | PyList l => Returns (PyList (l ++ [x]))
  | _ => Raises AttributeError
  end.

(** [obj.clear()]: lists and dictionaries have it. *)
Definition py_clear (obj : pyval) : outcome pyval :=
  match obj with
  | PyList _ => Returns (PyList [])
  | PyDict _ => Returns (PyDict [])
  | _ => Raises AttributeError
  end.

(** [obj.get(key, default)]: dictionaries have it. *)
Definition py_get (obj : pyval) (key : string) (default : pyval) : outcome pyval :=
  match obj with
  | PyDict d =>
      Returns match dict_lookup key d with Some v => v | None => default end
  | _ => Raises AttributeError
  end.

(** [x in obj]: equality against the elements of a list, key lookup in a
    dictionary (whose keys are strings; an unhashable [x] is a
    [TypeError]), substring test on a string. *)
Definition py_contains (obj x : pyval) : outcome bool :=
  match obj with
  | PyList l => Returns (list_contains l x)
  | PyDict d =>
      match x with
      | PyStr k => Returns (existsb (String.eqb k) (map fst d))
      | PyList _ | PyDict _ => Raises TypeError
      | _ => Returns false
      end
  | PyStr s =>
      match x with
      | PyStr t => Returns (is_infix (chars t) (chars s))
      | _ => Raises TypeError
      end
  | _ => Raises TypeError
  end.

(** *** The class *)

(** [__init__]: [filepath or os.path.expanduser(...)], and three empty
    lists. *)
Definition init (home : string) (path : option string) : HistoryManager :=
  let p :=
    match path with
    | Some p => if String.eqb p "" then None else Some p
    | None => None
    end in
  mkHistoryManager
    match p with
    | Some p => p
    | None => os_path_expanduser home "~/.context7_history.json"
    end
    (PyList []) (PyList []) (PyList []).

Definition append (msg : pyval) : M unit :=
  s ← get_self;
  h ← lift (py_append (history s) msg);
  set_history h.

Definition clear : M unit :=
  s ← get_self;
  h ← lift (py_clear (history s));
  set_history h.

(** The dictionary both [save] and [save_async] build. *)
Definition data_of (s : HistoryManager) : pyval :=
  PyDict [("history", history s); ("bookmarks", bookmarks s);
          ("sessions", sessions s)].

(** [json.dump(obj, f, indent=2)]: one [f.write] per chunk. *)
Definition json_dump (obj : pyval) (path : string) : M unit :=
  on_fs (fun d =>
    (fold_left (fun d chunk => file_write path chunk d) (iterencode obj 0) d,
     Returns tt)).

Definition save : M unit :=
  s ← get_self;
  let data := data_of s in
  on_fs (os_makedirs (os_path_dirname (filepath s)));;
  on_fs (open_w (filepath s));;
  json_dump data (filepath s).

(** [aiofiles]' [f.write(json.dumps(data, indent=2))]: one write of the
    joined text.  The points where the coroutine may be suspended are not
    modelled: it runs alone. *)
Definition save_async : M unit :=
  s ← get_self;
  let data := data_of s in
  on_fs (os_makedirs (os_path_dirname (filepath s)));;
  on_fs (open_w (filepath s));;
  on_fs (fun d => (file_write (filepath s) (json_dumps data) d, Returns tt)).

Definition isfile (path : string) : M bool :=
  fun w => (w, Returns (os_path_isfile path (fs w))).

(** [open(path, "r")] and [f.read()]. *)
Definition read_file (path : string) : M string :=
  on_fs (fun d => (d, read_text path d)).

(** [json.load(f)]: [json.loads(f.read())]. *)
Definition json_load (path : string) : M pyval :=
  content ← read_file path;
  lift (json_loads content).

(** The three assignments from [data], in the order of the source. *)
Definition populate (data : pyval) : M unit :=
  h ← lift (py_get data "history" (PyList []));
  set_history h;;
  b ← lift (py_get data "bookmarks" (PyList []));
  set_bookmarks b;;
  c ← lift (py_get data "sessions" (PyList []));
  set_sessions c.

(** The handler of both [except] clauses. *)
Definition reset : M unit :=
  set_history (PyList []);;
  set_bookmarks (PyList []);;
  set_sessions (PyList []).

Definition load : M unit :=
  s ← get_self;
  is_file ← isfile (filepath s);
  if negb is_file then ret tt
  else
    try_except
      (data ← json_load (filepath s);
       populate data)
      [JSONDecodeError; FileNotFoundError]
      reset.

Definition load_async : M unit :=
  s ← get_self;
  is_file ← isfile (filepath s);
  if negb is_file then ret tt
  else
    try_except
      (content ← read_file (filepath s);
       data ← lift (json_loads content);
       populate data)
      [JSONDecodeError; FileNotFoundError]
      reset.

Definition add_bookmark (doc : pyval) : M unit :=
  s ← get_self;
  found ← lift (py_contains (bookmarks s) doc);
  if negb found then
    b ← lift (py_append (bookmarks s) doc);
    set_bookmarks b;;
    save
  else ret tt.

Definition get_bookmarks : M pyval :=
  s ← get_self; ret (bookmarks s).

Definition add_session (session : pyval) : M unit :=
  s ← get_self;
  c ← lift (py_append (sessions s) session);
  set_sessions c;;
  save.

Definition get_sessions : M pyval :=
  s ← get_self; ret (sessions s).

(** *** Calls, as data *)

(** The three calls that add to the store. *)
Inductive edit : Type :=
| Append (msg : pyval)
| AddBookmark (doc : pyval)
| AddSession (session : pyval).

Definition edit_arg (e : edit) : pyval :=
  match e with
  | Append v | AddBookmark v | AddSession v => v
  end.

Definition run_edit (e : edit) : M unit :=
  match e with
  | Append msg => append msg
  | AddBookmark doc => add_bookmark doc
  | AddSession session => add_session session
  end.

(** The calls one after the other; an exception ends the run, as it does
    for a caller that does not catch it. *)
Fixpoint run_edits (es : list edit) : M unit :=
  match es with
  | [] => ret tt
  | e :: r => run_edit e;; run_edits r
  end.

(** Every method of the class. *)
Inductive operation : Type :=
| Edit (e : edit)
| Clear
| Save
| SaveAsync
| Load
| LoadAsync
| GetBookmarks
| GetSessions.

Definition run_operation (o : operation) : M unit :=
  match o with
  | Edit e => run_edit e
  | Clear => clear
  | Save => save
  | SaveAsync => save_async
  | Load => load
  | LoadAsync => load_async
  | GetBookmarks => get_bookmarks;; ret tt
  | GetSessions => get_sessions;; ret tt
  end.

(** *** The bookmarks as a set by value *)

(** No element equals a later one. *)
Fixpoint distinct_by_value (l : list pyval) : bool :=
  match l with
  | [] => true
  | x :: r => negb (list_contains r x) && distinct_by_value r
  end.

(** How many elements equal [x]. *)
Definition count_by_value (x : pyval) (l : list pyval) : nat :=
  length (List.filter (fun e => py_eq x e) l).

(** The bookmarks are a list without duplicates by value. *)
Definition bookmarks_distinct (s : HistoryManager) : Prop :=
  exists l, bookmarks s = PyList l /\ distinct_by_value l = true.

(** What [load] would bind [bookmarks] to: the list under the key of
    that name in the file, if the file holds a dictionary. *)
Definition file_bookmarks (w : world) : option pyval :=
  match read_text (filepath (self w)) (fs w) with
  | Returns c =>
      match json_loads c with
      | Returns (PyDict d) => dict_lookup "bookmarks" d
      | _ => None
      end
  | _ => None
  end.

End History.
Export History.

(* ===================================================================== *)
(** ** The chat orchestrator and its tool server *)
(* ===================================================================== *)

Module Agent.

(** How a tool server is started. *)
Record launch : Type := mkLaunch {
  command : string;
  args : list string
}.

(** The launch command of the Context7 tool server, as [src/test_mcp.py]
    and [src/verify_mcp.py] build it and [tests/test_agent.py] expects
    [chat] to. *)
Definition mcp_launch : launch :=
  mkLaunch "npx" ["-y"; "@upstash/context7-mcp@latest"].

Record process : Type := mkProcess {
  pid : nat;
  started_as : launch
}.

(** The processes started so far, oldest first, and the ones still
    running. *)
Record host : Type := mkHost {
  spawned : list process;
  running : list nat
}.

(** Modelled from the spec: the agent module ([src/agent.py]) is not among
    the sources.  Section 4.2: the manager spawns the external process
    with the fixed launch command; a process gets an identifier no earlier
    one has. *)
Definition spawn (l : launch) (h : host) : host * process :=
  let p := mkProcess (length (spawned h)) l in
  (mkHost (spawned h ++ [p]) (pid p :: running h), p).

(** Modelled from the spec: the agent module is not among the sources.
    Section 4.2: the process is terminated when the call ends. *)
Definition terminate (p : process) (h : host) : host :=
  mkHost (spawned h) (List.filter (fun q => negb (Nat.eqb q (pid p))) (running h)).

(** Modelled from the spec: the agent module is not among the sources.
    Section 4.2, [withToolServer(callable)]: spawn, expose the process to
    [callable] for one model invocation, release it on every exit path;
    no instance is pooled or reused. *)
Definition with_tool_server {A : Type} (callable : process -> outcome A)
  (h : host) : host * outcome A :=
  let (h1, p) := spawn mcp_launch h in
  (terminate p h1, callable p).

(** Modelled from the spec: the agent module is not among the sources.
    Section 4.3, [chat(userText, priorHistory)]: acquire a tool server,
    invoke the model with it, return its text or propagate its error.
    [model] stands for the language model. *)
Definition chat (model : string -> list pyval -> process -> outcome string)
  (user_text : string) (prior_history : list pyval) (h : host)
  : host * outcome string :=
  with_tool_server (model user_text prior_history) h.

End Agent.
Export Agent.

(* ===================================================================== *)
(** ** Exceptions and built-in operations of the code around the store *)
(* ===================================================================== *)

Module Builtins.

(** The exceptions of the code outside the store, by class and without
    their message: those the store raises ([Std]), the others that code
    raises or names in a handler, and two that stand for the rest,
    [OtherException] for an exception under [Exception] of a class no
    handler names, [OtherBaseException] for one outside [Exception]. *)
Inductive exception : Type :=
| Std (e : exn)
| ValueError
| IndexError
| KeyError
| EOFError
| KeyboardInterrupt
| TimeoutExpired
| OtherException
| OtherBaseException.

(** The classes of an exception, itself first. *)
Definition classes (e : exception) : list string :=
  match e with
  | Std JSONDecodeError => ["JSONDecodeError"; "ValueError"; "Exception"]
  | Std FileNotFoundError => ["FileNotFoundError"; "OSError"; "Exception"]
  | Std FileExistsError => ["FileExistsError"; "OSError"; "Exception"]
  | Std IsADirectoryError => ["IsADirectoryError"; "OSError"; "Exception"]
  | Std AttributeError => ["AttributeError"; "Exception"]
  | Std TypeError => ["TypeError"; "Exception"]
  | ValueError => ["ValueError"; "Exception"]
  | IndexError => ["IndexError"; "LookupError"; "Exception"]
  | KeyError => ["KeyError"; "LookupError"; "Exception"]
  | EOFError => ["EOFError"; "Exception"]
  | KeyboardInterrupt => ["KeyboardInterrupt"]
  | TimeoutExpired => ["TimeoutExpired"; "SubprocessError"; "Exception"]
  | OtherException => ["Exception"]
  | OtherBaseException => []
  end
  ++ ["BaseException"].

(** Whether [except (names):] catches [e]. *)
Definition caught_by (names : list string) (e : exception) : bool :=
  existsb (fun c => existsb (String.eqb c) names) (classes e).

(** How a call of that code ends. *)
Inductive result (A : Type) : Type :=
| Ok (a : A)
| Raise (e : exception).
Arguments Ok {A} a.
Arguments Raise {A} e.

#[export] Instance result_ret : MRet result := @Ok.
#[export] Instance result_bind : MBind result :=
  fun A B k m => match m with Ok a => k a | Raise e => Raise e end.

(** [d.get(key, default)]: dictionaries have it. *)
Definition get (d : pyval) (key : string) (default : pyval) : result pyval :=
  match d with
  | PyDict entries =>
      Ok match dict_lookup key entries with Some v => v | None => default end
  | _ => Raise (Std AttributeError)
  end.

(** [a <= x] for a string [a]: strings compare by code points, and no
    other value compares with a string. *)
Definition str_le (a : string) (x : pyval) : result bool :=
  match x with
  | PyStr b => Ok (String.leb a b)
  | _ => Raise (Std TypeError)
  end.

(** [x <= b] for a string [b]. *)
Definition le_str (x : pyval) (b : string) : result bool :=
  match x with
  | PyStr a => Ok (String.leb a b)
  | _ => Raise (Std TypeError)
  end.

(** [a <= x] for an integer [a]: [bool] is a subclass of [int]. *)
Definition int_le (a : Z) (x : pyval) : result bool :=
  match x with
  | PyInt b => Ok (a <=? b)%Z
  | PyBool b => Ok (a <=? Z.b2z b)%Z
  | _ => Raise (Std TypeError)
  end.

(** [x <= b] for an integer [b]. *)
Definition le_int (x : pyval) (b : Z) : result bool :=
  match x with
  | PyInt a => Ok (a <=? b)%Z
  | PyBool a => Ok (Z.b2z a <=? b)%Z
  | _ => Raise (Std TypeError)
  end.

(** Lists and dictionaries have no hash. *)
Definition hashable (v : pyval) : bool :=
  match v with
  | PyList _ | PyDict _ => false
  | _ => true
  end.

(** [set(x)], as the list of its elements: the items of a list, which
    must be hashable, the characters of a string, the keys of a
    dictionary; nothing else is iterable. *)
Definition set_of (x : pyval) : result (list pyval) :=
  match x with
  | PyList l => if forallb hashable l then Ok l else Raise (Std TypeError)
  | PyStr s => Ok (map (fun c => PyStr (String c "")) (chars s))
  | PyDict d => Ok (map (fun kv => PyStr (fst kv)) d)
  | _ => Raise (Std TypeError)
  end.

(** Whether [set(tags) & elements] has an element. *)
Definition meets (tags : list string) (elements : list pyval) : bool :=
  existsb (fun t => list_contains elements (PyStr t)) tags.

(** [[d for d in docs if cond(d)]]: the elements are tried in order, and
    the first exception ends the comprehension. *)
Fixpoint comprehension (cond : pyval -> result bool) (docs : list pyval)
  : result (list pyval) :=
  match docs with
  | [] => Ok []
  | d :: r =>
      keep ← cond d;
      rest ← comprehension cond r;
      Ok (if keep : bool then d :: rest else rest)
  end.

End Builtins.
Export Builtins.

(* ===================================================================== *)
(** ** The helpers ([src/utils.py]) *)
(* ===================================================================== *)

Module Utils.

(** The condition of each of the four comprehensions. *)
Definition has_type (file_type : string) (d : pyval) : result bool :=
  t ← get d "type" PyNone;
  Ok (py_eq t (PyStr file_type)).

Definition in_dates (start end_ : string) (d : pyval) : result bool :=
  x ← get d "date" (PyStr "");
  low ← str_le start x;
  if low : bool then le_str x end_ else Ok false.

Definition in_sizes (min_size max_size : Z) (d : pyval) : result bool :=
  x ← get d "size" (PyInt 0);
  low ← int_le min_size x;
  if low : bool then le_int x max_size else Ok false.

Definition has_tag (tags : list string) (d : pyval) : result bool :=
  x ← get d "tags" (PyList []);
  elements ← set_of x;
  Ok (meets tags elements).

(** [filter_documents].  The optional arguments have the types of their
    annotations; [if file_type:] and the like hold for a string or a list
    that is not empty. *)
Definition filter_documents (docs : list pyval) (file_type : option string)
  (date_range : option (list string)) (size_range : option (list Z))
  (tags : option (list string)) : result (list pyval) :=
  let filtered := docs in
  filtered ←
    match file_type with
    | Some (String c t) => comprehension (has_type (String c t)) filtered
    | Some "" | None => Ok filtered
    end;
  filtered ←
    match date_range with
    | Some [start; end_] => comprehension (in_dates start end_) filtered
    | Some (_ :: _) => Raise ValueError
    | Some [] | None => Ok filtered
    end;
  filtered ←
    match size_range with
    | Some [min_size; max_size] => comprehension (in_sizes min_size max_size) filtered
    | Some (_ :: _) => Raise ValueError
    | Some [] | None => Ok filtered
    end;
  filtered ←
    match tags with
    | Some (t :: r) => comprehension (has_tag (t :: r)) filtered
    | Some [] | None => Ok filtered
    end;
  Ok filtered.

(** [format_error] and [format_success]. *)
Definition format_error (msg : string) : string :=
  "[bold red]Error:[/bold red] " +:+ msg.

Definition format_success (msg : string) : string :=
  "[bold green]Success:[/bold green] " +:+ msg.

End Utils.
Export Utils.

(* ===================================================================== *)
(** ** Methods of [str], [int] and indexing *)
(* ===================================================================== *)

Module Str.

(** The characters [str.isspace] holds of, among the code points below
    256: the ASCII white space, the four separators from U+001C to
    U+001F, U+0085 and U+00A0. *)
Definition is_space (c : ascii) : bool :=
  let n := nat_of_ascii c in
  ((9 <=? n) && (n <=? 13) || (28 <=? n) && (n <=? 32) || (n =? 133) || (n =? 160))%nat.

(** [s.strip()]. *)
Definition strip (s : string) : string :=
  text (rev (drop_while is_space (rev (drop_while is_space (chars s))))).

(** [s.lower()]: the capital letters below 256 are those of ASCII and
    those from U+00C0 to U+00DE, the multiplication sign apart. *)
Definition lower_char (c : ascii) : ascii :=
  let n := nat_of_ascii c in
  if ((65 <=? n) && (n <=? 90) || (192 <=? n) && (n <=? 222) && negb (n =? 215))%nat
  then ascii_of_nat (n + 32)
  else c.

Definition lower (s : string) : string := text (map lower_char (chars s)).

(** [s.startswith(prefix)]. *)
Definition startswith (s prefix : string) : bool := is_prefix (chars prefix) (chars s).

(** [s.split()]: the runs of characters between white space.  [word]
    holds the run being read, last character first. *)
Fixpoint split_from (word : list ascii) (l : list ascii) : list string :=
  match l with
  | [] =>
      match word with
      | [] => []
      | _ => [text (rev word)]
      end
  | c :: r =>
      if is_space c then
        match word with
        | [] => split_from [] r
        | _ => text (rev word) :: split_from [] r
        end
      else split_from (c :: word) r
  end.

Definition split (s : string) : list string := split_from [] (chars s).

(** The white space [int] strips: that of [strip] without the four
    separators from U+001C to U+001F. *)
Definition is_int_space (c : ascii) : bool :=
  let n := nat_of_ascii c in
  ((9 <=? n) && (n <=? 13) || (n =? 32) || (n =? 133) || (n =? 160))%nat.

Definition digit_value (c : ascii) : option Z :=
  let n := nat_of_ascii c in
  if ((48 <=? n) && (n <=? 57))%nat then Some (Z.of_nat (n - 48)) else None.

(** Decimal digits with single underscores between them: [after_digit]
    tells whether the character before was a digit. *)
Fixpoint digits (acc : Z) (after_digit : bool) (l : list ascii) : option Z :=
  match l with
  | [] => if after_digit then Some acc else None
  | c :: r =>
      match digit_value c with
      | Some v => digits (10 * acc + v) true r
      | None =>
          if Ascii.eqb c "_" && after_digit then digits acc false r else None
      end
  end.

(** [int(s)] for a string: white space around, an optional sign, digits;
    anything else is a [ValueError]. *)
Definition int_of (s : string) : result Z :=
  let body := rev (drop_while is_int_space (rev (drop_while is_int_space (chars s)))) in
  match
    match body with
    | c :: r =>
        if Ascii.eqb c "-" then option_map Z.opp (digits 0 false r)
        else if Ascii.eqb c "+" then digits 0 false r
        else digits 0 false body
    | [] => None
    end
  with
  | Some z => Ok z
  | None => Raise ValueError
  end.

(** [l[i]]: a negative index counts from the end. *)
Definition item {A : Type} (l : list A) (i : Z) : result A :=
  let j := if (i <? 0)%Z then (i + Z.of_nat (length l))%Z else i in
  if (j <? 0)%Z then Raise IndexError
  else
    match nth_error l (Z.to_nat j) with
    | Some x => Ok x
    | None => Raise IndexError
    end.

End Str.
Export Str.

(* ===================================================================== *)
(** ** The themes ([src/themes.py]) *)
(* ===================================================================== *)

Module Themes.

(** The style definitions a [Theme] is built from.  The texts of the
    three tables are those of the source; a character above U+00FF
    stands as its UTF-8 bytes. *)
Definition theme : Type := list (string * string).

(** The value a dictionary holds under a key, if any. *)
Fixpoint assoc {A : Type} (key : string) (table : list (string * A)) : option A :=
  match table with
  | [] => None
  | (k, v) :: r => if String.eqb key k then Some v else assoc key r
  end.

(** [table[key]]. *)
Definition subscript {A : Type} (table : list (string * A)) (key : string) : result A :=
  match assoc key table with
  | Some v => Ok v
  | None => Raise KeyError
  end.

(** [table.get(key, default)]. *)
Definition get_or {A : Type} (table : list (string * A)) (key : string) (default : A) : A :=
  match assoc key table with
  | Some v => v
  | None => default
  end.

Definition THEMES : list (string * theme) :=
  [("cyberpunk",
    [("primary", "bold magenta");
     ("accent", "bright_cyan");
     ("header", "bold magenta on black");
     ("background", "black");
     ("success", "bold green");
     ("warning", "bold yellow");
     ("error", "bold red");
     ("ascii", "bright_magenta");
     ("glow", "bold magenta blink");
     ("gradient", "magenta on black")]);
   ("ocean",
    [("primary", "bold blue");
     ("accent", "cyan");
     ("header", "bold white on blue");
     ("background", "blue");
     ("success", "bold green");
     ("warning", "bold yellow");
     ("error", "bold red");
     ("ascii", "cyan");
     ("glow", "bold blue blink");
     ("gradient", "cyan on blue")]);
   ("forest",
    [("primary", "bold green");
     ("accent", "bright_green");
     ("header", "bold green on black");
     ("background", "black");
     ("success", "bold green");
     ("warning", "bold yellow");
     ("error", "bold red");
     ("ascii", "green");
     ("glow", "bold green blink");
     ("gradient", "green on black")]);
   ("sunset",
    [("primary", "bold yellow");
     ("accent", "bright_red");
     ("header", "bold white on red");
     ("background", "red");
     ("success", "bold green");
     ("warning", "bold yellow");
     ("error", "bold red");
     ("ascii", "yellow");
     ("glow", "bold yellow blink");
     ("gradient", "yellow on red")])].

Definition ASCII_ART : list (string * string) :=
  [("cyberpunk",
"
     ____            _               _     _     _           
    / ___| ___ _ __ | |_ _   _ _ __ | |__ (_)___| | __       
   | |   / _ \ '_ \| __| | | | '_ \| '_ \| / __| |/ /       
   | |__|  __/ | | | |_| |_| | |_) | | | | \__ \   <        
    \____\___|_| |_|\__|\__,_| .__/|_| |_|_|___/_|\_\       
                             |_|                             
    ");
   ("ocean",
"
     ~~~~~  OCEAN THEME  ~~~~~
    ~~~  ~~~   ~~~   ~~~   ~~~
    ");
   ("forest",
"
      🌲🌳 FOREST THEME 🌳🌲
     ////\\\\////\\\\////\\\\
    ");
   ("sunset",
"
      🌅 SUNSET THEME 🌅
    ~~~~~~~~~~~~~~~~~~~~~~
    ")].

Definition ANIMATION_FRAMES : list (string * list string) :=
  [("cyberpunk",
    ["[magenta]*[/magenta]    ";
     " [magenta]*[/magenta]   ";
     "  [magenta]*[/magenta]  ";
     "   [magenta]*[/magenta] ";
     "    [magenta]*[/magenta]";
     "   [magenta]*[/magenta] ";
     "  [magenta]*[/magenta]  ";
     " [magenta]*[/magenta]   "]);
   ("ocean",
    ["[cyan]~[/cyan]    ";
     " [cyan]~[/cyan]   ";
     "  [cyan]~[/cyan]  ";
     "   [cyan]~[/cyan] ";
     "    [cyan]~[/cyan]";
     "   [cyan]~[/cyan] ";
     "  [cyan]~[/cyan]  ";
     " [cyan]~[/cyan]   "]);
   ("forest",
    ["[green]🌲[/green]    ";
     " [green]🌲[/green]   ";
     "  [green]🌲[/green]  ";
     "   [green]🌲[/green] ";
     "    [green]🌲[/green]";
     "   [green]🌲[/green] ";
     "  [green]🌲[/green]  ";
     " [green]🌲[/green]   "]);
   ("sunset",
    ["[yellow]🌅[/yellow]    ";
     " [yellow]🌅[/yellow]   ";
     "  [yellow]🌅[/yellow]  ";
     "   [yellow]🌅[/yellow] ";
     "    [yellow]🌅[/yellow]";
     "   [yellow]🌅[/yellow] ";
     "  [yellow]🌅[/yellow]  ";
     " [yellow]🌅[/yellow]   "])].

Definition get_theme (theme_name : string) : result theme :=
  default ← subscript THEMES "cyberpunk";
  Ok (get_or THEMES theme_name default).

Definition get_ascii_art (theme_name : string) : result string :=
  default ← subscript ASCII_ART "cyberpunk";
  Ok (get_or ASCII_ART theme_name default).

Definition get_animation_frames (theme_name : string) : result (list string) :=
  default ← subscript ANIMATION_FRAMES "cyberpunk";
  Ok (get_or ANIMATION_FRAMES theme_name default).

End Themes.
Export Themes.

(* ===================================================================== *)
(** ** The command line ([src/cli.py]) *)
(* ===================================================================== *)

Module Cli.

(** What the command line does to its surroundings: what it hands to the
    console, and what it calls on the agent, the history list and the
    operating system.  The console is taken to display what it is given.
    Where the source prints the text of an exception the action names the
    exception. *)
Inductive action : Type :=
| Print (markup : string)
| PrintPanel (content : string) (title : option string) (style : string)
| PrintChatError (e : exception)
| PrintApplicationError (e : exception)
| PushTheme (styles : theme)
| PopTheme
| Run (argv : list string)
| CallGetHistory
| CallGetBookmarks
| AskPrompt
| ShowHistory
| AddToBookmarks (doc : pyval)
| ShowSyntax (content filetype : pyval)
| Loader (frames : list string)
| Chat (user_input : string)
| HistoryAppend (msg : pyval)
| SaveHistory.

(** A piece of the program: the actions it performed, in order, and its
    value or the exception that ended it. *)
Definition io (A : Type) : Type := list action * result A.

#[export] Instance io_ret : MRet io := fun A a => ([], Ok a).
#[export] Instance io_bind : MBind io :=
  fun A B k m =>
    match m with
    | (done, Ok a) => let (more, r) := k a in (done ++ more, r)
    | (done, Raise e) => (done, Raise e)
    end.

(** An action that returns nothing. *)
Definition perform (a : action) : io unit := ([a], Ok tt).

(** [console.print(markup)]. *)
Definition say (markup : string) : io unit := perform (Print markup).

(** A call whose answer comes from outside. *)
Definition call {A : Type} (a : action) (answer : result A) : io A := ([a], answer).

(** A computation without actions. *)
Definition pure {A : Type} (r : result A) : io A := ([], r).

(** [try: body except (names) as e: handler(e)]. *)
Definition try_catch {A : Type} (body : io A) (names : list string)
  (handler : exception -> io A) : io A :=
  match body with
  | (done, Raise e) =>
      if caught_by names e then let (more, r) := handler e in (done ++ more, r)
      else (done, Raise e)
  | other => other
  end.

(** *** [check_nodejs] *)

(** What [subprocess.run(argv, capture_output=True, text=True,
    timeout=5)] returns when the process has exited; [run] below answers
    with it, or with the exception the call raises. *)
Record completed : Type := mkCompleted {
  returncode : Z;
  stdout : string
}.

Definition check_nodejs (run : list string -> result completed) : io bool :=
  first ←
    try_catch
      (result ← call (Run ["node"; "--version"]) (run ["node"; "--version"]);
       if (returncode result =? 0)%Z then
         let node_version := strip (stdout result) in
         say ("[green]✅ Node.js " +:+ node_version +:+ " found[/green]");;
         mret (Some true)
       else mret None)
      ["TimeoutExpired"; "FileNotFoundError"]
      (fun _ =>
         say "[red]❌ Node.js not found or not in PATH[/red]";;
         mret (Some false));
  match first with
  | Some answer => mret answer
  | None =>
      second ←
        try_catch
          (result ← call (Run ["npx"; "--version"]) (run ["npx"; "--version"]);
           if (returncode result =? 0)%Z then
             say ("[green]✅ npx " +:+ strip (stdout result) +:+ " found[/green]");;
             mret (Some true)
           else mret None)
          ["TimeoutExpired"; "FileNotFoundError"]
          (fun _ =>
             say "[red]❌ npx not found[/red]";;
             mret (Some false));
      match second with
      | Some answer => mret answer
      | None => mret false
      end
  end.

(** *** [main] *)

Definition help_text : string :=
"
[bold cyan]/help[/bold cyan]            Show this help screen
[bold cyan]/theme THEME[/bold cyan]     Switch theme (cyberpunk, ocean, forest, sunset)
[bold cyan]/preview N[/bold cyan]       Preview document N (from results)
[bold cyan]/bookmark N[/bold cyan]      Bookmark document N
[bold cyan]/analytics[/bold cyan]       Show search analytics
[bold cyan]/history[/bold cyan]         Show chat history
[bold cyan]/exit[/bold cyan]            Exit the agent
".

Definition print_help : io unit := say help_text.

Definition print_ascii_art (theme : string) : io unit :=
  art ← pure (get_ascii_art theme);
  perform (PrintPanel art None "ascii").

(** The local variables of [main] the loop reads and assigns. *)
Record state : Type := mkState {
  theme_of : string;
  last_results : list pyval
}.

(** What the surroundings answer during one round of the loop, each
    where the round asks for it: the line [Prompt.ask] returns, the table
    of [/history] built and printed, [agent.history.add_bookmark], the
    [Syntax] of [/preview] built and printed, [agent.chat] and
    [agent.save_history]. *)
Record turn : Type := mkTurn {
  asked : result string;
  table : result unit;
  bookmarked : result unit;
  shown : result unit;
  reply : result string;
  saved : result unit
}.

(** How a round of the loop ends. *)
Inductive control : Type :=
| Continue (st : state)
| Break.

(** [int(user_input.split()[1]) - 1] and [last_results[idx]]. *)
Definition picked (user_input : string) (results : list pyval) : result pyval :=
  token ← item (split user_input) 1;
  number ← int_of token;
  item results (number - 1).

(** One round of [while True:]. *)
Definition body (st : state) (t : turn) : io control :=
  line ←
    try_catch
      (user_input ← call AskPrompt (asked t); mret (Some user_input))
      ["KeyboardInterrupt"; "EOFError"]
      (fun _ =>
         say "
[bold magenta]Goodbye![/bold magenta]";;
         mret None);
  match line with
  | None => mret Break
  | Some user_input =>
      if String.eqb (strip user_input) "" then mret (Continue st)
      else if String.eqb (lower user_input) "/exit" then
        say "[bold magenta]Goodbye![/bold magenta]";;
        mret Break
      else if String.eqb (lower user_input) "/help" then
        print_help;;
        mret (Continue st)
      else if startswith user_input "/theme" then
        let parts := split user_input in
        match parts with
        | _ :: name :: _ =>
            if existsb (String.eqb name) ["cyberpunk"; "ocean"; "forest"; "sunset"]
            then
              let theme := name in
              perform PopTheme;;
              styles ← pure (get_theme theme);
              perform (PushTheme styles);;
              print_ascii_art theme;;
              say ("[green]Theme switched to " +:+ theme +:+ "[/green]");;
              mret (Continue (mkState theme (last_results st)))
            else
              say "[red]Invalid theme. Use: cyberpunk, ocean, forest, sunset[/red]";;
              mret (Continue st)
        | _ =>
            say "[red]Invalid theme. Use: cyberpunk, ocean, forest, sunset[/red]";;
            mret (Continue st)
        end
      else if String.eqb (lower user_input) "/history" then
        call ShowHistory (table t);;
        mret (Continue st)
      else if startswith user_input "/bookmark" then
        try_catch
          (doc ← pure (picked user_input (last_results st));
           call (AddToBookmarks doc) (bookmarked t);;
           say (format_success "Bookmarked!"))
          ["IndexError"; "ValueError"; "AttributeError"]
          (fun _ => say (format_error "Invalid bookmark index."));;
        mret (Continue st)
      else if startswith user_input "/preview" then
        try_catch
          (doc ← pure (picked user_input (last_results st));
           content ← pure (get doc "content" (PyStr "No content available"));
           filetype ← pure (get doc "type" (PyStr "txt"));
           call (ShowSyntax content filetype) (shown t))
          ["IndexError"; "ValueError"]
          (fun _ => say (format_error "Invalid preview index."));;
        mret (Continue st)
      else if String.eqb (lower user_input) "/analytics" then
        say "[bold yellow]Analytics coming soon![/bold yellow]";;
        mret (Continue st)
      else
        frames ← pure (get_animation_frames (theme_of st));
        perform (Loader frames);;
        try_catch
          (response ← call (Chat user_input) (reply t);
           perform (PrintPanel response (Some "Agent") "primary");;
           perform (HistoryAppend
                      (PyDict [("role", PyStr "user"); ("content", PyStr user_input)]));;
           perform (HistoryAppend
                      (PyDict [("role", PyStr "assistant"); ("content", PyStr response)]));;
           call SaveHistory (saved t);;
           mret (Continue (mkState (theme_of st) [])))
          ["Exception"]
          (fun e =>
             perform (PrintChatError e);;
             say "[dim]Please check your API key and internet connection[/dim]";;
             mret (Continue st))
  end.

(** How far a run of [main] got on the answers it was given: it
    returned, or it waits at the prompt for the next answer. *)
Inductive status : Type :=
| Returned
| Waiting.

(** The loop, over the answers of the rounds in order. *)
Fixpoint loop (st : state) (turns : list turn) : io status :=
  match turns with
  | [] => mret Waiting
  | t :: later =>
      c ← body st t;
      match c with
      | Continue st' => loop st' later
      | Break => mret Returned
      end
  end.

(** [main], from [theme = config.theme] on: the configuration and the
    agent it builds before are not among the sources, and the two calls
    of the agent before the loop are taken to return.  [run] answers the
    calls of [subprocess.run]. *)
Definition main (theme : string) (run : list string -> result completed)
  (turns : list turn) : io status :=
  styles ← pure (get_theme theme);
  perform (PushTheme styles);;
  print_ascii_art theme;;
  say ("[header]Welcome to Context7 Agent! (Theme: " +:+ theme +:+ ")[/header]");;
  print_help;;
  perform CallGetHistory;;
  perform CallGetBookmarks;;
  let last_results : list pyval := [] in
  node ← check_nodejs run;
  if negb node then
    say "[yellow]⚠️  Node.js 18+ and npm are required for MCP functionality[/yellow]";;
    say "[dim]Install from: https://nodejs.org/[/dim]";;
    mret Returned
  else
    match
      say "[dim]Starting Context7 MCP server...[/dim]";;
      say "[green]✅ Context7 MCP server connected successfully[/green]";;
      loop (mkState theme last_results) turns
    with
    | (done, Ok Waiting) => (done, Ok Waiting)
    | (done, Ok Returned) =>
        (done ++ [Print "[yellow]🔄 Shutting down gracefully...[/yellow]"], Ok Returned)
    | (done, Raise e) =>
        if caught_by ["Exception"] e then
          (done ++ [PrintApplicationError e;
                    Print "[yellow]Troubleshooting steps:[/yellow]";
                    Print "[dim]1. Ensure Node.js 18+ is installed[/dim]";
                    Print "[dim]2. Run: npm install -g @upstash/context7-mcp@latest[/dim]";
                    Print "[dim]3. Check internet connectivity[/dim]";
                    Print "[yellow]🔄 Shutting down gracefully...[/yellow]"], Ok Returned)
        else
          (done ++ [Print "[yellow]🔄 Shutting down gracefully...[/yellow]"], Raise e)
    end.

End Cli.
Export Cli.

(* ===================================================================== *)
(** * Vocabulary of the statements and proofs *)
(* ===================================================================== *)

(** ** Induction on values *)

(** The induction principle of [pyval] with the hypotheses for the
    elements of a list and the values of a dictionary. *)
Section pyval_induction.
Variable P : pyval -> Prop.
Hypothesis HNone : P PyNone.
Hypothesis HBool : forall b, P (PyBool b).
Hypothesis HInt : forall z, P (PyInt z).
Hypothesis HStr : forall s, P (PyStr s).
Hypothesis HList : forall l, Forall P l -> P (PyList l).
Hypothesis HDict : forall d, Forall (fun kv => P (snd kv)) d -> P (PyDict d).

Fixpoint pyval_induction (v : pyval) : P v :=
  match v with
  | PyNone => HNone
  | PyBool b => HBool b
  | PyInt z => HInt z
  | PyStr s => HStr s
  | PyList l =>
      HList l
        ((fix all (l : list pyval) : Forall P l :=
            match l with
            | [] => List.Forall_nil P
            | x :: r => @List.Forall_cons _ P x r (pyval_induction x) (all r)
            end) l)
  | PyDict d =>
      HDict d
        ((fix all (d : list (string * pyval)) : Forall (fun kv => P (snd kv)) d :=
            match d with
            | [] => List.Forall_nil _
            | kv :: r =>
                @List.Forall_cons _ _ kv r (pyval_induction (snd kv)) (all r)
            end) d)
  end.

End pyval_induction.

(** ** JSON text *)

Module JsonText.

(** The characters of a list of chunks. *)
Definition flat (l : list string) : list ascii := concat (map chars l).

Definition uint_chars (d : Decimal.uint) : list ascii :=
  chars (NilEmpty.string_of_uint d).

(** A decimal numeral that starts with a digit other than zero. *)
Definition leading_nonzero (d : Decimal.uint) : Prop :=
  match d with
  | Decimal.Nil | Decimal.D0 _ => False
  | _ => True
  end.

(** What may follow a value the encoder wrote: nothing, a comma or a new
    line. *)
Definition ends_value (rest : list ascii) : Prop :=
  match rest with
  | [] => True
  | c :: _ => c = ","%char \/ c = newline
  end.

(** A character a number can start with. *)
Definition starts_number (c : ascii) : bool := is_digit c || Ascii.eqb c "-".

(** What the first character of an encoded value is not: white space, or
    the bracket that closes a list. *)
Definition starts_value (c : ascii) : Prop :=
  is_ws c = false /\ Ascii.eqb c "]" = false.

(** The encoder at the level of the items of a container at [level]. *)
Definition enc_at (level : nat) (x : pyval) : list string := iterencode x (S level).

(** The text of a list after its first item: the other items, the new
    line, the closing bracket and what follows. *)
Definition items_tail (level : nat) (r : list pyval) (rest : list ascii) : list ascii :=
  flat (list_chunks (enc_at level) level false r)
  ++ chars (newline_indent level) ++ "]"%char :: rest.

(** The same for a dictionary. *)
Definition entries_tail (level : nat) (r : list (string * pyval)) (rest : list ascii)
  : list ascii :=
  flat (dict_chunks (enc_at level) level false r)
  ++ chars (newline_indent level) ++ "}"%char :: rest.

(** The text of an entry after the opening quote of its key. *)
Definition entry_text (level : nat) (k : string) (x : pyval) : list ascii :=
  flat_map escape_char (chars k)
  ++ dquote :: ":"%char :: " "%char :: flat (iterencode x (S level)).

(** The scanner reads [v] back from its encoding at any level, whatever
    follows, given fuel for the text. *)
Definition round_trips (v : pyval) : Prop :=
  wf_pyval v = true ->
  forall level rest fuel,
    ends_value rest ->
    2 * length (flat (iterencode v level) ++ rest) < fuel ->
    scan_once fuel (flat (iterencode v level) ++ rest) = Scanned v rest.

(** A scan that has an answer, and whose answer leaves less text than
    [s]. *)
Definition progresses {A : Type} (s : list ascii) (r : scan A) : Prop :=
  match r with
  | Scanned _ rest => length rest < length s
  | NoFuel => False
  | _ => True
  end.

(** With [fuel], the scanner and its two loops progress on every text the
    fuel covers. *)
Definition fuel_ok (fuel : nat) : Prop :=
  (forall s, 2 * length s < fuel -> progresses s (scan_once fuel s))
  /\ (forall s acc, 2 * length s + 1 < fuel -> progresses s (array_loop fuel s acc))
  /\ (forall s acc, 2 * length s + 1 < fuel ->
                    progresses (dquote :: s) (object_loop fuel s acc)).

End JsonText.
Export JsonText.

(** ** The store *)

Module StoreSpec.

(** [data.get(key, [])] on a dictionary. *)
Definition get_or_empty (d : list (string * pyval)) (key : string) : pyval :=
  match dict_lookup key d with
  | Some v => v
  | None => PyList []
  end.

(** The store after [load] read the dictionary [d]. *)
Definition loaded (s : HistoryManager) (d : list (string * pyval)) : HistoryManager :=
  mkHistoryManager (filepath s) (get_or_empty d "history")
    (get_or_empty d "bookmarks") (get_or_empty d "sessions").

(** The store after the [except] clause ran. *)
Definition emptied (s : HistoryManager) : HistoryManager :=
  mkHistoryManager (filepath s) (PyList []) (PyList []) (PyList []).

(** What [save] and [save_async] do, case by case. *)
Definition save_result (w : world) : world * outcome unit :=
  let p := filepath (self w) in
  match os_makedirs (os_path_dirname p) (fs w) with
  | (fs1, Returns _) =>
      match open_w p fs1 with
      | (fs2, Returns _) =>
          (mkWorld (self w) (<[p := File (json_dumps (data_of (self w)))]> fs1),
           Returns tt)
      | (fs2, Raises e) => (mkWorld (self w) fs2, Raises e)
      | (fs2, Unmodelled) => (mkWorld (self w) fs2, Unmodelled)
      end
  | (fs1, Raises e) => (mkWorld (self w) fs1, Raises e)
  | (fs1, Unmodelled) => (mkWorld (self w) fs1, Unmodelled)
  end.

(** What [load] and [load_async] do, case by case. *)
Definition load_result (w : world) : world * outcome unit :=
  match fs w !! filepath (self w) with
  | Some (File c) =>
      match json_loads c with
      | Returns (PyDict d) => (mkWorld (loaded (self w) d) (fs w), Returns tt)
      | Returns _ => (w, Raises AttributeError)
      | Raises e =>
          if existsb (exn_eqb e) [JSONDecodeError; FileNotFoundError]
          then (mkWorld (emptied (self w)) (fs w), Returns tt)
          else (w, Raises e)
      | Unmodelled => (w, Unmodelled)
      end
  | _ => (w, Returns tt)
  end.

(** The store holds values Python can hold. *)
Definition store_wf (s : HistoryManager) : bool :=
  wf_pyval (history s) && wf_pyval (bookmarks s) && wf_pyval (sessions s).

(** The file, if [load] would take bookmarks from it, holds a list of
    them without duplicates by value. *)
Definition loads_distinct_bookmarks (w : world) : Prop :=
  match file_bookmarks w with
  | Some v => exists l, v = PyList l /\ distinct_by_value l = true
  | None => True
  end.

(** When an operation keeps the bookmarks free of duplicates: always,
    except that a load installs what the file holds, and that the
    document to add is a value Python can hold. *)
Definition keeps_bookmarks_distinct (o : operation) (w : world) : Prop :=
  match o with
  | Load | LoadAsync => loads_distinct_bookmarks w
  | Edit (AddBookmark doc) => wf_pyval doc = true
  | _ => True
  end.

Ltac unfold_M :=
  unfold mbind, M_bind, mret, M_ret, bind, ret, lift, get_self, isfile,
    set_history, set_bookmarks, set_sessions, read_file, on_fs in *.

End StoreSpec.
Export StoreSpec.

(** ** Stores and files of the examples *)

Module Examples.

(** The document of [test_add_bookmark]. *)
Definition test_doc : pyval :=
  PyDict [("title", PyStr "Test Doc"); ("content", PyStr "Test content")].

(** The same document with its keys in the other order. *)
Definition test_doc_reordered : pyval :=
  PyDict [("content", PyStr "Test content"); ("title", PyStr "Test Doc")].

(** A fresh store on an empty disk. *)
Definition sample_start : world :=
  mkWorld (init "/home/user" (Some "/tmp/history.json")) ∅.

Definition sample_edits : list edit :=
  [Append (PyDict [("role", PyStr "user"); ("content", PyStr "hi")]);
   AddBookmark test_doc;
   AddBookmark test_doc_reordered;
   AddSession (PyDict [("name", PyStr "Test Session"); ("messages", PyList [])])].

(** A store constructed with a bare file name. *)
Definition bare_world : world :=
  mkWorld (init "/home/user" (Some "history.json")) ∅.

(** A store that holds one bookmark. *)
Definition bookmarked_world : world :=
  mkWorld (mkHistoryManager "/tmp/history.json" (PyList [])
             (PyList [test_doc_reordered]) (PyList [])) ∅.

(** The payload of [test_legacy_file_format], and a fresh store whose
    file holds it. *)
Definition legacy_data : pyval :=
  PyList [PyDict [("user", PyStr "hello"); ("assistant", PyStr "hi")]].

Definition legacy_world : world :=
  mkWorld (init "/home/user" (Some "/tmp/history.json"))
    {[ "/tmp/history.json" := File (json_dumps legacy_data) ]}.

(** A file whose bookmarks hold the same value twice. *)
Definition duplicated_data : pyval :=
  PyDict [("bookmarks", PyList [PyInt 1; PyInt 1])].

Definition duplicated_world : world :=
  mkWorld (init "/home/user" (Some "/tmp/history.json"))
    {[ "/tmp/history.json" := File (json_dumps duplicated_data) ]}.


(** A store with unsaved entries whose file holds an older state without
    the key for sessions. *)
Definition older_data : list (string * pyval) :=
  [("history", PyList [PyDict [("role", PyStr "assistant");
                               ("content", PyStr "existing")]]);
   ("bookmarks", PyList [])].

Definition stale_world : world :=
  mkWorld (mkHistoryManager "/tmp/history.json" (PyList [PyStr "unsaved"])
             (PyList [test_doc]) (PyList [PyStr "unsaved session"]))
    {[ "/tmp/history.json" := File (json_dumps (PyDict older_data)) ]}.

End Examples.
Export Examples.

(** ** Files and paths *)

Module FileSpec.

(** A character every encoding of the ASCII family writes as one byte
    and shows as itself: a new line, or a printable ASCII character (from
    the space to the tilde). *)
Definition plain (c : ascii) : bool :=
  Ascii.eqb c newline
  || ((32 <=? nat_of_ascii c)%nat && (nat_of_ascii c <=? 126)%nat).

Definition plain_text (s : string) : bool := forallb plain (chars s).

(** [s.rstrip('/')]. *)
Definition rstrip_sep (l : list ascii) : list ascii := rev (drop_while is_sep (rev l)).

(** A store whose file holds an object with a [history] that is not a
    list. *)
Definition unchecked_world : world :=
  mkWorld (init "/home/user" (Some "/tmp/history.json"))
    {[ "/tmp/history.json" := File (json_dumps (PyDict [("history", PyStr "hello")])) ]}.

(** A store whose history holds a message with letters outside ASCII
    ([caf], then U+00E9). *)
Definition accented_world : world :=
  mkWorld (mkHistoryManager "/tmp/history.json"
             (PyList [PyDict [("role", PyStr "user");
                              ("content", PyStr (String "c" (String "a" (String "f"
                                 (String "233" EmptyString)))))]])
             (PyList []) (PyList [])) ∅.

(** An edit that saves the store: [add_session], and [add_bookmark] of a
    document the bookmarks do not hold yet. *)
Definition saves (e : edit) (w : world) : bool :=
  match e with
  | Append _ => false
  | AddBookmark doc =>
      match bookmarks (self w) with
      | PyList l => negb (list_contains l doc)
      | _ => false
      end
  | AddSession _ => true
  end.

End FileSpec.
Export FileSpec.

(** ** The helpers *)

Module UtilsSpec.

(** A condition holds of a document: it answers [True], without raising. *)
Definition passes (cond : pyval -> result bool) (d : pyval) : bool :=
  match cond d with
  | Ok true => true
  | _ => false
  end.

(** The conditions a call of [filter_documents] applies, in order. *)
Definition conditions (file_type : option string) (date_range : option (list string))
  (size_range : option (list Z)) (tags : option (list string))
  : list (pyval -> result bool) :=
  match file_type with
  | Some (String c t) => [has_type (String c t)]
  | _ => []
  end
  ++ match date_range with
     | Some [start; end_] => [in_dates start end_]
     | _ => []
     end
  ++ match size_range with
     | Some [min_size; max_size] => [in_sizes min_size max_size]
     | _ => []
     end
  ++ match tags with
     | Some (t :: r) => [has_tag (t :: r)]
     | _ => []
     end.

(** A range argument [filter_documents] can unpack: absent, empty, or of
    two elements. *)
Definition unpacks {A : Type} (range : option (list A)) : bool :=
  match range with
  | Some [_; _] | Some [] | None => true
  | Some _ => false
  end.

(** A dictionary. *)
Definition is_dict (d : pyval) : bool :=
  match d with
  | PyDict _ => true
  | _ => false
  end.

(** A document whose fields, where present, have the types the
    conditions compare and iterate: a string for [date], an integer for
    [size], and for [tags] a list of hashable values, a string or a
    dictionary. *)
Definition typed_document (d : pyval) : bool :=
  match d with
  | PyDict e =>
      match dict_lookup "date" e with
      | Some (PyStr _) | None => true
      | Some _ => false
      end
      && match dict_lookup "size" e with
         | Some (PyInt _) | Some (PyBool _) | None => true
         | Some _ => false
         end
      && match dict_lookup "tags" e with
         | Some (PyList l) => forallb hashable l
         | Some (PyStr _) | Some (PyDict _) | None => true
         | Some _ => false
         end
  | _ => false
  end.

(** The conditions one after the other, each on what the one before
    kept. *)
Fixpoint apply_all (conds : list (pyval -> result bool)) (docs : list pyval)
  : result (list pyval) :=
  match conds with
  | [] => Ok docs
  | c :: r => l ← comprehension c docs; apply_all r l
  end.

(** Three documents: a Python file with two tags, a note without a type,
    and a document whose tags are one string. *)
Definition sample_docs : list pyval :=
  [PyDict [("type", PyStr "py"); ("date", PyStr "2024-03-01"); ("size", PyInt 120);
           ("tags", PyList [PyStr "api"; PyStr "async"])];
   PyDict [("title", PyStr "note")];
   PyDict [("type", PyStr "md"); ("date", PyStr "2024-05-17"); ("tags", PyStr "api")]].

(** A document whose date is a number. *)
Definition dated_by_number : pyval :=
  PyDict [("type", PyStr "py"); ("date", PyInt 20240301)].

End UtilsSpec.
Export UtilsSpec.

(** ** The command line *)

Module CliSpec.

(** The names the [/theme] command accepts, which are the keys of the
    three tables. *)
Definition theme_names : list string := ["cyberpunk"; "ocean"; "forest"; "sunset"].

(** The styles a theme defines. *)
Definition style_names : list string :=
  ["primary"; "accent"; "header"; "background"; "success"; "warning"; "error";
   "ascii"; "glow"; "gradient"].

(** The process exited, with a code other than zero. *)
Definition exits_nonzero (r : result completed) : bool :=
  match r with
  | Ok c => negb (returncode c =? 0)%Z
  | Raise _ => false
  end.

(** The process exited with code zero. *)
Definition exits_zero (r : result completed) : bool :=
  match r with
  | Ok c => (returncode c =? 0)%Z
  | Raise _ => false
  end.

(** A line handed to the console. *)
Definition is_print (a : action) : bool :=
  match a with
  | Print _ => true
  | _ => false
  end.

(** A call of [subprocess.run] with the arguments [argv]. *)
Definition is_run (argv : list string) (a : action) : bool :=
  match a with
  | Run argv' => bool_decide (argv = argv')
  | _ => false
  end.

(** A [subprocess.run] that finds no program. *)
Definition no_program (argv : list string) : result completed :=
  Raise (Std FileNotFoundError).

(** A line the loop handles itself: blank, or one of its commands. *)
Definition is_command (user_input : string) : bool :=
  String.eqb (strip user_input) ""
  || existsb (String.eqb (lower user_input)) ["/exit"; "/help"; "/history"; "/analytics"]
  || existsb (startswith user_input) ["/theme"; "/bookmark"; "/preview"].

(** The two messages of an exchange. *)
Definition user_message (text : string) : pyval :=
  PyDict [("role", PyStr "user"); ("content", PyStr text)].

Definition assistant_message (text : string) : pyval :=
  PyDict [("role", PyStr "assistant"); ("content", PyStr text)].

(** An action on the history or of the agent's chat. *)
Definition on_history (a : action) : bool :=
  match a with
  | Chat _ | HistoryAppend _ | SaveHistory => true
  | _ => false
  end.

(** The order in which a run may call the agent and the history: a chat
    that fails is followed by no call on the history; a chat that is
    answered is followed by the panel of the answer, the line typed
    appended as the user's message, the answer appended as the
    assistant's, and the history saved; the history is neither appended
    to nor saved anywhere else. *)
Inductive exchanges : list action -> Prop :=
| exchanges_nil : exchanges []
| exchanges_other a l : on_history a = false -> exchanges l -> exchanges (a :: l)
| exchanges_failed s l : exchanges l -> exchanges (Chat s :: l)
| exchanges_answered s r l :
    exchanges l ->
    exchanges (Chat s :: PrintPanel r (Some "Agent") "primary"
               :: HistoryAppend (user_message s) :: HistoryAppend (assistant_message r)
               :: SaveHistory :: l).

(** The themes pushed on the console and not popped, after the actions
    [l], from [depth] of them; [None] when a pop finds none. *)
Fixpoint pushed (depth : nat) (l : list action) : option nat :=
  match l with
  | [] => Some depth
  | PushTheme _ :: r => pushed (S depth) r
  | PopTheme :: r =>
      match depth with
      | O => None
      | S d => pushed d r
      end
  | _ :: r => pushed depth r
  end.

(** An action of the bookmark and preview commands past their checks. *)
Definition uses_results (a : action) : bool :=
  match a with
  | AddToBookmarks _ | ShowSyntax _ _ => true
  | _ => false
  end.

(** A chat with a line that is a command. *)
Definition chats_command (a : action) : bool :=
  match a with
  | Chat s => is_command s
  | _ => false
  end.

(** A prompt for a line, or a chat of the agent. *)
Definition asks (a : action) : bool :=
  match a with
  | AskPrompt | Chat _ => true
  | _ => false
  end.

(** The theme a [/theme] line asks for: its second word, when there is
    one and it is the name of a theme. *)
Definition asked_theme (user_input : string) : option string :=
  match split user_input with
  | _ :: name :: _ => if existsb (String.eqb name) theme_names then Some name else None
  | _ => None
  end.

(** A round in which [Prompt.ask] returns [user_input] and every other
    call returns. *)
Definition typed (user_input : string) : turn :=
  mkTurn (Ok user_input) (Ok tt) (Ok tt) (Ok tt) (Ok "") (Ok tt).

(** What holds of the actions and the end of one round of the loop. *)
Record round_ok (acts : list action) (r : result control) : Prop := mkRoundOk {
  round_exchanges : exchanges acts;
  round_results : existsb uses_results acts = false;
  round_commands : existsb chats_command acts = false;
  round_pushed : forall d, pushed (S d) acts = Some (S d);
  round_state : forall st', r = Ok (Continue st') -> last_results st' = []
}.

(** What holds of the actions of a run of the loop. *)
Record run_ok (acts : list action) : Prop := mkRunOk {
  run_exchanges : exchanges acts;
  run_results : existsb uses_results acts = false;
  run_commands : existsb chats_command acts = false;
  run_pushed : forall d, pushed (S d) acts = Some (S d)
}.

End CliSpec.
Export CliSpec.

(* ===================================================================== *)
(** * Theory *)
(* ===================================================================== *)

Module PyFacts.

(** ** Well-formed values *)

Lemma wf_dict d :
  wf_pyval (PyDict d) = distinct (map fst d) && forallb (fun kv => wf_pyval (snd kv)) d.
Proof.
  cbn [wf_pyval]. f_equal. induction d as [|[k x] d IH]; [reflexivity|].
  cbn [forallb snd]. now rewrite <- IH.
Qed.

(** ** Python equality is an equivalence on well-formed values *)

Lemma py_eq_list la lb :
  py_eq (PyList la) (PyList lb) = true <-> Forall2 (fun x y => py_eq x y = true) la lb.
Proof.
  cbn [py_eq]. revert lb. induction la as [|x la IH]; intros [|y lb]; split; intros H;
    try discriminate; try (inversion H; fail); try constructor.
  - apply andb_true_iff in H. tauto.
  - apply IH. apply andb_true_iff in H. tauto.
  - inversion H; subst. apply andb_true_iff. split; [assumption | now apply IH].
Qed.

Lemma py_eq_dict da db :
  py_eq (PyDict da) (PyDict db) = true <->
  length da = length db
  /\ Forall (fun kv => exists y, dict_lookup (fst kv) db = Some y
                                /\ py_eq (snd kv) y = true) da.
Proof.
  cbn [py_eq]. rewrite andb_true_iff, Nat.eqb_eq.
  apply and_iff_compat_l.
  induction da as [|[k x] da IH]; [split; [constructor | reflexivity]|].
  rewrite andb_true_iff, IH, Forall_cons. cbn [fst snd].
  apply and_iff_compat_r. destruct (dict_lookup k db) as [y|]; split.
  - intros H. now exists y.
  - intros (y' & E & H). now inversion E; subst.
  - discriminate.
  - intros (y' & E & _). discriminate.
Qed.

Lemma distinct_NoDup l : distinct l = true <-> NoDup l.
Proof.
  induction l as [|k l IH]; cbn [distinct]; [split; [constructor | reflexivity]|].
  rewrite andb_true_iff, negb_true_iff, IH, NoDup_cons.
  apply and_iff_compat_r. rewrite list_elem_of_In. split.
  - intros H Hin. apply not_true_iff_false in H. apply H.
    apply existsb_exists. exists k. split; [assumption | apply String.eqb_refl].
  - intros H. apply not_true_iff_false. intros E. apply H.
    apply existsb_exists in E as (k' & Hin & E). apply String.eqb_eq in E. now subst.
Qed.

Lemma dict_lookup_in k x d : dict_lookup k d = Some x -> In (k, x) d.
Proof.
  induction d as [|[k' x'] d IH]; cbn [dict_lookup]; [discriminate|].
  destruct (String.eqb k k') eqn:E.
  - apply String.eqb_eq in E. intros H. inversion H; subst. now left.
  - intros H. right. now apply IH.
Qed.

Lemma dict_lookup_distinct k x d :
  distinct (map fst d) = true -> In (k, x) d -> dict_lookup k d = Some x.
Proof.
  induction d as [|[k' x'] d IH]; [intros _ []|].
  cbn [map fst distinct dict_lookup]. rewrite andb_true_iff, negb_true_iff.
  intros [Hk Hd] [E|Hin].
  - inversion E; subst. now rewrite String.eqb_refl.
  - destruct (String.eqb k k') eqn:E.
    + apply String.eqb_eq in E. subst k'.
      apply not_true_iff_false in Hk. exfalso. apply Hk.
      apply existsb_exists. exists k. split; [|apply String.eqb_refl].
      apply in_map_iff. now exists (k, x).
    + now apply IH.
Qed.

Lemma dict_lookup_key k d : In k (map fst d) -> exists x, dict_lookup k d = Some x.
Proof.
  induction d as [|[k' x'] d IH]; [intros []|].
  cbn [map fst dict_lookup]. destruct (String.eqb k k') eqn:E; [eauto|].
  intros [->|H]; [now rewrite String.eqb_refl in E | now apply IH].
Qed.

Lemma wf_list l : wf_pyval (PyList l) = true <-> Forall (fun x => wf_pyval x = true) l.
Proof.
  cbn [wf_pyval]. rewrite forallb_forall, List.Forall_forall. reflexivity.
Qed.

Lemma wf_dict_iff d :
  wf_pyval (PyDict d) = true <->
  distinct (map fst d) = true /\ Forall (fun kv => wf_pyval (snd kv) = true) d.
Proof.
  rewrite wf_dict, andb_true_iff, forallb_forall, List.Forall_forall. reflexivity.
Qed.

Lemma py_eq_refl v : wf_pyval v = true -> py_eq v v = true.
Proof.
  induction v as [| b | z | s | l IH | d IH] using pyval_induction; intros Hwf.
  - reflexivity.
  - apply Bool.eqb_reflx.
  - apply Z.eqb_refl.
  - apply String.eqb_refl.
  - apply py_eq_list. apply wf_list in Hwf.
    induction IH as [|x l Hx _ IHl]; constructor; inversion Hwf; subst; auto.
  - apply py_eq_dict. split; [reflexivity|].
    apply wf_dict_iff in Hwf as [Hk Hwf].
    apply List.Forall_forall. intros [k x] Hin. cbn [fst snd].
    exists x. split; [now apply dict_lookup_distinct|].
    rewrite List.Forall_forall in IH, Hwf. apply (IH _ Hin), (Hwf _ Hin).
Qed.

Lemma py_eq_sym a :
  forall b, wf_pyval a = true -> wf_pyval b = true ->
            py_eq a b = true -> py_eq b a = true.
Proof.
  induction a as [| x | x | x | la IH | da IH] using pyval_induction;
    intros [| y | y | y | lb | db] Ha Hb H; try discriminate H; cbn [py_eq] in *.
  - reflexivity.
  - destruct x, y; auto.
  - now rewrite Z.eqb_sym.
  - now rewrite Z.eqb_sym.
  - now rewrite Z.eqb_sym.
  - now rewrite String.eqb_sym.
  - apply py_eq_list. apply py_eq_list in H. apply wf_list in Ha, Hb.
    revert IH Ha Hb. induction H as [|x y la lb Hxy _ IHl]; intros IH Ha Hb; constructor;
      inversion IH; inversion Ha; inversion Hb; subst; auto.
  - apply py_eq_dict. apply py_eq_dict in H as [Hlen H].
    apply wf_dict_iff in Ha as [Hka Ha], Hb as [Hkb Hb].
    split; [now symmetry|].
    rewrite List.Forall_forall in IH, Ha, Hb, H |- *.
    assert (Hincl : incl (map fst da) (map fst db)).
    { intros k Hin. apply in_map_iff in Hin as ([k' x] & <- & Hin).
      destruct (H _ Hin) as (y & Hy & _). cbn [fst] in *.
      apply dict_lookup_in in Hy. apply in_map_iff. now exists (k', y). }
    assert (Hback : incl (map fst db) (map fst da)).
    { apply NoDup_length_incl; [|rewrite !length_map; lia|assumption].
      apply NoDup_ListNoDup. now apply distinct_NoDup. }
    intros [k y] Hin. cbn [fst snd].
    assert (Hk : In k (map fst da)) by (apply Hback, in_map_iff; now exists (k, y)).
    destruct (dict_lookup_key k da Hk) as (x & Hx). exists x. split; [assumption|].
    apply dict_lookup_in in Hx.
    destruct (H _ Hx) as (y' & Hy' & Hxy). cbn [fst snd] in *.
    rewrite (dict_lookup_distinct k y db Hkb Hin) in Hy'. inversion Hy'; subst y'.
    apply (IH _ Hx y (Ha _ Hx) (Hb _ Hin) Hxy).
Qed.

Lemma py_eq_trans a :
  forall b c, py_eq a b = true -> py_eq b c = true -> py_eq a c = true.
Proof.
  induction a as [| x | x | x | la IH | da IH] using pyval_induction;
    intros [| y | y | y | lb | db] [| z | z | z | lc | dc] Hab Hbc;
    try discriminate Hab; try discriminate Hbc; cbn [py_eq] in *;
    try (repeat match goal with
                | H : Z.eqb _ _ = true |- _ => apply Z.eqb_eq in H
                end;
         subst;
         repeat match goal with b : bool |- _ => destruct b end;
         cbn in *; try apply Z.eqb_eq; (reflexivity || congruence)).
  - apply String.eqb_eq in Hab, Hbc. apply String.eqb_eq. congruence.
  - apply py_eq_list. apply py_eq_list in Hab, Hbc.
    revert lc IH Hbc. induction Hab as [|x y la lb Hxy _ IHl]; intros lc IH Hbc;
      inversion Hbc; subst; constructor; inversion IH; subst; eauto.
  - apply py_eq_dict. apply py_eq_dict in Hab as [Hl1 Hab], Hbc as [Hl2 Hbc].
    split; [congruence|].
    rewrite List.Forall_forall in IH, Hab, Hbc |- *.
    intros [k x] Hin. cbn [fst snd].
    destruct (Hab _ Hin) as (y & Hy & Hxy). cbn [fst snd] in *.
    destruct (Hbc _ (dict_lookup_in _ _ _ Hy)) as (z & Hz & Hyz). cbn [fst snd] in *.
    exists z. split; [assumption|]. apply (IH _ Hin y z Hxy Hyz).
Qed.

End PyFacts.
Export PyFacts.

Module JsonFacts.

Lemma chars_app a b : chars (a +:+ b) = chars a ++ chars b.
Proof. unfold chars. induction a as [|c a IH]; simpl; [reflexivity | now rewrite IH]. Qed.

Lemma chars_text l : chars (text l) = l.
Proof. apply list_ascii_of_string_of_list_ascii. Qed.

Lemma text_chars s : text (chars s) = s.
Proof. apply string_of_list_ascii_of_string. Qed.

Lemma chars_concat l : chars (String.concat "" l) = flat l.
Proof.
  unfold flat. induction l as [|a [|b r] IH]; simpl in *.
  - reflexivity.
  - now rewrite app_nil_r.
  - rewrite chars_app. simpl in IH. rewrite chars_app. simpl. rewrite <- IH. reflexivity. 
Qed.

Lemma flat_cons a l : flat (a :: l) = chars a ++ flat l.
Proof. reflexivity. Qed.

Lemma flat_app a b : flat (a ++ b) = flat a ++ flat b.
Proof. unfold flat. now rewrite map_app, concat_app. Qed.

(** Strings *)
Lemma scanstring_escape c tail :
  scanstring (escape_char c ++ tail) = scan_cons c (scanstring tail).
Proof.
  destruct c as [[|] [|] [|] [|] [|] [|] [|] [|]]; reflexivity.
Qed.

Lemma scanstring_escaped_chars l rest :
  scanstring (flat_map escape_char l ++ dquote :: rest) = Scanned (text l) rest.
Proof.
  induction l as [|c l IH].
  - reflexivity.
  - change (flat_map escape_char (c :: l)) with (escape_char c ++ flat_map escape_char l).
    rewrite <- app_assoc, scanstring_escape, IH. reflexivity.
Qed.

Lemma scanstring_escaped s rest :
  scanstring (flat_map escape_char (chars s) ++ dquote :: rest) = Scanned s rest.
Proof. now rewrite scanstring_escaped_chars, text_chars. Qed.

Lemma chars_encode_string s :
  chars (py_encode_basestring_ascii s) = dquote :: flat_map escape_char (chars s) ++ [dquote].
Proof. unfold py_encode_basestring_ascii. now rewrite chars_text. Qed.

Lemma nzhead_shape d :
  Decimal.nzhead d = Decimal.Nil \/ leading_nonzero (Decimal.nzhead d).
Proof. induction d; simpl; auto. Qed.

Lemma to_uint_leading p : leading_nonzero (Pos.to_uint p).
Proof.
  pose proof (DecimalPos.Unsigned.to_of (Pos.to_uint p)) as H.
  rewrite DecimalPos.Unsigned.of_to in H. simpl in H.
  pose proof (Unsigned.to_uint_nonzero p) as Hnz.
  rewrite H in Hnz |- *. unfold Decimal.unorm in *.
  destruct (nzhead_shape (Pos.to_uint p)) as [E|E].
  - rewrite E in Hnz. congruence.
  - destruct (Decimal.nzhead (Pos.to_uint p)); simpl in *; tauto.
Qed.

Lemma ends_value_not_digit rest :
  ends_value rest -> scan_digits rest = (Decimal.Nil, rest).
Proof.
  destruct rest as [|c t]; simpl; [reflexivity|].
  intros [->| ->]; reflexivity.
Qed.

Lemma ends_value_int rest :
  ends_value rest -> frac_follows rest || exp_follows rest = false.
Proof.
  destruct rest as [|c t]; simpl; [reflexivity|].
  intros [->| ->]; destruct t; reflexivity.
Qed.

Lemma scan_digits_uint d rest :
  ends_value rest -> scan_digits (uint_chars d ++ rest) = (d, rest).
Proof.
  intros H. unfold uint_chars.
  induction d; simpl; try (rewrite IHd; reflexivity).
  now apply ends_value_not_digit.
Qed.

Lemma uint_chars_head d :
  leading_nonzero d ->
  exists c t, uint_chars d = c :: t /\ is_digit c = true
              /\ Ascii.eqb c "0" = false /\ Ascii.eqb c "-" = false.
Proof.
  destruct d; simpl; try tauto; intros _;
    eexists _, _; (split; [reflexivity|]); repeat split.
Qed.

Lemma match_number_uint d rest :
  leading_nonzero d -> ends_value rest ->
  match_number (uint_chars d ++ rest) = Some (Scanned (PyInt (Z.of_uint d)) rest)
  /\ match_number ("-"%char :: uint_chars d ++ rest)
     = Some (Scanned (PyInt (- Z.of_uint d)) rest).
Proof.
  intros Hd Hr.
  destruct (uint_chars_head d Hd) as (c & t & E & Hdig & H0 & Hm).
  pose proof (scan_digits_uint d rest Hr) as Hs. rewrite E in Hs |- *.
  unfold match_number. cbn [app Ascii.eqb Bool.eqb]. rewrite Hm, H0, Hdig.
  cbn [app] in Hs. rewrite Hs.
  unfold number_result. rewrite (ends_value_int rest Hr). split; reflexivity.
Qed.

Lemma chars_intstr z :
  chars (intstr z) =
  match z with
  | 0%Z => ["0"%char]
  | Z.pos p => uint_chars (Pos.to_uint p)
  | Z.neg p => "-"%char :: uint_chars (Pos.to_uint p)
  end.
Proof.
  unfold intstr, uint_chars. destruct z as [|p|p]; [reflexivity| |];
    pose proof (to_uint_leading p) as H; simpl;
    destruct (Pos.to_uint p); simpl in *; try tauto; reflexivity.
Qed.

Lemma match_number_intstr z rest :
  ends_value rest ->
  match_number (chars (intstr z) ++ rest) = Some (Scanned (PyInt z) rest).
Proof.
  intros H. rewrite chars_intstr. destruct z as [|p|p].
  - cbn [app match_number Ascii.eqb Bool.eqb]. unfold number_result.
    now rewrite (ends_value_int rest H).
  - destruct (match_number_uint _ rest (to_uint_leading p) H) as [-> _].
    unfold Z.of_uint. now rewrite DecimalPos.Unsigned.of_to.
  - destruct (match_number_uint _ rest (to_uint_leading p) H) as [_ E].
    cbn [app]. rewrite E.
    unfold Z.of_uint. now rewrite DecimalPos.Unsigned.of_to.
Qed.

Lemma chars_intstr_head z :
  exists c t, chars (intstr z) = c :: t /\ starts_number c = true.
Proof.
  rewrite chars_intstr. destruct z as [|p|p].
  - eexists _, _; split; reflexivity.
  - destruct (uint_chars_head _ (to_uint_leading p)) as (c & t & E & Hd & _).
    exists c, t. split; [assumption|]. unfold starts_number. now rewrite Hd.
  - eexists _, _; split; reflexivity.
Qed.

(** The scanner on a number: none of the earlier cases applies. *)
Lemma scan_once_number n c t :
  starts_number c = true ->
  scan_once (S n) (c :: t) =
  match match_number (c :: t) with
  | Some r => r
  | None =>
      if is_prefix (chars "NaN") (c :: t) || is_prefix (chars "Infinity") (c :: t)
         || is_prefix (chars "-Infinity") (c :: t)
      then OutsideFragment else Malformed
  end.
Proof.
  intros H.
  destruct c as [[|] [|] [|] [|] [|] [|] [|] [|]]; try discriminate H; reflexivity.
Qed.

Lemma starts_number_value c : starts_number c = true -> starts_value c.
Proof.
  intros H.
  destruct c as [[|] [|] [|] [|] [|] [|] [|] [|]]; try discriminate H; split; reflexivity.
Qed.

Lemma atom_iterencode x a level :
  atom_repr x = Some a -> iterencode x level = [a].
Proof. destruct x as [| [|] | | | |]; simpl; intros E; inversion E; reflexivity. Qed.

Lemma iterencode_head v level :
  exists c t, flat (iterencode v level) = c :: t /\ starts_value c.
Proof.
  destruct v as [| [|] | z | s | [|x l] | [|[k x] d]];
    try (eexists _, _; split; [reflexivity | split; reflexivity]).
  - destruct (chars_intstr_head z) as (c & t & E & H).
    exists c, t. split.
    + simpl. unfold flat. simpl. now rewrite app_nil_r.
    + now apply starts_number_value.
  - simpl iterencode.
    destruct (atom_repr x); rewrite ?app_comm_cons; eexists _, _;
      (split; [reflexivity | split; reflexivity]).
Qed.

Lemma skip_ws_value c t : starts_value c -> skip_ws (c :: t) = c :: t.
Proof. intros [H _]. simpl. now rewrite H. Qed.

Lemma skip_ws_spaces n s : skip_ws (repeat " "%char n ++ s) = skip_ws s.
Proof. induction n; simpl; auto. Qed.

Lemma skip_ws_newline_indent level s :
  skip_ws (chars (newline_indent level) ++ s) = skip_ws s.
Proof.
  unfold newline_indent. rewrite chars_text. simpl. apply skip_ws_spaces.
Qed.

Lemma newline_indent_ends level s : ends_value (chars (newline_indent level) ++ s).
Proof. unfold newline_indent. rewrite chars_text. simpl. now right. Qed.

(** ** The decoder reads back what the encoder wrote *)

Lemma flat_one a : flat [a] = chars a.
Proof. unfold flat. simpl. apply app_nil_r. Qed.

Lemma round_trips_none : round_trips PyNone.
Proof. intros _ level rest [|n] _ Hf; [inversion Hf | reflexivity]. Qed.

Lemma round_trips_bool b : round_trips (PyBool b).
Proof. intros _ level rest [|n] _ Hf; [inversion Hf | destruct b; reflexivity]. Qed.

Lemma round_trips_int z : round_trips (PyInt z).
Proof.
  intros _ level rest [|n] Hr Hf; [inversion Hf|].
  cbn [iterencode]. rewrite flat_one.
  destruct (chars_intstr_head z) as (c & t & E & Hc).
  pose proof (match_number_intstr z rest Hr) as Hm.
  rewrite E in Hm |- *. cbn [app] in Hm |- *.
  now rewrite (scan_once_number n c _ Hc), Hm.
Qed.

Lemma round_trips_str s : round_trips (PyStr s).
Proof.
  intros _ level rest [|n] Hr Hf; [inversion Hf|].
  cbn [iterencode]. rewrite flat_one, chars_encode_string.
  rewrite <- app_comm_cons, <- app_assoc.
  change ([dquote] ++ rest) with (dquote :: rest).
  change (scan_once (S n) (dquote :: ?t)) with
    (match scanstring t with
     | Scanned x r => Scanned (PyStr x) r
     | Malformed => Malformed
     | OutsideFragment => OutsideFragment
     | NoFuel => NoFuel
     end).
  now rewrite scanstring_escaped.
Qed.

(** *** Lists *)

Lemma list_chunks_cons level first x r :
  flat (list_chunks (enc_at level) level first (x :: r)) =
  chars (if first then "[" else ",") ++ chars (newline_indent (S level))
  ++ flat (iterencode x (S level)) ++ flat (list_chunks (enc_at level) level false r).
Proof.
  cbn [list_chunks]. rewrite flat_app.
  destruct (atom_repr x) as [a|] eqn:E.
  - rewrite (atom_iterencode x a (S level) E), !flat_one, !chars_app.
    now rewrite <- !app_assoc.
  - rewrite flat_cons, chars_app. unfold enc_at. now rewrite <- !app_assoc.
Qed.

Lemma items_tail_ends level r rest : ends_value (items_tail level r rest).
Proof.
  unfold items_tail. destruct r as [|y r].
  - apply newline_indent_ends.
  - rewrite list_chunks_cons. simpl. now left.
Qed.

Lemma array_loop_items level rest r :
  forall x acc fuel,
    Forall round_trips (x :: r) ->
    forallb wf_pyval (x :: r) = true ->
    2 * length (flat (iterencode x (S level)) ++ items_tail level r rest) + 1 < fuel ->
    array_loop fuel (flat (iterencode x (S level)) ++ items_tail level r rest) acc
    = Scanned (PyList (acc ++ x :: r)) rest.
Proof.
  induction r as [|y r IH]; intros x acc [|n] Hall Hwf Hf; try (inversion Hf; fail);
    apply Forall_cons in Hall as [Hx Hall];
    cbn [forallb] in Hwf; apply andb_true_iff in Hwf as [Hwx Hwf];
    cbn [array_loop];
    rewrite (Hx Hwx (S level) _ n (items_tail_ends level _ rest)) by lia.
  - unfold items_tail. cbn [list_chunks flat map concat app].
    rewrite skip_ws_newline_indent. reflexivity.
  - unfold items_tail at 1. rewrite list_chunks_cons. cbn [chars list_ascii_of_string app].
    cbn [skip_ws is_ws Ascii.eqb Bool.eqb orb].
    rewrite <- !app_assoc, skip_ws_newline_indent.
    fold (items_tail level r rest).
    destruct (iterencode_head y (S level)) as (c & t & E & Hc).
    assert (Hskip : skip_ws (flat (iterencode y (S level)) ++ items_tail level r rest)
                    = flat (iterencode y (S level)) ++ items_tail level r rest).
    { rewrite E. apply (skip_ws_value c _ Hc). }
    rewrite Hskip, (IH y (acc ++ [x]) n Hall Hwf).
    + now rewrite <- app_assoc.
    + revert Hf. unfold items_tail. rewrite list_chunks_cons, !length_app.
      change (length (chars ",")) with 1. cbn [length]. lia.
Qed.

Lemma round_trips_list l : Forall round_trips l -> round_trips (PyList l).
Proof.
  intros Hall Hwf level rest [|n] Hr Hf; [inversion Hf|].
  destruct l as [|x r]; [reflexivity|].
  cbn [wf_pyval] in Hwf.
  assert (E : flat (iterencode (PyList (x :: r)) level) ++ rest
              = "["%char :: chars (newline_indent (S level))
                ++ flat (iterencode x (S level)) ++ items_tail level r rest).
  { change (iterencode (PyList (x :: r)) level)
      with (list_chunks (enc_at level) level true (x :: r) ++ [newline_indent level; "]"]).
    rewrite flat_app, list_chunks_cons. unfold items_tail.
    rewrite !flat_cons. cbn [flat map concat chars list_ascii_of_string app].
    now rewrite <- !app_assoc. }
  rewrite E in Hf |- *.
  change (scan_once (S n) ("["%char :: ?t)) with
    (match skip_ws t with
     | c1 :: t1 =>
         if Ascii.eqb c1 "]" then Scanned (PyList []) t1
         else array_loop n (c1 :: t1) []
     | [] => Malformed
     end).
  rewrite skip_ws_newline_indent.
  destruct (iterencode_head x (S level)) as (c & t & Ex & Hc).
  pose proof (array_loop_items level rest r x [] n Hall Hwf) as Hloop.
  rewrite Ex in Hf, Hloop |- *. cbn [app] in Hf, Hloop |- *.
  rewrite (skip_ws_value c _ Hc). destruct Hc as [_ ->].
  apply Hloop. revert Hf. cbn [length]. rewrite ?length_app. cbn [length].
  rewrite ?length_app. lia.
Qed.

(** *** Dictionaries *)

Lemma dict_chunks_cons level first k x r :
  flat (dict_chunks (enc_at level) level first ((k, x) :: r)) =
  (if first then [] else ","%char :: chars (newline_indent (S level)))
  ++ dquote :: flat_map escape_char (chars k)
  ++ dquote :: ":"%char :: " "%char :: flat (iterencode x (S level))
  ++ flat (dict_chunks (enc_at level) level false r).
Proof.
  cbn [dict_chunks]. rewrite flat_app, flat_cons, flat_cons, flat_app, chars_encode_string.
  unfold enc_at. destruct first; cbn [flat map concat chars list_ascii_of_string app];
    rewrite ?chars_app, <- ?app_assoc; cbn [chars list_ascii_of_string app];
    rewrite ?app_nil_r; reflexivity.
Qed.

Lemma entries_tail_ends level r rest : ends_value (entries_tail level r rest).
Proof.
  unfold entries_tail. destruct r as [|[k y] r].
  - apply newline_indent_ends.
  - rewrite dict_chunks_cons. simpl. now left.
Qed.

Lemma object_loop_entries level rest r :
  forall k x acc fuel,
    Forall (fun kv => round_trips (snd kv)) ((k, x) :: r) ->
    forallb (fun kv => wf_pyval (snd kv)) ((k, x) :: r) = true ->
    2 * length (entry_text level k x ++ entries_tail level r rest) + 1 < fuel ->
    object_loop fuel (entry_text level k x ++ entries_tail level r rest) acc
    = Scanned (PyDict (dict_of_pairs (acc ++ (k, x) :: r))) rest.
Proof.
  induction r as [|[k' y] r IH]; intros k x acc [|n] Hall Hwf Hf;
    try (inversion Hf; fail);
    apply Forall_cons in Hall as [Hx Hall]; cbn [snd] in Hx;
    cbn [forallb snd] in Hwf; apply andb_true_iff in Hwf as [Hwx Hwf];
    cbn [object_loop]; unfold entry_text in *; rewrite <- !app_assoc in *;
    cbn [app] in *; rewrite scanstring_escaped;
    cbn [skip_ws is_ws Ascii.eqb Bool.eqb orb];
    destruct (iterencode_head x (S level)) as (c & t & E & Hc);
    assert (Hskip : forall tail, skip_ws (flat (iterencode x (S level)) ++ tail)
                    = flat (iterencode x (S level)) ++ tail)
      by (intros tail; rewrite E; apply (skip_ws_value c _ Hc));
    rewrite Hskip;
    rewrite (Hx Hwx (S level) _ n (entries_tail_ends level _ rest))
      by (revert Hf; rewrite !length_app; cbn [length]; rewrite !length_app; lia).
  - unfold entries_tail. cbn [dict_chunks flat map concat app].
    rewrite skip_ws_newline_indent. reflexivity.
  - unfold entries_tail at 1. rewrite dict_chunks_cons. cbn [app].
    cbn [skip_ws is_ws Ascii.eqb Bool.eqb orb].
    rewrite <- !app_assoc, skip_ws_newline_indent. cbn [app skip_ws].
    change (is_ws dquote) with false. cbn iota.
    change (Ascii.eqb dquote dquote) with true. cbn iota.
    rewrite <- !app_assoc. cbn [app]. rewrite <- ?app_assoc.
    fold (entries_tail level r rest).
    pose proof (IH k' y (acc ++ [(k, x)]) n Hall Hwf) as Hloop.
    unfold entry_text in Hloop. rewrite <- !app_assoc in Hloop. cbn [app] in Hloop.
    rewrite <- ?app_assoc in Hloop.
    apply Hloop.
    revert Hf. unfold entries_tail. rewrite dict_chunks_cons.
    rewrite ?length_app. cbn [length]. rewrite ?length_app. cbn [length].
    rewrite ?length_app. cbn [length]. rewrite ?length_app. lia.
Qed.

Lemma dict_set_fresh acc k v :
  existsb (String.eqb k) (map fst acc) = false -> dict_set acc k v = acc ++ [(k, v)].
Proof.
  induction acc as [|[k' v'] acc IH]; cbn [dict_set map fst existsb app]; [reflexivity|].
  intros H. apply orb_false_iff in H as [-> H]. now rewrite IH.
Qed.

Lemma dict_of_pairs_distinct_from acc d :
  distinct (map fst (acc ++ d)) = true ->
  fold_left (fun d kv => dict_set d (fst kv) (snd kv)) d acc = acc ++ d.
Proof.
  revert acc. induction d as [|[k v] d IH]; intros acc H; cbn [fold_left].
  - now rewrite app_nil_r.
  - cbn [fst snd]. rewrite dict_set_fresh.
    + rewrite IH; rewrite <- app_assoc; [reflexivity | exact H].
    + clear IH. induction acc as [|[k' v'] acc IHa]; [reflexivity|].
      cbn [app map fst distinct existsb] in H |- *.
      apply andb_true_iff in H as [H1 H2].
      rewrite (IHa H2), orb_false_r.
      rewrite map_app, existsb_app in H1. cbn [map fst existsb] in H1.
      apply negb_true_iff in H1. apply orb_false_iff in H1 as [_ H1].
      apply orb_false_iff in H1 as [H1 _].
      rewrite String.eqb_sym. exact H1.
Qed.

Lemma dict_of_pairs_distinct d :
  distinct (map fst d) = true -> dict_of_pairs d = d.
Proof. intros H. apply (dict_of_pairs_distinct_from [] d H). Qed.

Lemma round_trips_dict d :
  Forall (fun kv => round_trips (snd kv)) d -> round_trips (PyDict d).
Proof.
  intros Hall Hwf level rest [|n] Hr Hf; [inversion Hf|].
  destruct d as [|[k x] r]; [reflexivity|].
  rewrite wf_dict in Hwf. apply andb_true_iff in Hwf as [Hkeys Hwf].
  assert (E : flat (iterencode (PyDict ((k, x) :: r)) level) ++ rest
              = "{"%char :: chars (newline_indent (S level))
                ++ dquote :: entry_text level k x ++ entries_tail level r rest).
  { change (iterencode (PyDict ((k, x) :: r)) level)
      with ("{" :: newline_indent (S level)
            :: dict_chunks (enc_at level) level true ((k, x) :: r)
            ++ [newline_indent level; "}"]).
    rewrite !flat_cons, flat_app, dict_chunks_cons. unfold entries_tail, entry_text.
    rewrite !flat_cons. cbn [flat map concat chars list_ascii_of_string app].
    repeat first [rewrite <- app_assoc | progress cbn [app]]. reflexivity. }
  rewrite E in Hf |- *.
  change (scan_once (S n) ("{"%char :: ?t)) with
    (match skip_ws t with
     | c1 :: t1 =>
         if Ascii.eqb c1 "}" then Scanned (PyDict []) t1
         else if Ascii.eqb c1 dquote then object_loop n t1 []
         else Malformed
     | [] => Malformed
     end).
  rewrite skip_ws_newline_indent. cbn [skip_ws].
  change (is_ws dquote) with false. cbn iota.
  change (Ascii.eqb dquote "}") with false. change (Ascii.eqb dquote dquote) with true.
  cbn iota.
  rewrite (object_loop_entries level rest r k x [] n Hall Hwf).
  - cbn [app]. now rewrite (dict_of_pairs_distinct _ Hkeys).
  - revert Hf. cbn [length]. rewrite ?length_app. cbn [length].
    rewrite ?length_app. lia.
Qed.

Lemma round_trips_all v : round_trips v.
Proof.
  induction v using pyval_induction.
  - apply round_trips_none.
  - apply round_trips_bool.
  - apply round_trips_int.
  - apply round_trips_str.
  - now apply round_trips_list.
  - now apply round_trips_dict.
Qed.

Theorem json_loads_dumps v : wf_pyval v = true -> json_loads (json_dumps v) = Returns v.
Proof.
  intros Hwf. unfold json_loads, json_dumps. rewrite chars_concat.
  destruct (iterencode_head v 0) as (c & t & E & Hc).
  assert (Hskip : skip_ws (flat (iterencode v 0)) = flat (iterencode v 0))
    by (rewrite E; apply (skip_ws_value c _ Hc)).
  rewrite Hskip.
  pose proof (round_trips_all v Hwf 0 [] (S (2 * length (flat (iterencode v 0)))) I) as H.
  rewrite app_nil_r in H. rewrite H by lia. reflexivity.
Qed.

(** ** The decoder never runs out of fuel *)

Lemma skip_ws_length s : length (skip_ws s) <= length s.
Proof.
  induction s as [|c t IH]; cbn [skip_ws]; [lia|].
  destruct (is_ws c); cbn [length] in *; lia.
Qed.

Lemma progresses_cons c (s t : list ascii) r :
  length t < length s -> progresses t r -> progresses s (scan_cons c r).
Proof. destruct r; cbn [scan_cons progresses]; auto; lia. Qed.

Lemma scanstring_progresses_upto n :
  forall s, length s <= n -> progresses (dquote :: s) (scanstring s).
Proof.
  induction n as [|n IH]; intros [|c t] Hn; cbn [length] in Hn; try lia;
    cbn [scanstring]; try exact I.
  destruct (Ascii.eqb c dquote); [cbn [progresses length]; lia|].
  destruct (Ascii.eqb c backslash).
  - destruct t as [|e t1]; [exact I|]. cbn [length] in Hn.
    destruct (Ascii.eqb e "u").
    + destruct t1 as [|h1 [|h2 [|h3 [|h4 t2]]]]; try exact I. cbn [length] in Hn.
      destruct (decode_uXXXX h1 h2 h3 h4) as [k|]; [|exact I].
      destruct (k <? 256)%nat; [|exact I].
      apply (progresses_cons _ _ (dquote :: t2)); [cbn [length]; lia|].
      apply IH. lia.
    + destruct (unescape e); [|exact I].
      apply (progresses_cons _ _ (dquote :: t1)); [cbn [length]; lia|].
      apply IH. lia.
  - destruct (nat_of_ascii c <? 32)%nat; [exact I|].
    apply (progresses_cons _ _ (dquote :: t)); [cbn [length]; lia|].
    apply IH. lia.
Qed.

Lemma scanstring_progresses s : progresses (dquote :: s) (scanstring s).
Proof. now apply (scanstring_progresses_upto (length s)). Qed.

Lemma scan_digits_length s : length (snd (scan_digits s)) <= length s.
Proof.
  induction s as [|c t IH]; cbn [scan_digits]; [cbn; lia|].
  destruct (digit c); [|cbn [snd length]; lia].
  destruct (scan_digits t). cbn [snd length] in *. lia.
Qed.

Lemma number_result_progresses neg d (s rest : list ascii) :
  length rest < length s -> progresses s (number_result neg d rest).
Proof. unfold number_result. now destruct (_ || _). Qed.

Lemma match_number_progresses s r :
  match_number s = Some r -> progresses s r.
Proof.
  unfold match_number.
  assert (H : forall neg (s1 : list ascii),
             length s1 <= length s ->
             match s1 with
             | c :: t =>
                 if Ascii.eqb c "0"
                 then Some (number_result neg (Decimal.D0 Decimal.Nil) t)
                 else if is_digit c
                      then let (d, r) := scan_digits s1 in Some (number_result neg d r)
                      else None
             | [] => None
             end = Some r -> progresses s r).
  { intros neg [|c t] Hl; [discriminate|]. cbn [length] in Hl.
    destruct (Ascii.eqb c "0").
    - intros E. inversion E. apply number_result_progresses. lia.
    - destruct (is_digit c) eqn:Hd; [|discriminate].
      pose proof (scan_digits_length t) as Ht.
      cbn [scan_digits]. unfold is_digit in Hd. destruct (digit c); [|discriminate].
      destruct (scan_digits t) as [d r']. cbn [snd] in Ht.
      intros E. inversion E. apply number_result_progresses. lia. }
  destruct s as [|c t]; [discriminate|].
  destruct (Ascii.eqb c "-"); [apply (H true t) | apply (H false (c :: t))];
    cbn [length]; lia.
Qed.

Lemma progresses_shorter {A} (s t : list ascii) (r : scan A) :
  length t <= length s -> progresses t r -> progresses s r.
Proof. destruct r; cbn [progresses]; auto; lia. Qed.

Lemma fuel_ok_all fuel : fuel_ok fuel.
Proof.
  induction fuel as [|n (IHs & IHa & IHo)]; [repeat split; intros; lia|].
  repeat split.
  - intros [|c t] Hf; [exact I|]. cbn [length] in Hf. cbn [scan_once].
    destruct (Ascii.eqb c dquote).
    { pose proof (scanstring_progresses t) as H.
      destruct (scanstring t); cbn [progresses length] in *; auto. }
    destruct (Ascii.eqb c "{").
    { pose proof (skip_ws_length t) as Hl.
      destruct (skip_ws t) as [|c1 t1]; [exact I|]. cbn [length] in Hl.
      destruct (Ascii.eqb c1 "}"); [cbn [progresses length]; lia|].
      destruct (Ascii.eqb c1 dquote); [|exact I].
      apply (progresses_shorter _ (dquote :: t1)); [cbn [length]; lia|].
      apply IHo. lia. }
    destruct (Ascii.eqb c "[").
    { pose proof (skip_ws_length t) as Hl.
      destruct (skip_ws t) as [|c1 t1]; [exact I|]. cbn [length] in Hl.
      destruct (Ascii.eqb c1 "]"); [cbn [progresses length]; lia|].
      apply (progresses_shorter _ (c1 :: t1)); [cbn [length]; lia|].
      apply IHa. cbn [length]. lia. }
    destruct (is_prefix (chars "null") (c :: t)).
    { cbn [progresses]. rewrite length_drop. cbn [length]. lia. }
    destruct (is_prefix (chars "true") (c :: t)).
    { cbn [progresses]. rewrite length_drop. cbn [length]. lia. }
    destruct (is_prefix (chars "false") (c :: t)).
    { cbn [progresses]. rewrite length_drop. cbn [length]. lia. }
    destruct (match_number (c :: t)) as [r|] eqn:E.
    { now apply match_number_progresses. }
    now destruct (_ || _).
  - intros s acc Hf. cbn [array_loop].
    pose proof (IHs s ltac:(lia)) as H.
    destruct (scan_once n s) as [v r| | |]; cbn [progresses] in *; auto.
    pose proof (skip_ws_length r) as Hl.
    destruct (skip_ws r) as [|c t]; [exact I|]. cbn [length] in Hl.
    destruct (Ascii.eqb c "]"); [cbn [progresses]; lia|].
    destruct (Ascii.eqb c ","); [|exact I].
    pose proof (skip_ws_length t) as Hl2.
    apply (progresses_shorter _ (skip_ws t)); [lia|].
    apply IHa. lia.
  - intros s acc Hf. cbn [object_loop].
    pose proof (scanstring_progresses s) as H.
    destruct (scanstring s) as [k r| | |]; cbn [progresses length] in *; auto.
    pose proof (skip_ws_length r) as Hl.
    destruct (skip_ws r) as [|c t]; [exact I|]. cbn [length] in Hl.
    destruct (Ascii.eqb c ":"); [|exact I].
    pose proof (skip_ws_length t) as Hl2.
    pose proof (IHs (skip_ws t) ltac:(lia)) as Hv.
    destruct (scan_once n (skip_ws t)) as [v r1| | |]; cbn [progresses] in *; auto.
    pose proof (skip_ws_length r1) as Hl3.
    destruct (skip_ws r1) as [|c1 t1]; [exact I|]. cbn [length] in Hl3.
    destruct (Ascii.eqb c1 "}"); [cbn [progresses length]; lia|].
    destruct (Ascii.eqb c1 ","); [|exact I].
    pose proof (skip_ws_length t1) as Hl4.
    destruct (skip_ws t1) as [|c2 t2]; [exact I|]. cbn [length] in Hl4.
    destruct (Ascii.eqb c2 dquote); [|exact I].
    apply (progresses_shorter _ (dquote :: t2)); [cbn [length]; lia|].
    apply IHo. lia.
Qed.

(** [json_loads] answers [Unmodelled] only for text outside the
    fragment: the fuel it gives the scanner is always enough. *)
Theorem json_loads_unmodelled s :
  json_loads s = Unmodelled ->
  scan_once (S (2 * length (skip_ws (chars s)))) (skip_ws (chars s)) = OutsideFragment.
Proof.
  unfold json_loads.
  pose proof (proj1 (fuel_ok_all (S (2 * length (skip_ws (chars s)))))
                (skip_ws (chars s)) ltac:(lia)) as H.
  destruct (scan_once _ _) as [v r| | |]; try discriminate; try reflexivity.
  - destruct (skip_ws r); discriminate.
  - destruct H.
Qed.

End JsonFacts.
Export JsonFacts.

Module StoreFacts.

(** ** The methods, call by call *)

Lemma world_eta w : mkWorld (self w) (fs w) = w.
Proof. now destruct w. Qed.

Lemma store_eta s :
  mkHistoryManager (filepath s) (history s) (bookmarks s) (sessions s) = s.
Proof. now destruct s. Qed.

(** *** save and save_async *)

Lemma append_empty (a : string) : a +:+ "" = a.
Proof.
  induction a as [|c a IH]; [reflexivity|].
  change (String c a +:+ "") with (String c (a +:+ "")). now rewrite IH.
Qed.

Lemma concat_cons a l : String.concat "" (a :: l) = a +:+ String.concat "" l.
Proof.
  destruct l as [|b l].
  - cbn [String.concat]. symmetry. apply append_empty.
  - reflexivity.
Qed.

Lemma append_assoc (a b c : string) : (a +:+ b) +:+ c = a +:+ (b +:+ c).
Proof.
  induction a as [|x a IH]; [reflexivity|].
  change ((String x a +:+ b) +:+ c) with (String x ((a +:+ b) +:+ c)).
  now rewrite IH.
Qed.

Lemma write_chunks path chunks :
  forall x (d : gmap string node),
    fold_left (fun d chunk => file_write path chunk d) chunks (<[path := File x]> d)
    = <[path := File (x +:+ String.concat "" chunks)]> d.
Proof.
  induction chunks as [|a l IH]; intros x d; cbn [fold_left].
  - cbn [String.concat]. now rewrite append_empty.
  - unfold file_write at 2. rewrite lookup_insert_eq, insert_insert_eq, IH.
    now rewrite concat_cons, append_assoc.
Qed.

Lemma write_once path chunk x (d : gmap string node) :
  file_write path chunk (<[path := File x]> d) = <[path := File (x +:+ chunk)]> d.
Proof. unfold file_write. now rewrite lookup_insert_eq, insert_insert_eq. Qed.

Lemma open_w_returns path (d d' : gmap string node) :
  open_w path d = (d', Returns tt) -> d' = <[path := File ""]> d.
Proof. unfold open_w. destruct (d !! path) as [[|]|]; intros H; now inversion H. Qed.

Lemma save_run w : save w = save_result w.
Proof.
  unfold save, save_result, json_dump. unfold_M. cbn [self fs].
  destruct (os_makedirs _ _) as [fs1 [[]|e|]]; cbn [self fs]; try reflexivity.
  destruct (open_w _ fs1) as [fs2 [[]|e|]] eqn:E; cbn [self fs]; try reflexivity.
  apply open_w_returns in E. subst fs2.
  now rewrite write_chunks.
Qed.

Lemma save_async_run w : save_async w = save_result w.
Proof.
  unfold save_async, save_result. unfold_M. cbn [self fs].
  destruct (os_makedirs _ _) as [fs1 [[]|e|]]; cbn [self fs]; try reflexivity.
  destruct (open_w _ fs1) as [fs2 [[]|e|]] eqn:E; cbn [self fs]; try reflexivity.
  apply open_w_returns in E. subst fs2.
  now rewrite write_once.
Qed.

Lemma save_self w : self (fst (save w)) = self w.
Proof.
  rewrite save_run. unfold save_result.
  destruct (os_makedirs _ _) as [fs1 [[]|e|]]; try reflexivity.
  destruct (open_w _ fs1) as [fs2 [[]|e|]]; reflexivity.
Qed.

Lemma save_returns_file w w' :
  save w = (w', Returns tt) ->
  self w' = self w
  /\ fs w' !! filepath (self w) = Some (File (json_dumps (data_of (self w)))).
Proof.
  rewrite save_run. unfold save_result.
  destruct (os_makedirs _ _) as [fs1 [[]|e|]]; try discriminate.
  destruct (open_w _ fs1) as [fs2 [[]|e|]]; try discriminate.
  intros H. inversion H; subst. cbn [self fs]. split; [reflexivity|].
  apply lookup_insert_eq.
Qed.

(** *** load and load_async *)

Lemma load_run w : load w = load_result w.
Proof.
  destruct w as [s d].
  unfold load, load_result, json_load, populate, reset, try_except. unfold_M.
  unfold os_path_isfile, read_text. cbn.
  destruct (d !! filepath s) as [[c|]|] eqn:E; cbn; rewrite ?E; try reflexivity.
  destruct (json_loads c) as [[| | | | |]|e|];
    cbn [py_get self fs filepath history bookmarks sessions]; reflexivity.
Qed.

Lemma load_async_run w : load_async w = load_result w.
Proof.
  destruct w as [s d].
  unfold load_async, load_result, populate, reset, try_except. unfold_M.
  unfold os_path_isfile, read_text. cbn.
  destruct (d !! filepath s) as [[c|]|] eqn:E; cbn; rewrite ?E; try reflexivity.
  destruct (json_loads c) as [[| | | | |]|e|];
    cbn [py_get self fs filepath history bookmarks sessions]; reflexivity.
Qed.

(** *** The edits *)

Lemma append_run msg w :
  append msg w =
  match history (self w) with
  | PyList l =>
      (mkWorld (mkHistoryManager (filepath (self w)) (PyList (l ++ [msg]))
                  (bookmarks (self w)) (sessions (self w))) (fs w), Returns tt)
  | _ => (w, Raises AttributeError)
  end.
Proof.
  unfold append, py_append. unfold_M.
  destruct (history (self w)); reflexivity.
Qed.

Lemma clear_run w :
  clear w =
  match py_clear (history (self w)) with
  | Returns h =>
      (mkWorld (mkHistoryManager (filepath (self w)) h
                  (bookmarks (self w)) (sessions (self w))) (fs w), Returns tt)
  | Raises e => (w, Raises e)
  | Unmodelled => (w, Unmodelled)
  end.
Proof.
  unfold clear. unfold_M. destruct (py_clear _); reflexivity.
Qed.

Lemma add_session_run session w :
  add_session session w =
  match sessions (self w) with
  | PyList l =>
      save (mkWorld (mkHistoryManager (filepath (self w)) (history (self w))
                       (bookmarks (self w)) (PyList (l ++ [session]))) (fs w))
  | _ => (w, Raises AttributeError)
  end.
Proof.
  unfold add_session, py_append. unfold_M.
  destruct (sessions (self w)); reflexivity.
Qed.

Lemma add_bookmark_run doc w :
  add_bookmark doc w =
  match py_contains (bookmarks (self w)) doc with
  | Returns true => (w, Returns tt)
  | Returns false =>
      match bookmarks (self w) with
      | PyList l =>
          save (mkWorld (mkHistoryManager (filepath (self w)) (history (self w))
                           (PyList (l ++ [doc])) (sessions (self w))) (fs w))
      | _ => (w, Raises AttributeError)
      end
  | Raises e => (w, Raises e)
  | Unmodelled => (w, Unmodelled)
  end.
Proof.
  unfold add_bookmark. unfold_M.
  destruct (py_contains _ _) as [[|]|e|]; cbn [negb]; try reflexivity.
  unfold py_append. destruct (bookmarks (self w)); reflexivity.
Qed.

(** ** Paths *)

Lemma drop_while_all p l : forallb p l = true -> drop_while p l = [].
Proof.
  induction l as [|c l IH]; cbn [forallb drop_while]; [reflexivity|].
  intros H. apply andb_true_iff in H as [-> H]. now apply IH.
Qed.

Lemma forallb_rev {A} (p : A -> bool) l : forallb p (rev l) = forallb p l.
Proof.
  induction l as [|c l IH]; [reflexivity|].
  cbn [rev forallb]. rewrite forallb_app, IH. cbn [forallb].
  rewrite andb_true_r. apply andb_comm.
Qed.

Lemma dirname_bare p : bare_filename p = true -> os_path_dirname p = "".
Proof.
  unfold bare_filename, os_path_dirname. intros H.
  rewrite drop_while_all by now rewrite forallb_rev. reflexivity.
Qed.

Lemma load_object w c d :
  fs w !! filepath (self w) = Some (File c) ->
  json_loads c = Returns (PyDict d) ->
  load w = (mkWorld (loaded (self w) d) (fs w), Returns tt)
  /\ load_async w = (mkWorld (loaded (self w) d) (fs w), Returns tt).
Proof.
  intros Hf Hd. rewrite load_async_run, load_run. unfold load_result.
  rewrite Hf, Hd. split; reflexivity.
Qed.

Lemma load_non_object_raises w c v :
  fs w !! filepath (self w) = Some (File c) ->
  json_loads c = Returns v ->
  (forall d, v <> PyDict d) ->
  load w = (w, Raises AttributeError) /\ load_async w = (w, Raises AttributeError).
Proof.
  intros Hf Hd Hv. rewrite load_async_run, load_run. unfold load_result.
  rewrite Hf, Hd. destruct v; try (split; reflexivity). now destruct (Hv d).
Qed.

(** ** Bookmarks *)

Lemma list_contains_snoc l x y :
  list_contains (l ++ [x]) y = list_contains l y || py_eq y x.
Proof. unfold list_contains. rewrite existsb_app. cbn [existsb]. now rewrite orb_false_r. Qed.

Lemma py_eq_sym_false a b :
  wf_pyval a = true -> wf_pyval b = true -> py_eq a b = false -> py_eq b a = false.
Proof.
  intros Ha Hb H. apply not_true_iff_false. intros E.
  apply (py_eq_sym b a Hb Ha) in E. congruence.
Qed.

Lemma distinct_by_value_snoc l doc :
  forallb wf_pyval l = true -> wf_pyval doc = true ->
  distinct_by_value l = true -> list_contains l doc = false ->
  distinct_by_value (l ++ [doc]) = true.
Proof.
  intros Hwf Hd. induction l as [|x r IH]; [reflexivity|].
  cbn [forallb] in Hwf. apply andb_true_iff in Hwf as [Hx Hr].
  cbn [distinct_by_value app]. unfold list_contains at 2. cbn [existsb].
  rewrite andb_true_iff, negb_true_iff, orb_false_iff. intros [H1 H2] [H3 H4].
  apply andb_true_iff. split; [|now apply IH].
  apply negb_true_iff. rewrite list_contains_snoc, H1.
  now apply py_eq_sym_false.
Qed.

Lemma count_by_value_none l doc :
  list_contains l doc = false -> count_by_value doc l = 0%nat.
Proof.
  unfold count_by_value, list_contains. induction l as [|x r IH]; [reflexivity|].
  cbn [existsb List.filter]. rewrite orb_false_iff. intros [-> H]. now apply IH.
Qed.

Lemma count_by_value_snoc l doc :
  wf_pyval doc = true ->
  count_by_value doc (l ++ [doc]) = S (count_by_value doc l).
Proof.
  intros Hd. unfold count_by_value. rewrite List.filter_app, length_app.
  cbn [List.filter]. rewrite (py_eq_refl doc Hd). cbn [length]. lia.
Qed.

Lemma list_contains_equal l x y :
  py_eq x y = true -> list_contains l y = true -> list_contains l x = true.
Proof.
  unfold list_contains. intros Hxy H.
  apply existsb_exists in H as (e & Hin & He). apply existsb_exists.
  exists e. split; [assumption|]. now apply (py_eq_trans x y e).
Qed.

Lemma count_by_value_one l doc :
  forallb wf_pyval l = true -> wf_pyval doc = true ->
  distinct_by_value l = true -> list_contains l doc = true ->
  count_by_value doc l = 1%nat.
Proof.
  intros Hwf Hd. induction l as [|x r IH]; [discriminate|].
  cbn [forallb] in Hwf. apply andb_true_iff in Hwf as [Hx Hr].
  cbn [distinct_by_value]. unfold list_contains at 2, count_by_value.
  cbn [existsb List.filter].
  rewrite andb_true_iff, negb_true_iff. intros [H1 H2] H3.
  destruct (py_eq doc x) eqn:E; cbn [length].
  - f_equal. apply (count_by_value_none r doc).
    apply not_true_iff_false. intros Hc.
    apply (list_contains_equal r x doc) in Hc; [congruence|].
    now apply py_eq_sym.
  - now apply IH.
Qed.

Lemma add_bookmark_list doc w l :
  bookmarks (self w) = PyList l ->
  self (fst (add_bookmark doc w)) =
  mkHistoryManager (filepath (self w)) (history (self w))
    (PyList (if list_contains l doc then l else l ++ [doc])) (sessions (self w)).
Proof.
  intros H. rewrite add_bookmark_run, H. cbn [py_contains].
  destruct (list_contains l doc).
  - cbn [fst]. rewrite <- H. apply eq_sym, store_eta.
  - now rewrite save_self.
Qed.

Lemma wf_snoc l x :
  forallb wf_pyval l = true -> wf_pyval x = true -> forallb wf_pyval (l ++ [x]) = true.
Proof. intros Hl Hx. rewrite forallb_app, Hl. cbn [forallb]. now rewrite Hx. Qed.

(** Adding twice. *)
Lemma add_bookmark_twice doc w l :
  bookmarks (self w) = PyList l ->
  forallb wf_pyval l = true -> wf_pyval doc = true ->
  distinct_by_value l = true ->
  exists l2,
    bookmarks (self (fst (add_bookmark doc (fst (add_bookmark doc w))))) = PyList l2
    /\ count_by_value doc l2 = 1%nat
    /\ distinct_by_value l2 = true.
Proof.
  intros Hb Hwf Hd Hl.
  pose proof (add_bookmark_list doc w l Hb) as H1.
  assert (Hb1 : bookmarks (self (fst (add_bookmark doc w)))
                = PyList (if list_contains l doc then l else l ++ [doc]))
    by now rewrite H1.
  pose proof (add_bookmark_list doc _ _ Hb1) as H2.
  destruct (list_contains l doc) eqn:E.
  - rewrite E in H2. exists l. rewrite H2. cbn [bookmarks].
    split; [reflexivity|]. split; [now apply count_by_value_one | assumption].
  - rewrite list_contains_snoc, E, (py_eq_refl doc Hd) in H2. cbn [orb] in H2.
    exists (l ++ [doc]). rewrite H2. cbn [bookmarks].
    split; [reflexivity|]. split.
    + rewrite count_by_value_snoc by assumption. f_equal.
      now apply count_by_value_none.
    + now apply distinct_by_value_snoc.
Qed.

Lemma operation_keeps_distinct o w :
  forallb wf_pyval match bookmarks (self w) with PyList l => l | _ => [] end = true ->
  bookmarks_distinct (self w) ->
  keeps_bookmarks_distinct o w ->
  bookmarks_distinct (self (fst (run_operation o w))).
Proof.
  intros Hwf (l & Hb & Hl) Ho. rewrite Hb in Hwf.
  destruct o as [[msg|doc|session]| | | | | | |];
    cbn [run_operation run_edit keeps_bookmarks_distinct] in *.
  - rewrite append_run. destruct (history (self w)); cbn [fst self bookmarks];
      exists l; auto.
  - rewrite (add_bookmark_list doc w l Hb). cbn [bookmarks].
    destruct (list_contains l doc) eqn:E; eexists; split; try reflexivity; auto.
    now apply distinct_by_value_snoc.
  - rewrite add_session_run. destruct (sessions (self w));
      rewrite ?save_self; cbn [fst self bookmarks]; exists l; auto.
  - rewrite clear_run. destruct (py_clear _); cbn [fst self bookmarks]; exists l; auto.
  - rewrite save_self. exists l; auto.
  - rewrite save_async_run, <- save_run, save_self. exists l; auto.
  - rewrite load_run. unfold loads_distinct_bookmarks, file_bookmarks, read_text in Ho.
    unfold load_result.
    destruct (fs w !! filepath (self w)) as [[c|]|]; try (exists l; auto; fail).
    destruct (json_loads c) as [[| | | | |d]|e|]; try (exists l; auto; fail).
    + unfold bookmarks_distinct, loaded, get_or_empty. cbn [fst self bookmarks].
      destruct (dict_lookup "bookmarks" d); [exact Ho | now exists []].
    + unfold bookmarks_distinct, emptied.
      destruct (existsb _ _); cbn [fst self bookmarks];
        [now exists [] | exists l; auto].
  - rewrite load_async_run. unfold loads_distinct_bookmarks, file_bookmarks, read_text in Ho.
    unfold load_result.
    destruct (fs w !! filepath (self w)) as [[c|]|]; try (exists l; auto; fail).
    destruct (json_loads c) as [[| | | | |d]|e|]; try (exists l; auto; fail).
    + unfold bookmarks_distinct, loaded, get_or_empty. cbn [fst self bookmarks].
      destruct (dict_lookup "bookmarks" d); [exact Ho | now exists []].
    + unfold bookmarks_distinct, emptied.
      destruct (existsb _ _); cbn [fst self bookmarks];
        [now exists [] | exists l; auto].
  - exists l; auto.
  - exists l; auto.
Qed.

(** ** Round trip *)

Lemma store_wf_data s : store_wf s = true -> wf_pyval (data_of s) = true.
Proof.
  unfold store_wf, data_of. intros H.
  apply andb_true_iff in H as [H Hs]. apply andb_true_iff in H as [Hh Hb].
  rewrite wf_dict. cbn [map fst forallb snd]. rewrite Hh, Hb, Hs. reflexivity.
Qed.

Lemma wf_append l x :
  wf_pyval (PyList l) = true -> wf_pyval x = true -> wf_pyval (PyList (l ++ [x])) = true.
Proof.
  cbn [wf_pyval]. intros Hl Hx. rewrite forallb_app, Hl. cbn [forallb]. now rewrite Hx.
Qed.

Lemma run_edit_keeps e w :
  wf_pyval (edit_arg e) = true -> store_wf (self w) = true ->
  store_wf (self (fst (run_edit e w))) = true
  /\ filepath (self (fst (run_edit e w))) = filepath (self w).
Proof.
  unfold store_wf. intros He H.
  apply andb_true_iff in H as [H Hs]. apply andb_true_iff in H as [Hh Hb].
  destruct e as [msg|doc|session]; cbn [run_edit edit_arg] in *.
  - rewrite append_run. destruct (history (self w)) eqn:E;
      cbn [fst self history bookmarks sessions filepath];
      rewrite ?E, ?Hh, ?Hb, ?Hs; auto.
    now rewrite (wf_append _ _ Hh He).
  - rewrite add_bookmark_run.
    destruct (py_contains _ _) as [[|]|e|]; cbn [fst]; rewrite ?Hh, ?Hb, ?Hs; auto.
    destruct (bookmarks (self w)) eqn:E; cbn [fst]; rewrite ?E, ?Hh, ?Hb, ?Hs; auto.
    rewrite save_self. cbn [self history bookmarks sessions filepath].
    now rewrite Hh, Hs, (wf_append _ _ Hb He).
  - rewrite add_session_run.
    destruct (sessions (self w)) eqn:E; cbn [fst]; rewrite ?E, ?Hh, ?Hb, ?Hs; auto.
    rewrite save_self. cbn [self history bookmarks sessions filepath].
    now rewrite Hh, Hb, (wf_append _ _ Hs He).
Qed.

Lemma run_edits_cons e r w :
  run_edits (e :: r) w =
  match run_edit e w with
  | (w', Returns _) => run_edits r w'
  | (w', Raises x) => (w', Raises x)
  | (w', Unmodelled) => (w', Unmodelled)
  end.
Proof. reflexivity. Qed.

Lemma run_edits_keeps es :
  forall w,
    forallb (fun e => wf_pyval (edit_arg e)) es = true -> store_wf (self w) = true ->
    store_wf (self (fst (run_edits es w))) = true
    /\ filepath (self (fst (run_edits es w))) = filepath (self w).
Proof.
  induction es as [|e r IH]; intros w Hes Hw; [now split|].
  cbn [forallb] in Hes. apply andb_true_iff in Hes as [He Hr].
  destruct (run_edit_keeps e w He Hw) as [H1 H2].
  rewrite run_edits_cons. destruct (run_edit e w) as [w' [[]|x|]]; cbn [fst] in *; auto.
  destruct (IH w' Hr H1) as [H3 H4]. split; [assumption | congruence].
Qed.

Lemma get_data s key :
  get_or_empty [("history", history s); ("bookmarks", bookmarks s);
                ("sessions", sessions s)] key
  = if String.eqb key "history" then history s
    else if String.eqb key "bookmarks" then bookmarks s
    else if String.eqb key "sessions" then sessions s
    else PyList [].
Proof.
  unfold get_or_empty. cbn [dict_lookup].
  repeat destruct (String.eqb key _); reflexivity.
Qed.

(** A store that loads the file a well-formed store saved holds the same
    three values. *)
Lemma load_after_save w w2 s0 :
  store_wf (self w) = true ->
  save w = (w2, Returns tt) ->
  filepath s0 = filepath (self w) ->
  load (mkWorld s0 (fs w2))
  = (mkWorld (mkHistoryManager (filepath s0) (history (self w)) (bookmarks (self w))
                (sessions (self w))) (fs w2), Returns tt).
Proof.
  intros Hwf Hsave Hp. apply save_returns_file in Hsave as [_ Hfile].
  rewrite load_run. unfold load_result. cbn [self fs]. rewrite Hp, Hfile.
  rewrite (json_loads_dumps _ (store_wf_data _ Hwf)). unfold data_of, loaded.
  rewrite !get_data. cbn [String.eqb Ascii.eqb Bool.eqb]. now rewrite Hp.
Qed.

Lemma init_wf home path : store_wf (init home path) = true.
Proof. reflexivity. Qed.

End StoreFacts.
Export StoreFacts.

Module StoreTheorems.

(** ** The claims about the store *)

(** C1 (round trip).  Whatever calls of [append], [add_bookmark] and
    [add_session] were made on a freshly constructed store, with values
    Python can hold, if [save] then returns, [load] on a new store
    constructed with the same path returns, and the new store holds the
    history, the sessions and the bookmarks of the saving store: equal
    lists, element by element and in order, hence the same bookmarks as
    a set too.  The run of the calls may have ended with an exception:
    the store is then the one the exception left.  [save] is assumed to
    return: a failure of the file system is passed on to its caller. *)
Theorem save_load_round_trip home path es d0 w2 :
  forallb (fun e => wf_pyval (edit_arg e)) es = true ->
  save (fst (run_edits es (mkWorld (init home path) d0))) = (w2, Returns tt) ->
  exists s3,
    load (mkWorld (init home path) (fs w2)) = (mkWorld s3 (fs w2), Returns tt)
    /\ history s3 = history (self (fst (run_edits es (mkWorld (init home path) d0))))
    /\ sessions s3 = sessions (self (fst (run_edits es (mkWorld (init home path) d0))))
    /\ bookmarks s3 = bookmarks (self (fst (run_edits es (mkWorld (init home path) d0)))).
Proof.
  intros Hes Hsave.
  destruct (run_edits_keeps es (mkWorld (init home path) d0) Hes (init_wf home path))
    as [Hwf Hp].
  cbn [self] in Hp.
  eexists. split; [apply (load_after_save _ _ _ Hwf Hsave); now rewrite Hp|].
  cbn [history sessions bookmarks]. auto.
Qed.

(** The round trip of four calls on a fresh store at
    [/tmp/history.json]: a message, a bookmark, the same bookmark with its
    keys in the other order, a session. *)
Lemma save_load_round_trip_witness :
  exists s3,
    load (mkWorld (init "/home/user" (Some "/tmp/history.json"))
            (fs (fst (save (fst (run_edits sample_edits sample_start))))))
    = (mkWorld s3 (fs (fst (save (fst (run_edits sample_edits sample_start))))),
       Returns tt)
    /\ history s3 = history (self (fst (run_edits sample_edits sample_start)))
    /\ sessions s3 = sessions (self (fst (run_edits sample_edits sample_start)))
    /\ bookmarks s3 = bookmarks (self (fst (run_edits sample_edits sample_start))).
Proof.
  apply (save_load_round_trip "/home/user" (Some "/tmp/history.json") sample_edits ∅
           (fst (save (fst (run_edits sample_edits sample_start))))).
  - reflexivity.
  - vm_compute. reflexivity.
Defined.

(** C2 (legacy shape): the code does not have the property.  On the file
    of [test_legacy_file_format], which parses as JSON and whose top-level
    value is a list, [load] and [load_async] raise [AttributeError], the
    list having no [get], and leave the store as it was. *)
Theorem load_legacy_list_raises :
  json_loads (json_dumps legacy_data) = Returns legacy_data
  /\ load legacy_world = (legacy_world, Raises AttributeError)
  /\ load_async legacy_world = (legacy_world, Raises AttributeError).
Proof.
  assert (H : json_loads (json_dumps legacy_data) = Returns legacy_data)
    by now apply json_loads_dumps.
  split; [assumption|].
  apply (load_non_object_raises legacy_world (json_dumps legacy_data) legacy_data);
    [reflexivity | assumption | discriminate].
Qed.



(** C4, as amended (bookmarks without duplicates).  On a store whose
    bookmarks are a list [l] without duplicates by value, [add_bookmark]
    appends the document exactly when no bookmark equals it; after two
    calls in succession one entry equals the document and the list is
    still without duplicates; and an operation keeps the list without
    duplicates, except that [load] and [load_async] install the list the
    file holds, so that they keep the property when that list has it (or
    when they take no bookmarks from the file). *)
Theorem add_bookmark_keeps_distinct w doc l :
  bookmarks (self w) = PyList l ->
  forallb wf_pyval l = true ->
  wf_pyval doc = true ->
  distinct_by_value l = true ->
  bookmarks (self (fst (add_bookmark doc w)))
  = PyList (if list_contains l doc then l else l ++ [doc])
  /\ (exists l2,
        bookmarks (self (fst (add_bookmark doc (fst (add_bookmark doc w))))) = PyList l2
        /\ count_by_value doc l2 = 1
        /\ distinct_by_value l2 = true)
  /\ (forall o, keeps_bookmarks_distinct o w ->
                bookmarks_distinct (self (fst (run_operation o w)))).
Proof.
  intros Hb Hwf Hd Hl. split; [|split].
  - now rewrite (add_bookmark_list doc w l Hb).
  - now apply (add_bookmark_twice doc w l).
  - intros o Ho.
    apply operation_keeps_distinct; [now rewrite Hb | now exists l | assumption].
Qed.

(** Adding the document of [test_prevent_duplicate_bookmarks] to a store
    that holds it with its keys in the other order. *)
Lemma add_bookmark_keeps_distinct_witness :
  bookmarks (self (fst (add_bookmark test_doc bookmarked_world)))
  = PyList (if list_contains [test_doc_reordered] test_doc
            then [test_doc_reordered]
            else [test_doc_reordered] ++ [test_doc])
  /\ (exists l2,
        bookmarks (self (fst (add_bookmark test_doc
                                (fst (add_bookmark test_doc bookmarked_world)))))
        = PyList l2
        /\ count_by_value test_doc l2 = 1
        /\ distinct_by_value l2 = true)
  /\ (forall o, keeps_bookmarks_distinct o bookmarked_world ->
                bookmarks_distinct (self (fst (run_operation o bookmarked_world)))).
Proof.
  apply (add_bookmark_keeps_distinct bookmarked_world test_doc [test_doc_reordered]);
    reflexivity.
Defined.

(** C4 as stated fails: [load] is an operation, and on a fresh store,
    whose bookmarks are the empty list, over a file whose bookmarks hold
    the same value twice, it returns and leaves the store with that
    list. *)
Lemma load_duplicates_bookmarks :
  store_wf (self duplicated_world) = true
  /\ bookmarks_distinct (self duplicated_world)
  /\ snd (run_operation Load duplicated_world) = Returns tt
  /\ bookmarks (self (fst (run_operation Load duplicated_world)))
     = PyList [PyInt 1; PyInt 1]
  /\ ~ bookmarks_distinct (self (fst (run_operation Load duplicated_world))).
Proof.
  assert (H : load duplicated_world
              = (mkWorld (loaded (self duplicated_world)
                            [("bookmarks", PyList [PyInt 1; PyInt 1])])
                   (fs duplicated_world), Returns tt)).
  { apply (load_object duplicated_world (json_dumps duplicated_data));
      [reflexivity | now apply json_loads_dumps]. }
  cbn [run_operation]. rewrite H. cbn [fst snd self]. unfold loaded.
  cbn [bookmarks]. split; [reflexivity|]. split; [now exists []|].
  split; [reflexivity|]. split; [reflexivity|].
  intros (l & E & Hl). inversion E; subst l. discriminate Hl.
Qed.


(** C6 (missing file).  When the path names no regular file, [load] and
    [load_async] return without raising and leave the store, and the
    disk, as they were. *)
Theorem load_missing_file_keeps_state w :
  os_path_isfile (filepath (self w)) (fs w) = false ->
  load w = (w, Returns tt) /\ load_async w = (w, Returns tt).
Proof.
  intros H. rewrite load_async_run, load_run. unfold load_result.
  unfold os_path_isfile in H.
  destruct (fs w !! filepath (self w)) as [[c|]|]; [discriminate | auto | auto].
Qed.

(** A fresh store on an empty disk: its three lists stay empty. *)
Lemma load_missing_file_witness :
  (load sample_start = (sample_start, Returns tt)
   /\ load_async sample_start = (sample_start, Returns tt))
  /\ self sample_start
     = mkHistoryManager "/tmp/history.json" (PyList []) (PyList []) (PyList []).
Proof.
  split; [|reflexivity].
  apply (load_missing_file_keeps_state sample_start). reflexivity.
Defined.


(** C9 (bare file name).  When the path of the store has no slash, its
    directory part is the empty string, and [save] and [save_async] raise
    [FileNotFoundError], from [os.makedirs], and leave the world as it
    was: no file is written. *)
Theorem save_bare_filename_raises w :
  bare_filename (filepath (self w)) = true ->
  os_path_dirname (filepath (self w)) = ""
  /\ save w = (w, Raises FileNotFoundError)
  /\ save_async w = (w, Raises FileNotFoundError).
Proof.
  intros H. apply dirname_bare in H. split; [assumption|].
  rewrite save_async_run, save_run. unfold save_result. rewrite H.
  cbn [os_makedirs String.eqb]. now rewrite world_eta.
Qed.

(** A store constructed with the path [history.json]. *)
Lemma save_bare_filename_witness :
  os_path_dirname (filepath (self bare_world)) = ""
  /\ save bare_world = (bare_world, Raises FileNotFoundError)
  /\ save_async bare_world = (bare_world, Raises FileNotFoundError).
Proof. apply (save_bare_filename_raises bare_world). reflexivity. Defined.

(** C10 (load replaces).  When the file exists and parses as a JSON
    object, [load] and [load_async] return and bind each of the three
    attributes to the value the object holds under its key, or to an empty
    list when the key is absent: what the store held before is not in the
    result. *)
Theorem load_replaces_state w c d :
  fs w !! filepath (self w) = Some (File c) ->
  json_loads c = Returns (PyDict d) ->
  load w = (mkWorld (mkHistoryManager (filepath (self w)) (get_or_empty d "history")
                       (get_or_empty d "bookmarks") (get_or_empty d "sessions"))
              (fs w), Returns tt)
  /\ load_async w
     = (mkWorld (mkHistoryManager (filepath (self w)) (get_or_empty d "history")
                   (get_or_empty d "bookmarks") (get_or_empty d "sessions"))
          (fs w), Returns tt).
Proof. intros Hf Hd. apply (load_object w c d Hf Hd). Qed.

(** A store with an unsaved message, bookmark and session over a file
    that holds one message, no bookmark and no key for sessions: the
    unsaved entries are gone. *)
Lemma load_replaces_state_witness :
  load stale_world
  = (mkWorld (mkHistoryManager "/tmp/history.json"
                (PyList [PyDict [("role", PyStr "assistant");
                                 ("content", PyStr "existing")]])
                (PyList []) (PyList [])) (fs stale_world), Returns tt)
  /\ load_async stale_world
     = (mkWorld (mkHistoryManager "/tmp/history.json"
                   (PyList [PyDict [("role", PyStr "assistant");
                                    ("content", PyStr "existing")]])
                   (PyList []) (PyList [])) (fs stale_world), Returns tt).
Proof.
  apply (load_replaces_state stale_world (json_dumps (PyDict older_data)) older_data);
    [reflexivity | vm_compute; reflexivity].
Defined.

End StoreTheorems.

Module StoreExtras.

(** ** Further properties of the store *)


(** X2 (sessions are not deduplicated).  On a store whose sessions are a
    list, [add_session] adds the session at its end, whether or not an
    equal one is there, and then does what [save] does on the store so
    changed. *)
Theorem add_session_always_appends session w l :
  sessions (self w) = PyList l ->
  add_session session w
  = save (mkWorld (mkHistoryManager (filepath (self w)) (history (self w))
                     (bookmarks (self w)) (PyList (l ++ [session]))) (fs w))
  /\ sessions (self (fst (add_session session w))) = PyList (l ++ [session]).
Proof.
  intros H. rewrite add_session_run, H. split; [reflexivity|].
  now rewrite save_self.
Qed.

(** Adding the same session twice to a fresh store. *)
Lemma add_session_always_appends_witness :
  add_session (PyStr "s") (fst (add_session (PyStr "s") sample_start))
  = save (mkWorld (mkHistoryManager
                     (filepath (self (fst (add_session (PyStr "s") sample_start))))
                     (history (self (fst (add_session (PyStr "s") sample_start))))
                     (bookmarks (self (fst (add_session (PyStr "s") sample_start))))
                     (PyList ([PyStr "s"] ++ [PyStr "s"])))
            (fs (fst (add_session (PyStr "s") sample_start))))
  /\ sessions (self (fst (add_session (PyStr "s")
                            (fst (add_session (PyStr "s") sample_start)))))
     = PyList ([PyStr "s"] ++ [PyStr "s"]).
Proof.
  apply (add_session_always_appends (PyStr "s")
           (fst (add_session (PyStr "s") sample_start)) [PyStr "s"]).
  reflexivity.
Defined.

(** X3 (the file reflects the store).  When [save] returns, the store is
    as it was and the file at its path holds the JSON text of the three
    attributes, which, for values Python can hold, [json.loads] reads
    back as the dictionary of the three. *)
Theorem save_writes_state w w' :
  save w = (w', Returns tt) ->
  self w' = self w
  /\ fs w' !! filepath (self w) = Some (File (json_dumps (data_of (self w))))
  /\ (store_wf (self w) = true ->
      json_loads (json_dumps (data_of (self w))) = Returns (data_of (self w))).
Proof.
  intros H. apply save_returns_file in H as [H1 H2].
  repeat split; try assumption.
  intros Hwf. apply json_loads_dumps. now apply store_wf_data.
Qed.

(** Saving a fresh store at [/tmp/history.json]. *)
Lemma save_writes_state_witness :
  self (fst (save sample_start)) = self sample_start
  /\ fs (fst (save sample_start)) !! filepath (self sample_start)
     = Some (File (json_dumps (data_of (self sample_start))))
  /\ (store_wf (self sample_start) = true ->
      json_loads (json_dumps (data_of (self sample_start)))
      = Returns (data_of (self sample_start))).
Proof.
  apply (save_writes_state sample_start (fst (save sample_start))).
  vm_compute. reflexivity.
Defined.

(** X4 (both loads agree).  [load_async] and [load] end in the same world
    with the same outcome. *)
Theorem load_async_same_as_load w : load_async w = load w.
Proof. now rewrite load_async_run, load_run. Qed.

(** X5 (the scenario of the specification).  A store that starts empty,
    takes one message and is saved; a new store on the same path then
    loads that message and nothing else. *)
Theorem end_to_end_scenario :
  let msg := PyDict [("role", PyStr "user"); ("content", PyStr "hi")] in
  let w1 := fst (append msg sample_start) in
  let w2 := fst (save w1) in
  snd (append msg sample_start) = Returns tt
  /\ snd (save w1) = Returns tt
  /\ load (mkWorld (init "/home/user" (Some "/tmp/history.json")) (fs w2))
     = (mkWorld (mkHistoryManager "/tmp/history.json" (PyList [msg]) (PyList [])
                   (PyList [])) (fs w2), Returns tt).
Proof. vm_compute. repeat split. Qed.

End StoreExtras.

Module AgentTheorems.

(** ** The claim about chat calls *)

Lemma chat_spawns model text prior h :
  spawned (fst (chat model text prior h))
  = spawned h ++ [mkProcess (length (spawned h)) mcp_launch]
  /\ running (fst (chat model text prior h)) =
     List.filter (fun q => negb (Nat.eqb q (length (spawned h))))
       (length (spawned h) :: running h)
  /\ snd (chat model text prior h)
     = model text prior (mkProcess (length (spawned h)) mcp_launch).
Proof. repeat split; reflexivity. Qed.

(** C7 (one tool server per call).  Two chat calls in sequence spawn two
    processes, each with the command [npx] and the arguments [-y] and
    [@upstash/context7-mcp@latest]: the list of spawned processes grows
    by two, the second call is served by a process other than the first,
    and neither process is running once its call is over. *)
Theorem chat_spawns_fresh_server model t1 p1 t2 p2 h :
  let h1 := fst (chat model t1 p1 h) in
  let h2 := fst (chat model t2 p2 h1) in
  let n := length (spawned h) in
  command mcp_launch = "npx"
  /\ args mcp_launch = ["-y"; "@upstash/context7-mcp@latest"]
  /\ spawned h1 = spawned h ++ [mkProcess n mcp_launch]
  /\ spawned h2 = spawned h ++ [mkProcess n mcp_launch; mkProcess (S n) mcp_launch]
  /\ length (spawned h2) = length (spawned h) + 2
  /\ snd (chat model t1 p1 h) = model t1 p1 (mkProcess n mcp_launch)
  /\ snd (chat model t2 p2 h1) = model t2 p2 (mkProcess (S n) mcp_launch)
  /\ ~ In n (running h1)
  /\ ~ In (S n) (running h2).
Proof.
  intros h1 h2 n.
  destruct (chat_spawns model t1 p1 h) as (Hs1 & Hr1 & Ho1).
  destruct (chat_spawns model t2 p2 h1) as (Hs2 & Hr2 & Ho2).
  fold h1 in Hs1, Hr1. fold h2 in Hs2, Hr2. fold n in Hs1, Hr1, Ho1.
  assert (Hn : length (spawned h1) = S n).
  { rewrite Hs1, length_app. cbn [length]. lia. }
  rewrite Hn in Hs2, Hr2, Ho2.
  repeat split; try assumption.
  - rewrite Hs2, Hs1, <- app_assoc. reflexivity.
  - rewrite Hs2, Hs1, !length_app. cbn [length]. lia.
  - rewrite Hr1. intros Hin. apply filter_In in Hin as [_ Hin].
    now rewrite Nat.eqb_refl in Hin.
  - rewrite Hr2. intros Hin. apply filter_In in Hin as [_ Hin].
    now rewrite Nat.eqb_refl in Hin.
Qed.

End AgentTheorems.

(* ===================================================================== *)
(** * More of the store, the helpers and the command line *)
(* ===================================================================== *)

Module FileFacts.

(** ** Saving and loading twice *)

Lemma save_result_twice w : save_result (fst (save_result w)) = save_result w.
Proof.
  destruct w as [s d]. unfold save_result, os_makedirs, open_w. cbn [self fs].
  destruct s as [p h b c0]. cbn [filepath].
  set (n := os_path_dirname p).
  destruct (String.eqb n "") eqn:En; cbn [fst self fs filepath]; fold n;
    [now rewrite En|].
  destruct (d !! n) as [[c|]|] eqn:Dn; cbn [fst self fs filepath]; fold n.
  - now rewrite En, Dn.
  - destruct (d !! p) as [[c|]|] eqn:Dp; cbn [fst self fs filepath]; fold n; rewrite En.
    + assert (Hne : p <> n) by (intros E; rewrite E in Dp; congruence).
      rewrite lookup_insert_ne, Dn by assumption.
      rewrite lookup_insert_eq. now rewrite insert_insert_eq.
    + now rewrite Dn, Dp.
    + assert (Hne : p <> n) by (intros E; rewrite E in Dp; congruence).
      rewrite lookup_insert_ne, Dn by assumption.
      rewrite lookup_insert_eq. now rewrite insert_insert_eq.
  - destruct (<[n:=Dir]> d !! p) as [[c|]|] eqn:Dp; cbn [fst self fs filepath]; fold n; rewrite En.
    + assert (Hne : p <> n).
      { intros E. rewrite E, lookup_insert_eq in Dp. congruence. }
      rewrite lookup_insert_ne, lookup_insert_eq by assumption.
      rewrite lookup_insert_eq. now rewrite insert_insert_eq.
    + now rewrite lookup_insert_eq, Dp.
    + assert (Hne : p <> n).
      { intros E. rewrite E, lookup_insert_eq in Dp. congruence. }
      rewrite lookup_insert_ne, lookup_insert_eq by assumption.
      rewrite lookup_insert_eq. now rewrite insert_insert_eq.
Qed.

Lemma load_result_twice w : load_result (fst (load_result w)) = load_result w.
Proof.
  unfold load_result.
  destruct (fs w !! filepath (self w)) as [[c|]|] eqn:E; cbn [fst]; rewrite ?E; try reflexivity.
  destruct (json_loads c) as [[| | | | |d]|e|] eqn:J; cbn [fst self fs loaded emptied filepath];
    rewrite ?E, ?J; try reflexivity.
  destruct (existsb _ _) eqn:X; cbn [fst self fs loaded emptied filepath];
    rewrite ?E, ?J, ?X; reflexivity.
Qed.

(** ** The text [json.dumps] writes *)

Lemma plain_escape_char c : forallb plain (escape_char c) = true.
Proof. destruct c as [[|] [|] [|] [|] [|] [|] [|] [|]]; reflexivity. Qed.

Lemma plain_escaped l : forallb plain (flat_map escape_char l) = true.
Proof.
  induction l as [|c l IH]; [reflexivity|].
  cbn [flat_map]. now rewrite forallb_app, plain_escape_char, IH.
Qed.

Lemma plain_string s : forallb plain (chars (py_encode_basestring_ascii s)) = true.
Proof.
  rewrite chars_encode_string. cbn [forallb]. rewrite forallb_app, plain_escaped.
  reflexivity.
Qed.

Lemma plain_uint d : forallb plain (uint_chars d) = true.
Proof. unfold uint_chars. induction d; simpl; auto. Qed.

Lemma plain_intstr z : forallb plain (chars (intstr z)) = true.
Proof.
  rewrite chars_intstr. destruct z; [reflexivity| |]; cbn [forallb];
    now rewrite plain_uint.
Qed.

Lemma plain_newline_indent level : forallb plain (chars (newline_indent level)) = true.
Proof.
  unfold newline_indent. rewrite chars_text. cbn [forallb].
  induction (2 * level)%nat as [|n IH]; [reflexivity|]. exact IH.
Qed.

Lemma plain_atom x a : atom_repr x = Some a -> forallb plain (chars a) = true.
Proof.
  destruct x as [| [|] | z | s | |]; cbn [atom_repr]; intros E; inversion E;
    try reflexivity; [apply plain_intstr | apply plain_string].
Qed.

Lemma plain_list_chunks level l :
  Forall (fun x => forall level, forallb plain (flat (iterencode x level)) = true) l ->
  forall first, forallb plain (flat (list_chunks (enc_at level) level first l)) = true.
Proof.
  induction 1 as [|x r Hx _ IH]; intros first; [reflexivity|].
  rewrite list_chunks_cons, !forallb_app, plain_newline_indent, Hx, IH.
  now destruct first.
Qed.

Lemma plain_dict_chunks level d :
  Forall (fun kv => forall level, forallb plain (flat (iterencode (snd kv) level)) = true) d ->
  forall first, forallb plain (flat (dict_chunks (enc_at level) level first d)) = true.
Proof.
  induction 1 as [|[k x] r Hx _ IH]; intros first; [reflexivity|].
  cbn [snd] in Hx.
  rewrite dict_chunks_cons, forallb_app. cbn [forallb]. rewrite forallb_app.
  cbn [forallb]. rewrite forallb_app, plain_escaped, Hx, IH.
  destruct first; cbn [forallb]; rewrite ?plain_newline_indent; reflexivity.
Qed.

Lemma plain_iterencode v :
  forall level, forallb plain (flat (iterencode v level)) = true.
Proof.
  induction v as [| b | z | s | l IH | d IH] using pyval_induction; intros level.
  - reflexivity.
  - now destruct b.
  - cbn [iterencode]. rewrite flat_one. apply plain_intstr.
  - cbn [iterencode]. rewrite flat_one. apply plain_string.
  - destruct l as [|x r]; [reflexivity|].
    change (iterencode (PyList (x :: r)) level)
      with (list_chunks (enc_at level) level true (x :: r) ++ [newline_indent level; "]"]).
    rewrite flat_app, forallb_app, (plain_list_chunks level _ IH), !flat_cons.
    rewrite forallb_app, plain_newline_indent. reflexivity.
  - destruct d as [|kv r]; [reflexivity|].
    change (iterencode (PyDict (kv :: r)) level)
      with ("{" :: newline_indent (S level)
            :: dict_chunks (enc_at level) level true (kv :: r)
            ++ [newline_indent level; "}"]).
    rewrite !flat_cons, flat_app. cbn [chars list_ascii_of_string app forallb].
    rewrite !forallb_app, plain_newline_indent, (plain_dict_chunks level _ IH), !flat_cons.
    rewrite forallb_app, plain_newline_indent. reflexivity.
Qed.

Lemma plain_json_dumps v : plain_text (json_dumps v) = true.
Proof. unfold plain_text, json_dumps. rewrite chars_concat. apply plain_iterencode. Qed.

(** ** The default path *)

Lemma drop_while_twice p (l : list ascii) : drop_while p (drop_while p l) = drop_while p l.
Proof.
  induction l as [|c l IH]; [reflexivity|]. cbn [drop_while].
  destruct (p c) eqn:E; [exact IH|]. cbn [drop_while]. now rewrite E.
Qed.

Lemma drop_while_head p (l : list ascii) :
  match drop_while p l with
  | [] => True
  | c :: _ => p c = false
  end.
Proof.
  induction l as [|c l IH]; [exact I|]. cbn [drop_while].
  destruct (p c) eqn:E; [exact IH | exact E].
Qed.

Lemma dirname_of_default home :
  os_path_dirname (os_path_expanduser home "~/.context7_history.json")
  = match rstrip_sep (chars home) with
    | [] => "/"
    | h => text h
    end.
Proof.
  unfold os_path_expanduser, os_path_dirname. fold (rstrip_sep (chars home)).
  cbn [chars list_ascii_of_string Ascii.eqb Bool.eqb].
  rewrite chars_text. set (h := rstrip_sep (chars home)).
  rewrite rev_app_distr. cbn [rev app drop_while is_sep Ascii.eqb Bool.eqb negb].
  rewrite rev_app_distr, rev_involutive. cbn [rev app].
  rewrite forallb_app. cbn [forallb is_sep Ascii.eqb Bool.eqb]. rewrite andb_true_r.
  destruct (forallb is_sep h) eqn:Eh.
  - assert (h = []) as ->.
    { unfold h, rstrip_sep in *. rewrite forallb_rev in Eh.
      pose proof (drop_while_head is_sep (rev (chars home))) as Hd.
      destruct (drop_while is_sep (rev (chars home))) as [|c t]; [reflexivity|].
      cbn [forallb] in Eh. rewrite Hd in Eh. discriminate Eh. }
    reflexivity.
  - cbn [drop_while is_sep Ascii.eqb Bool.eqb].
    unfold h at 1, rstrip_sep. rewrite rev_involutive, drop_while_twice.
    fold (rstrip_sep (chars home)). fold h.
    destruct h; [discriminate Eh | reflexivity].
Qed.

End FileFacts.
Export FileFacts.

Module StoreBehaviour.

(** ** Further properties of the store *)

(** X6 (a bookmark already there).  On a store whose bookmarks are a
    list that holds a value equal to [doc], [add_bookmark] returns and
    changes nothing: the store is as before and the disk is not touched,
    so no file is written and no failure of the disk can show. *)
Theorem add_bookmark_present_is_silent doc w l :
  bookmarks (self w) = PyList l ->
  list_contains l doc = true ->
  add_bookmark doc w = (w, Returns tt).
Proof.
  intros Hb Hc. rewrite add_bookmark_run, Hb. cbn [py_contains]. now rewrite Hc.
Qed.

(** The document of [test_add_bookmark] on a store that holds it with
    its keys in the other order: nothing is written on the empty disk. *)
Lemma add_bookmark_present_witness :
  add_bookmark test_doc bookmarked_world = (bookmarked_world, Returns tt).
Proof.
  apply (add_bookmark_present_is_silent test_doc bookmarked_world [test_doc_reordered]);
    reflexivity.
Defined.

(** X7 (a bookmark whose save failed).  [add_bookmark] appends before it
    saves: when it raises on a store whose bookmarks are a list, the
    document is at the end of the bookmarks all the same, and a second
    call with the same document returns at once, without a new attempt to
    save. *)
Theorem add_bookmark_kept_when_save_fails doc w l e :
  bookmarks (self w) = PyList l ->
  wf_pyval doc = true ->
  snd (add_bookmark doc w) = Raises e ->
  bookmarks (self (fst (add_bookmark doc w))) = PyList (l ++ [doc])
  /\ add_bookmark doc (fst (add_bookmark doc w))
     = (fst (add_bookmark doc w), Returns tt).
Proof.
  intros Hb Hd He.
  assert (Hc : list_contains l doc = false).
  { destruct (list_contains l doc) eqn:E; [|reflexivity].
    rewrite add_bookmark_run, Hb in He. cbn [py_contains] in He. rewrite E in He.
    discriminate He. }
  pose proof (add_bookmark_list doc w l Hb) as Hs. rewrite Hc in Hs.
  assert (Hb' : bookmarks (self (fst (add_bookmark doc w))) = PyList (l ++ [doc]))
    by now rewrite Hs.
  split; [exact Hb'|].
  rewrite (add_bookmark_run doc (fst (add_bookmark doc w))), Hb'. cbn [py_contains].
  now rewrite list_contains_snoc, (py_eq_refl doc Hd), orb_true_r.
Qed.

(** A store constructed with a bare file name: [save] fails, the bookmark
    stays. *)
Lemma add_bookmark_kept_witness :
  bookmarks (self (fst (add_bookmark test_doc bare_world))) = PyList ([] ++ [test_doc])
  /\ add_bookmark test_doc (fst (add_bookmark test_doc bare_world))
     = (fst (add_bookmark test_doc bare_world), Returns tt).
Proof.
  apply (add_bookmark_kept_when_save_fails test_doc bare_world [] FileNotFoundError);
    reflexivity.
Defined.

(** X8 (loading twice).  A second [load] right after a first ends as the
    first did, in the same world with the same outcome; so does a second
    [load_async]. *)
Theorem load_twice w :
  load (fst (load w)) = load w /\ load_async (fst (load_async w)) = load_async w.
Proof.
  rewrite !load_async_run, !load_run. split; apply load_result_twice.
Qed.

(** X9 (saving twice).  A second [save] right after a first ends as the
    first did, with the same disk and the same outcome; so does a second
    [save_async]. *)
Theorem save_twice w :
  save (fst (save w)) = save w /\ save_async (fst (save_async w)) = save_async w.
Proof.
  rewrite !save_async_run, !save_run. split; apply save_result_twice.
Qed.

(** X10 (save, then load, on one store).  When [save] returns on a store
    that holds values Python can hold, [load] and [load_async] on the
    same store return and leave it as it is. *)
Theorem save_then_load_same_store w w' :
  store_wf (self w) = true ->
  save w = (w', Returns tt) ->
  load w' = (w', Returns tt) /\ load_async w' = (w', Returns tt).
Proof.
  intros Hwf Hs. rewrite load_async_run, <- load_run.
  assert (H : load w' = (w', Returns tt)); [|now split].
  pose proof (save_returns_file w w' Hs) as [Hself _].
  rewrite <- (world_eta w') at 1.
  rewrite (load_after_save w w' (self w') Hwf Hs) by now rewrite Hself.
  now rewrite Hself, store_eta, <- Hself, world_eta.
Qed.

(** The store after the calls of the examples. *)
Lemma save_then_load_witness :
  load (fst (save (fst (run_edits sample_edits sample_start))))
  = (fst (save (fst (run_edits sample_edits sample_start))), Returns tt)
  /\ load_async (fst (save (fst (run_edits sample_edits sample_start))))
     = (fst (save (fst (run_edits sample_edits sample_start))), Returns tt).
Proof.
  apply (save_then_load_same_store (fst (run_edits sample_edits sample_start)));
    vm_compute; reflexivity.
Defined.



(** X12 (no check of what is loaded).  [load] binds [history] to the
    value the file holds under that key whatever its type: when that
    value is not a list, [load] returns all the same, and the next
    [append] raises [AttributeError]. *)
Theorem load_does_not_check_lists w c d v msg :
  fs w !! filepath (self w) = Some (File c) ->
  json_loads c = Returns (PyDict d) ->
  dict_lookup "history" d = Some v ->
  (forall l, v <> PyList l) ->
  snd (load w) = Returns tt
  /\ history (self (fst (load w))) = v
  /\ snd (append msg (fst (load w))) = Raises AttributeError.
Proof.
  intros Hf Hj Hh Hv. destruct (load_object w c d Hf Hj) as [-> _].
  cbn [fst snd self loaded history]. unfold get_or_empty. rewrite Hh.
  split; [reflexivity|]. split; [reflexivity|].
  rewrite append_run. cbn [self history loaded]. unfold get_or_empty. rewrite Hh.
  destruct v as [| | | |l|]; try reflexivity. now destruct (Hv l).
Qed.

(** A file whose history is a string. *)
Lemma load_does_not_check_lists_witness :
  snd (load unchecked_world) = Returns tt
  /\ history (self (fst (load unchecked_world))) = PyStr "hello"
  /\ snd (append (PyStr "hi") (fst (load unchecked_world))) = Raises AttributeError.
Proof.
  apply (load_does_not_check_lists unchecked_world
           (json_dumps (PyDict [("history", PyStr "hello")]))
           [("history", PyStr "hello")] (PyStr "hello") (PyStr "hi"));
    [reflexivity | vm_compute; reflexivity | reflexivity | discriminate].
Defined.

(** X13 (the default path).  A store constructed with the empty string
    for a path gets the default path, as one constructed without a path
    does.  The default path is the home directory without the slashes
    that end it, then [/.context7_history.json]: it has a directory part,
    that home directory (or [/] when nothing of it is left), so that
    [save] does not meet the empty directory name of a bare file name. *)
Theorem default_path_has_directory home :
  init home (Some "") = init home None
  /\ filepath (init home None)
     = text (rstrip_sep (chars home) ++ chars "/.context7_history.json")
  /\ bare_filename (filepath (init home None)) = false
  /\ os_path_dirname (filepath (init home None))
     = match rstrip_sep (chars home) with
       | [] => "/"
       | h => text h
       end
  /\ os_path_dirname (filepath (init home None)) <> "".
Proof.
  split; [reflexivity|]. split; [reflexivity|].
  assert (Hd : os_path_dirname (filepath (init home None))
               = match rstrip_sep (chars home) with
                 | [] => "/"
                 | h => text h
                 end) by apply dirname_of_default.
  split; [|split; [exact Hd|]].
  - cbn [init filepath]. unfold bare_filename, os_path_expanduser.
    cbn [chars list_ascii_of_string Ascii.eqb Bool.eqb].
    rewrite chars_text, forallb_app. cbn [forallb is_sep Ascii.eqb Bool.eqb negb].
    apply andb_false_r.
  - rewrite Hd. destruct (rstrip_sep (chars home)); discriminate.
Qed.

(** X14 (the file is plain ASCII).  When [save] or [save_async] returns,
    the file holds printable ASCII characters and new lines only,
    whatever characters the strings of the store hold: the encoder writes
    the others as escapes. *)
Theorem save_writes_plain_ascii w w' :
  save w = (w', Returns tt) \/ save_async w = (w', Returns tt) ->
  exists c, fs w' !! filepath (self w) = Some (File c) /\ plain_text c = true.
Proof.
  intros H. assert (Hs : save w = (w', Returns tt)).
  { destruct H as [H|H]; [exact H|]. now rewrite save_async_run, <- save_run in H. }
  destruct (save_returns_file w w' Hs) as [_ Hf].
  exists (json_dumps (data_of (self w))). split; [exact Hf | apply plain_json_dumps].
Qed.

(** A message with a letter outside ASCII. *)
Lemma save_writes_plain_ascii_witness :
  exists c, fs (fst (save accented_world)) !! filepath (self accented_world)
            = Some (File c)
            /\ plain_text c = true.
Proof.
  apply (save_writes_plain_ascii accented_world (fst (save accented_world))).
  left. vm_compute. reflexivity.
Defined.

(** X27 (edits that save are persisted).  When [add_session], or
    [add_bookmark] of a document the bookmarks do not hold yet, returns
    on a store that holds values Python can hold, the new entry is at
    the end of its list and the file holds the store as it now is: a new
    store constructed with the same path loads the same history,
    bookmarks and sessions. *)
Theorem saving_edits_persist e w w' s0 :
  store_wf (self w) = true ->
  wf_pyval (edit_arg e) = true ->
  saves e w = true ->
  run_edit e w = (w', Returns tt) ->
  filepath s0 = filepath (self w) ->
  load (mkWorld s0 (fs w'))
  = (mkWorld (mkHistoryManager (filepath s0) (history (self w')) (bookmarks (self w'))
                (sessions (self w'))) (fs w'), Returns tt)
  /\ match e with
     | Append _ => True
     | AddBookmark doc => exists l, bookmarks (self w) = PyList l
                                    /\ bookmarks (self w') = PyList (l ++ [doc])
     | AddSession session => exists l, sessions (self w) = PyList l
                                       /\ sessions (self w') = PyList (l ++ [session])
     end.
Proof.
  intros Hwf He Hs Hr Hp.
  assert (Hw : store_wf (self w) = true) by exact Hwf.
  unfold store_wf in Hwf.
  apply andb_true_iff in Hwf as [Hwf H3]. apply andb_true_iff in Hwf as [H1 H2].
  destruct e as [msg|doc|session]; cbn [saves run_edit edit_arg] in *; [discriminate| |].
  - destruct (bookmarks (self w)) as [| | | |l|] eqn:Eb; try discriminate.
    apply negb_true_iff in Hs.
    rewrite add_bookmark_run, Eb in Hr. cbn [py_contains] in Hr. rewrite Hs in Hr.
    pose proof (save_returns_file _ _ Hr) as [Hself _]. cbn [self] in Hself.
    assert (Hw1 : store_wf (mkHistoryManager (filepath (self w)) (history (self w))
                              (PyList (l ++ [doc])) (sessions (self w))) = true).
    { unfold store_wf. cbn [history bookmarks sessions].
      now rewrite H1, H3, (wf_append _ _ H2 He). }
    rewrite (load_after_save
               (mkWorld (mkHistoryManager (filepath (self w)) (history (self w))
                           (PyList (l ++ [doc])) (sessions (self w))) (fs w))
               w' s0 Hw1 Hr Hp).
    rewrite Hself. cbn [self history bookmarks sessions]. split; [reflexivity|].
    exists l. now split.
  - destruct (sessions (self w)) as [| | | |l|] eqn:Es;
      rewrite add_session_run, Es in Hr; try discriminate.
    pose proof (save_returns_file _ _ Hr) as [Hself _]. cbn [self] in Hself.
    assert (Hw1 : store_wf (mkHistoryManager (filepath (self w)) (history (self w))
                              (bookmarks (self w)) (PyList (l ++ [session]))) = true).
    { unfold store_wf. cbn [history bookmarks sessions].
      now rewrite H1, H2, (wf_append _ _ H3 He). }
    rewrite (load_after_save
               (mkWorld (mkHistoryManager (filepath (self w)) (history (self w))
                           (bookmarks (self w)) (PyList (l ++ [session]))) (fs w))
               w' s0 Hw1 Hr Hp).
    rewrite Hself. cbn [self history bookmarks sessions]. split; [reflexivity|].
    exists l. now split.
Qed.

(** A session added to a fresh store. *)
Lemma saving_edits_persist_witness :
  load (mkWorld (init "/home/user" (Some "/tmp/history.json"))
          (fs (fst (add_session (PyStr "s") sample_start))))
  = (mkWorld (mkHistoryManager
                (filepath (init "/home/user" (Some "/tmp/history.json")))
                (history (self (fst (add_session (PyStr "s") sample_start))))
                (bookmarks (self (fst (add_session (PyStr "s") sample_start))))
                (sessions (self (fst (add_session (PyStr "s") sample_start)))))
       (fs (fst (add_session (PyStr "s") sample_start))), Returns tt)
  /\ exists l, sessions (self sample_start) = PyList l
               /\ sessions (self (fst (add_session (PyStr "s") sample_start)))
                  = PyList (l ++ [PyStr "s"]).
Proof.
  apply (saving_edits_persist (AddSession (PyStr "s")) sample_start
           (fst (add_session (PyStr "s") sample_start))
           (init "/home/user" (Some "/tmp/history.json")));
    vm_compute; reflexivity.
Defined.

End StoreBehaviour.

Module UtilsFacts.

(** ** Comprehensions *)

Lemma comprehension_filter cond docs l :
  comprehension cond docs = Ok l -> l = List.filter (passes cond) docs.
Proof.
  revert l. induction docs as [|d r IH]; intros l; cbn [comprehension List.filter].
  - intros H. now inversion H.
  - unfold passes at 1. unfold mbind, result_bind.
    destruct (cond d) as [[|]|e]; try discriminate;
      destruct (comprehension cond r) as [l'|e]; try discriminate;
      intros H; inversion H; subst; now rewrite (IH _ eq_refl).
Qed.

Lemma comprehension_total cond docs :
  Forall (fun d => exists b, cond d = Ok b) docs ->
  comprehension cond docs = Ok (List.filter (passes cond) docs).
Proof.
  induction 1 as [|d r [b Hd] _ IH]; [reflexivity|].
  cbn [comprehension List.filter]. unfold passes at 1. unfold mbind, result_bind.
  rewrite Hd, IH. now destruct b.
Qed.

Lemma comprehension_raises cond docs e :
  comprehension cond docs = Raise e -> exists d, In d docs /\ cond d = Raise e.
Proof.
  induction docs as [|d r IH]; cbn [comprehension]; [discriminate|].
  unfold mbind, result_bind.
  destruct (cond d) as [b|e'] eqn:Hd.
  - destruct (comprehension cond r) as [l'|e'']; [discriminate|].
    intros H. inversion H; subst. destruct (IH eq_refl) as (x & Hx & Hc).
    exists x. split; [now right | assumption].
  - intros H. inversion H; subst. exists d. split; [now left | assumption].
Qed.

Lemma filter_sublist {A} (p : A -> bool) l : sublist (List.filter p l) l.
Proof.
  induction l as [|x l IH]; cbn [List.filter]; [constructor|].
  destruct (p x); now constructor.
Qed.

Lemma filter_filter {A} (p q : A -> bool) l :
  List.filter q (List.filter p l) = List.filter (fun x => p x && q x) l.
Proof.
  induction l as [|x l IH]; [reflexivity|]. cbn [List.filter].
  destruct (p x); cbn [List.filter andb]; [destruct (q x)|]; now rewrite IH.
Qed.

Lemma filter_ext_all {A} (p q : A -> bool) l :
  (forall x, p x = q x) -> List.filter p l = List.filter q l.
Proof. intros H. apply List.filter_ext. exact H. Qed.

(** ** The stages of [filter_documents] *)


Lemma bind_ok {A} (m : result A) : (m ≫= Ok) = m.
Proof. now destruct m. Qed.

Lemma filter_documents_stages docs ft dr sr tg :
  unpacks dr = true -> unpacks sr = true ->
  filter_documents docs ft dr sr tg = apply_all (conditions ft dr sr tg) docs.
Proof.
  intros Hd Hs. unfold filter_documents, conditions.
  destruct ft as [[|c t]|];
    (destruct dr as [[|a [|b [|x y]]]|]; try discriminate Hd);
    (destruct sr as [[|a' [|b' [|x' y']]]|]; try discriminate Hs);
    destruct tg as [[|u v]|]; cbn [app apply_all]; unfold mbind, mret, result_bind, result_ret;
    repeat match goal with
           | |- context [comprehension ?c ?l] =>
               destruct (comprehension c l); try reflexivity
           end; reflexivity.
Qed.

Lemma filter_documents_returns docs ft dr sr tg l :
  filter_documents docs ft dr sr tg = Ok l -> unpacks dr = true /\ unpacks sr = true.
Proof.
  unfold filter_documents, unpacks.
  destruct ft as [[|c t]|];
  destruct dr as [[|a [|b [|x y]]]|];
  destruct sr as [[|a' [|b' [|x' y']]]|];
    unfold mbind, mret, result_bind, result_ret;
    repeat match goal with
           | |- context [match comprehension ?c ?l with _ => _ end] =>
               destruct (comprehension c l); try discriminate
           end; try discriminate; auto.
Qed.

Lemma apply_all_filter conds : forall docs l,
  apply_all conds docs = Ok l ->
  l = List.filter (fun d => forallb (fun c => passes c d) conds) docs.
Proof.
  induction conds as [|c r IH]; intros docs l; cbn [apply_all forallb].
  - intros H. inversion H. clear. induction l as [|x l IHl]; [reflexivity|].
    cbn [List.filter]. now rewrite <- IHl.
  - unfold mbind, result_bind.
    destruct (comprehension c docs) as [l1|e] eqn:E; [|discriminate].
    intros H. apply IH in H. apply comprehension_filter in E. subst l1.
    now rewrite filter_filter in H.
Qed.

Lemma passes_ok cond d : passes cond d = true -> cond d = Ok true.
Proof. unfold passes. destruct (cond d) as [[|]|]; congruence. Qed.

Lemma filter_all {A} (p : A -> bool) l : forallb p l = true -> List.filter p l = l.
Proof.
  induction l as [|x l IH]; [reflexivity|]. cbn [forallb List.filter].
  intros H. apply andb_true_iff in H as [-> H]. now rewrite IH.
Qed.

Lemma apply_all_passing conds : forall l,
  forallb (fun d => forallb (fun c => passes c d) conds) l = true ->
  apply_all conds l = Ok l.
Proof.
  induction conds as [|c r IH]; intros l H; [reflexivity|].
  cbn [apply_all]. unfold mbind, result_bind.
  assert (Hc : forallb (passes c) l = true /\
               forallb (fun d => forallb (fun c => passes c d) r) l = true).
  { clear IH. induction l as [|x l IHl]; [now split|].
    cbn [forallb] in *. apply andb_true_iff in H as [Hx H].
    apply andb_true_iff in Hx as [-> Hx]. destruct (IHl H) as [-> ->].
    now rewrite Hx. }
  destruct Hc as [H1 H2].
  rewrite (comprehension_total c l).
  - rewrite (filter_all _ _ H1). now apply IH.
  - apply List.Forall_forall. intros d Hd. exists true. apply passes_ok.
    rewrite forallb_forall in H1. now apply H1.
Qed.

Lemma forallb_filter {A} (p : A -> bool) l : forallb p (List.filter p l) = true.
Proof.
  induction l as [|x l IH]; [reflexivity|]. cbn [List.filter].
  destruct (p x) eqn:E; [cbn [forallb]; now rewrite E|exact IH].
Qed.

(** On a typed document every condition has an answer. *)
Lemma typed_answers d ft dr sr tg c :
  typed_document d = true -> In c (conditions ft dr sr tg) -> exists b, c d = Ok b.
Proof.
  destruct d as [| | | | |e]; try discriminate. cbn [typed_document].
  rewrite !andb_true_iff. intros [[Hdate Hsize] Htags] Hin.
  unfold conditions in Hin. rewrite !in_app_iff in Hin.
  destruct Hin as [Hin|[Hin|[Hin|Hin]]].
  - destruct ft as [[|a t]|]; try contradiction. destruct Hin as [<-|[]].
    unfold has_type, get, mbind, result_bind. eauto.
  - destruct dr as [[|a [|b [|x y]]]|]; try contradiction. destruct Hin as [<-|[]].
    unfold in_dates, get, mbind, result_bind.
    destruct (dict_lookup "date" e) as [[| | |s| |]|]; try discriminate;
      cbn [str_le le_str]; match goal with |- context [if ?b then _ else _] => destruct b end;
      eauto.
  - destruct sr as [[|a [|b [|x y]]]|]; try contradiction. destruct Hin as [<-|[]].
    unfold in_sizes, get, mbind, result_bind.
    destruct (dict_lookup "size" e) as [[|v|z| | |]|]; try discriminate;
      cbn [int_le le_int]; match goal with |- context [if ?b then _ else _] => destruct b end;
      eauto.
  - destruct tg as [[|a t]|]; try contradiction. destruct Hin as [<-|[]].
    unfold has_tag, get, mbind, result_bind.
    destruct (dict_lookup "tags" e) as [[| | |s|l|f]|]; try discriminate;
      cbn [set_of]; rewrite ?Htags; eauto.
Qed.

Lemma apply_all_total conds : forall docs,
  Forall (fun d => forall c, In c conds -> exists b, c d = Ok b) docs ->
  apply_all conds docs
  = Ok (List.filter (fun d => forallb (fun c => passes c d) conds) docs).
Proof.
  induction conds as [|c r IH]; intros docs H; cbn [apply_all forallb].
  - f_equal. clear. induction docs as [|x l IHl]; [reflexivity|].
    cbn [List.filter]. now rewrite <- IHl.
  - rewrite List.Forall_forall in H.
    unfold mbind, result_bind. rewrite (comprehension_total c docs).
    + rewrite IH, filter_filter; [reflexivity|].
      apply List.Forall_forall. intros d Hd c' Hc'.
      apply filter_In in Hd as [Hd _].
      apply (H d Hd). now right.
    + apply List.Forall_forall. intros d Hd. apply (H d Hd). now left.
Qed.

End UtilsFacts.
Export UtilsFacts.

Module UtilsTheorems.

(** ** Properties of [filter_documents] *)

(** X15 (what is returned).  When [filter_documents] returns, it returns
    the documents of [docs] that pass every condition the arguments make
    it apply, each answering [True] without raising, and no others: they
    come in the order of [docs], none repeated more than it is there. *)
Theorem filter_documents_selects docs file_type date_range size_range tags l :
  filter_documents docs file_type date_range size_range tags = Ok l ->
  l = List.filter
        (fun d => forallb (fun c => passes c d)
                    (conditions file_type date_range size_range tags)) docs
  /\ sublist l docs.
Proof.
  intros H. destruct (filter_documents_returns _ _ _ _ _ _ H) as [Hd Hs].
  rewrite (filter_documents_stages _ _ _ _ _ Hd Hs) in H.
  apply apply_all_filter in H. split; [exact H|]. subst l. apply filter_sublist.
Qed.

(** The three documents of the examples under the four filters: the
    first one alone passes. *)
Lemma filter_documents_selects_witness :
  [nth 0 sample_docs PyNone]
  = List.filter
      (fun d => forallb (fun c => passes c d)
                  (conditions (Some "py") (Some ["2024-01-01"; "2024-12-31"])
                     (Some [100; 200]%Z) (Some ["api"]))) sample_docs
  /\ sublist [nth 0 sample_docs PyNone] sample_docs.
Proof.
  apply (filter_documents_selects sample_docs (Some "py")
           (Some ["2024-01-01"; "2024-12-31"]) (Some [100; 200]%Z) (Some ["api"])).
  reflexivity.
Defined.

(** X16 (documents of the expected types).  On documents that are
    dictionaries whose [date], [size] and [tags], where present, have the
    types the conditions compare and iterate, [filter_documents] returns
    exactly when it can unpack the date range and the size range (each
    absent, empty or of two elements), and it then returns the documents
    that pass the conditions; otherwise it raises [ValueError]. *)
Theorem filter_documents_on_typed docs file_type date_range size_range tags :
  forallb typed_document docs = true ->
  filter_documents docs file_type date_range size_range tags
  = if unpacks date_range && unpacks size_range
    then Ok (List.filter
               (fun d => forallb (fun c => passes c d)
                           (conditions file_type date_range size_range tags)) docs)
    else Raise ValueError.
Proof.
  intros Ht. rewrite forallb_forall in Ht.
  assert (Hall : forall ft dr sr tg l, incl l docs ->
            apply_all (conditions ft dr sr tg) l
            = Ok (List.filter
                    (fun d => forallb (fun c => passes c d) (conditions ft dr sr tg)) l)).
  { intros ft dr sr tg l Hl. apply apply_all_total. apply List.Forall_forall.
    intros d Hd c Hc. apply (typed_answers d ft dr sr tg c); [|assumption].
    apply Ht, Hl, Hd. }
  destruct (unpacks date_range) eqn:Hd; [destruct (unpacks size_range) eqn:Hs|];
    cbn [andb].
  - rewrite filter_documents_stages by assumption. apply Hall, incl_refl.
  - pose proof (Hall file_type date_range None None docs (incl_refl _)) as H1.
    rewrite <- filter_documents_stages in H1 by (assumption || reflexivity).
    revert H1. unfold filter_documents, unpacks in *.
    unfold mbind, mret, result_bind, result_ret.
    destruct file_type as [[|c t]|];
      (destruct date_range as [[|a [|b [|x y]]]|]; try discriminate Hd);
      (destruct size_range as [[|a' [|b' [|x' y']]]|]; try discriminate Hs);
      repeat match goal with
             | |- context [match comprehension ?c ?l with _ => _ end] =>
                 destruct (comprehension c l); try discriminate
             end; reflexivity.
  - pose proof (Hall file_type None None None docs (incl_refl _)) as H1.
    rewrite <- filter_documents_stages in H1 by reflexivity.
    revert H1. unfold filter_documents, unpacks in *.
    unfold mbind, mret, result_bind, result_ret.
    destruct file_type as [[|c t]|];
      (destruct date_range as [[|a [|b [|x y]]]|]; try discriminate Hd);
      repeat match goal with
             | |- context [match comprehension ?c ?l with _ => _ end] =>
                 destruct (comprehension c l); try discriminate
             end; reflexivity.
Qed.

(** A date range of one element, on the documents of the examples:
    [ValueError]. *)
Lemma filter_documents_on_typed_witness :
  filter_documents sample_docs (Some "py") (Some ["2024-01-01"]) None (Some ["api"])
  = if unpacks (Some ["2024-01-01"]) && unpacks (@None (list Z))
    then Ok (List.filter
               (fun d => forallb (fun c => passes c d)
                           (conditions (Some "py") (Some ["2024-01-01"]) None
                              (Some ["api"]))) sample_docs)
    else Raise ValueError.
Proof.
  apply (filter_documents_on_typed sample_docs (Some "py") (Some ["2024-01-01"]) None
           (Some ["api"])).
  reflexivity.
Defined.

(** X17 (filtering twice).  What [filter_documents] returned, it returns
    again when it is given it with the same arguments. *)
Theorem filter_documents_twice docs file_type date_range size_range tags l :
  filter_documents docs file_type date_range size_range tags = Ok l ->
  filter_documents l file_type date_range size_range tags = Ok l.
Proof.
  intros H. destruct (filter_documents_returns _ _ _ _ _ _ H) as [Hd Hs].
  rewrite (filter_documents_stages docs _ _ _ _ Hd Hs) in H.
  rewrite (filter_documents_stages l _ _ _ _ Hd Hs).
  apply apply_all_filter in H. apply apply_all_passing.
  rewrite H. apply forallb_filter.
Qed.

(** The document of the examples whose tags are the string [api], kept
    by the tags [a] and [x]. *)
Lemma filter_documents_twice_witness :
  filter_documents [nth 2 sample_docs PyNone] None None None (Some ["a"; "x"])
  = Ok [nth 2 sample_docs PyNone].
Proof.
  apply (filter_documents_twice sample_docs None None None (Some ["a"; "x"])).
  reflexivity.
Defined.

(** X18 (a date that is not a string).  When the documents are
    dictionaries and one of them, which the filter on the type keeps,
    holds under [date] a value that is not a string, a call with a date
    range of two strings raises [TypeError], whatever the other documents
    hold. *)
Theorem filter_documents_date_type_error docs e v file_type start end_ size_range tags :
  forallb is_dict docs = true ->
  In (PyDict e) docs ->
  dict_lookup "date" e = Some v ->
  (forall s, v <> PyStr s) ->
  passes (has_type file_type) (PyDict e) = true \/ file_type = "" ->
  filter_documents docs (Some file_type) (Some [start; end_]) size_range tags
  = Raise (Std TypeError)
  /\ filter_documents docs None (Some [start; end_]) size_range tags
     = Raise (Std TypeError).
Proof.
  intros Hdocs Hin Hdate Hv Hty. rewrite forallb_forall in Hdocs.
  assert (Hraise : forall l, (forall d, In d l -> is_dict d = true) -> In (PyDict e) l ->
            comprehension (in_dates start end_) l = Raise (Std TypeError)).
  { induction l as [|d r IH]; intros Hl Hr; [destruct Hr|].
    cbn [comprehension]. unfold mbind, result_bind.
    assert (Hd : in_dates start end_ d = Raise (Std TypeError)
                 \/ exists b, in_dates start end_ d = Ok b).
    { specialize (Hl d (or_introl eq_refl)). destruct d as [| | | | |f]; try discriminate.
      unfold in_dates, get, mbind, result_bind.
      destruct (match dict_lookup "date" f with Some x => x | None => PyStr "" end)
        as [| | |s| |]; cbn [str_le le_str]; auto.
      destruct (String.leb start s); eauto. }
    destruct Hr as [->|Hr].
    - unfold in_dates, get, mbind, result_bind. rewrite Hdate.
      destruct v as [| | |s| |]; try reflexivity. now destruct (Hv s).
    - destruct Hd as [->|[b ->]]; [reflexivity|].
      rewrite IH; [reflexivity | | assumption].
      intros x Hx. apply Hl. now right. }
  assert (Htype : exists l, comprehension (has_type file_type) docs = Ok l
                            /\ (forall d, In d l -> is_dict d = true)
                            /\ (passes (has_type file_type) (PyDict e) = true ->
                                In (PyDict e) l)).
  { exists (List.filter (passes (has_type file_type)) docs). split; [|split].
    - apply comprehension_total. apply List.Forall_forall. intros d Hd.
      specialize (Hdocs d Hd). destruct d; try discriminate.
      unfold has_type, get, mbind, result_bind. eauto.
    - intros d Hd. apply filter_In in Hd as [Hd _]. now apply Hdocs.
    - intros Hp. apply filter_In. now split. }
  destruct Htype as (l & Hl & Hdict & Hkeep).
  split.
  - unfold filter_documents. destruct file_type as [|c t].
    + unfold mbind, result_bind. now rewrite (Hraise docs Hdocs Hin).
    + destruct Hty as [Hty|Hty]; [|discriminate Hty].
      unfold mbind, result_bind. rewrite Hl. now rewrite (Hraise l Hdict (Hkeep Hty)).
  - unfold filter_documents, mbind, result_bind. now rewrite (Hraise docs Hdocs Hin).
Qed.

(** A document dated by a number after the documents of the examples. *)
Lemma filter_documents_date_type_error_witness :
  filter_documents (sample_docs ++ [dated_by_number]) (Some "py")
    (Some ["2024-01-01"; "2024-12-31"]) None None = Raise (Std TypeError)
  /\ filter_documents (sample_docs ++ [dated_by_number]) None
       (Some ["2024-01-01"; "2024-12-31"]) None None = Raise (Std TypeError).
Proof.
  apply (filter_documents_date_type_error (sample_docs ++ [dated_by_number])
           [("type", PyStr "py"); ("date", PyInt 20240301)] (PyInt 20240301) "py").
  - reflexivity.
  - do 3 right. left. reflexivity.
  - reflexivity.
  - discriminate.
  - left. reflexivity.
Defined.

(** X19 (tags held as one string).  A document whose [tags] are a string
    is matched through the characters of that string: a tag selects it
    exactly when the tag is one character that occurs in the string.  So
    a document tagged by the string [api] is not found under the tag
    [api]. *)
Theorem filter_documents_string_tags e s t :
  dict_lookup "tags" e = Some (PyStr s) ->
  filter_documents [PyDict e] None None None (Some [t])
  = Ok (if match chars t with
           | [c] => existsb (Ascii.eqb c) (chars s)
           | _ => false
           end
        then [PyDict e] else []).
Proof.
  intros H. unfold filter_documents. unfold mbind, mret, result_bind, result_ret.
  cbn [comprehension]. unfold has_tag, get, mbind, mret, result_bind, result_ret.
  rewrite H. cbn [set_of meets existsb].
  rewrite orb_false_r.
  assert (E : list_contains (map (fun c => PyStr (String c "")) (chars s)) (PyStr t)
              = match chars t with
                | [c] => existsb (Ascii.eqb c) (chars s)
                | _ => false
                end).
  { unfold list_contains. generalize (chars s) as r.
    induction r as [|a r IH].
    - now destruct (chars t) as [|c [|c' u]].
    - change (existsb (fun x => py_eq (PyStr t) x)
                (map (fun c => PyStr (String c "")) (a :: r)))
        with (String.eqb t (String a "")
              || existsb (fun x => py_eq (PyStr t) x)
                   (map (fun c => PyStr (String c "")) r)).
      rewrite IH. destruct t as [|c [|c' u]];
        cbn [chars list_ascii_of_string String.eqb existsb]; try reflexivity.
      + now destruct (Ascii.eqb c a).
      + now destruct (Ascii.eqb c a). }
  rewrite E. now destruct (match chars t with [c] => _ | _ => false end).
Qed.

(** The document of the examples tagged by the string [api], under the
    tag [api]: not returned. *)
Lemma filter_documents_string_tags_witness :
  filter_documents [nth 2 sample_docs PyNone] None None None (Some ["api"])
  = Ok (if match chars "api" with
           | [c] => existsb (Ascii.eqb c) (chars "api")
           | _ => false
           end
        then [nth 2 sample_docs PyNone] else []).
Proof.
  apply (filter_documents_string_tags
           [("type", PyStr "md"); ("date", PyStr "2024-05-17"); ("tags", PyStr "api")]
           "api" "api").
  reflexivity.
Defined.

End UtilsTheorems.

Module CliFacts.

Ltac unfold_io :=
  unfold print_help, say, perform, call, pure, try_catch, mbind, mret, io_bind, io_ret in *.

Ltac each_exception e :=
  destruct e as [[| | | | |]| | | | | | | |].

(** ** One round of the loop *)

Lemma get_theme_ok name : exists x, get_theme name = Ok x.
Proof. eexists. reflexivity. Qed.

Lemma get_ascii_art_ok name : exists x, get_ascii_art name = Ok x.
Proof. eexists. reflexivity. Qed.

Lemma get_animation_frames_ok name : exists x, get_animation_frames name = Ok x.
Proof. eexists. reflexivity. Qed.

Lemma item_nil {A} (i : Z) : item (@nil A) i = Raise IndexError.
Proof.
  unfold item. generalize (if (i <? 0)%Z then (i + Z.of_nat (length (@nil A)))%Z else i).
  intros j. destruct (j <? 0)%Z; [reflexivity|]. now rewrite List.nth_error_nil.
Qed.

Lemma picked_nothing s :
  picked s [] = Raise IndexError \/ picked s [] = Raise ValueError.
Proof.
  unfold picked, mbind, result_bind.
  destruct (item (split s) 1) as [token|e] eqn:E1.
  - destruct (int_of token) as [n|e] eqn:E2.
    + left. apply item_nil.
    + right. unfold int_of in E2.
      match type of E2 with
      | match ?x with _ => _ end = _ => destruct x; now inversion E2
      end.
  - left. unfold item in E1. change (1 <? 0)%Z with false in E1. cbn iota in E1.
    change (1 <? 0)%Z with false in E1. cbn iota in E1.
    match type of E1 with
    | match ?x with _ => _ end = _ => destruct x; now inversion E1
    end.
Qed.


Ltac quiet :=
  repeat first
    [ apply exchanges_nil
    | apply exchanges_other; [reflexivity|] ].

Lemma body_round st t :
  last_results st = [] -> round_ok (fst (body st t)) (snd (body st t)).
Proof.
  intros Hst. unfold body. destruct (asked t) as [s|e].
  2:{ unfold_io. destruct (caught_by ["KeyboardInterrupt"; "EOFError"] e);
        cbn [fst snd app]; split; try reflexivity; try discriminate; quiet. }
  unfold_io. cbn [fst snd app].
  destruct (String.eqb (strip s) "") eqn:E0;
    [cbn [fst snd app]; split; try reflexivity; try (now intros st' [= <-]); quiet|].
  destruct (String.eqb (lower s) "/exit") eqn:E1;
    [cbn [fst snd app]; split; try reflexivity; try discriminate; quiet|].
  destruct (String.eqb (lower s) "/help") eqn:E2;
    [cbn [fst snd app]; split; try reflexivity; try (now intros st' [= <-]); quiet|].
  destruct (startswith s "/theme") eqn:E3.
  { destruct (split s) as [|p0 [|name rest]];
      try (cbn [fst snd app]; split; try reflexivity; try (now intros st' [= <-]); quiet; fail).
    destruct (existsb (String.eqb name) ["cyberpunk"; "ocean"; "forest"; "sunset"]);
      [|cbn [fst snd app]; split; try reflexivity; try (now intros st' [= <-]); quiet].
    unfold print_ascii_art. unfold_io.
    destruct (get_theme_ok name) as [x ->]. destruct (get_ascii_art_ok name) as [y ->].
    cbn [fst snd app]. split; try reflexivity; try (now intros st' [= <-]); quiet. }
  destruct (String.eqb (lower s) "/history") eqn:E4.
  { destruct (table t) as [[]|e]; cbn [fst snd app]; split; try reflexivity;
      try discriminate; try (now intros st' [= <-]); quiet. }
  destruct (startswith s "/bookmark") eqn:E5.
  { rewrite Hst. destruct (picked_nothing s) as [-> | ->];
      cbn [fst snd app caught_by classes existsb String.eqb Ascii.eqb Bool.eqb orb];
      split; try reflexivity; try (now intros st' [= <-]); quiet. }
  destruct (startswith s "/preview") eqn:E6.
  { rewrite Hst. destruct (picked_nothing s) as [-> | ->];
      cbn [fst snd app caught_by classes existsb String.eqb Ascii.eqb Bool.eqb orb];
      split; try reflexivity; try (now intros st' [= <-]); quiet. }
  destruct (String.eqb (lower s) "/analytics") eqn:E7;
    [cbn [fst snd app]; split; try reflexivity; try (now intros st' [= <-]); quiet|].
  assert (Hc : is_command s = false).
  { unfold is_command. cbn [existsb]. now rewrite E0, E1, E2, E3, E4, E5, E6, E7. }
  destruct (get_animation_frames_ok (theme_of st)) as [frames ->].
  destruct (reply t) as [r|e].
  - destruct (saved t) as [[]|e]; [|destruct (caught_by ["Exception"] e)];
      cbn [fst snd app]; split;
      try (cbn [existsb uses_results chats_command orb]; now rewrite ?Hc);
      try reflexivity; try discriminate;
      try (now intros st' [= <-]);
      apply exchanges_other; try reflexivity; apply exchanges_other; try reflexivity;
      apply exchanges_answered; quiet.
  - destruct (caught_by ["Exception"] e);
      cbn [fst snd app]; split;
      try (cbn [existsb uses_results chats_command orb]; now rewrite ?Hc);
      try reflexivity; try discriminate;
      try (now intros st' [= <-]);
      apply exchanges_other; try reflexivity; apply exchanges_other; try reflexivity;
      apply exchanges_failed; quiet.
Qed.

(** ** A run of the loop, and [main] *)

Lemma exchanges_app a b : exchanges a -> exchanges b -> exchanges (a ++ b).
Proof.
  intros Ha Hb. induction Ha; cbn [app]; try assumption; now constructor.
Qed.

Lemma pushed_app a : forall d b,
  pushed d (a ++ b) = match pushed d a with Some d' => pushed d' b | None => None end.
Proof.
  induction a as [|x a IH]; intros d b; [reflexivity|].
  destruct x; cbn [app pushed]; try apply IH. destruct d; [reflexivity | apply IH].
Qed.

Lemma run_ok_app a b : run_ok a -> run_ok b -> run_ok (a ++ b).
Proof.
  intros [A1 A2 A3 A4] [B1 B2 B3 B4]. split.
  - now apply exchanges_app.
  - now rewrite existsb_app, A2, B2.
  - now rewrite existsb_app, A3, B3.
  - intros d. now rewrite pushed_app, A4, B4.
Qed.

Lemma run_ok_nil : run_ok [].
Proof. split; try reflexivity. constructor. Qed.

Lemma loop_run turns : forall st,
  last_results st = [] -> run_ok (fst (loop st turns)).
Proof.
  induction turns as [|t later IH]; intros st Hst; [apply run_ok_nil|].
  cbn [loop]. unfold mbind, mret, io_bind, io_ret.
  pose proof (body_round st t Hst) as [H1 H2 H3 H4 H5].
  destruct (body st t) as [acts [[st'|]|e]]; cbn [fst snd] in *.
  - specialize (IH st' (H5 st' eq_refl)).
    destruct (loop st' later) as [more r]. cbn [fst] in *.
    apply run_ok_app; [now split | assumption].
  - cbn [fst]. rewrite app_nil_r. now split.
  - now split.
Qed.

Lemma check_nodejs_quiet run : run_ok (fst (check_nodejs run)).
Proof.
  unfold check_nodejs. unfold_io.
  destruct (run ["node"; "--version"]) as [[rc out]|e];
    [cbn [returncode stdout]; destruct (rc =? 0)%Z;
     [|destruct (run ["npx"; "--version"]) as [[rc2 out2]|e2];
       [cbn [returncode stdout]; destruct (rc2 =? 0)%Z
       |destruct (caught_by ["TimeoutExpired"; "FileNotFoundError"] e2)]]
    |destruct (caught_by ["TimeoutExpired"; "FileNotFoundError"] e)];
    cbn [fst snd app]; split; try reflexivity; quiet.
Qed.

Lemma main_opening theme run turns :
  exists styles art,
    fst (main theme run turns)
    = [PushTheme styles; PrintPanel art None "ascii";
       Print ("[header]Welcome to Context7 Agent! (Theme: " +:+ theme +:+ ")[/header]");
       Print help_text; CallGetHistory; CallGetBookmarks]
      ++ fst (check_nodejs run)
      ++ match snd (check_nodejs run) with
         | Ok true =>
             [Print "[dim]Starting Context7 MCP server...[/dim]";
              Print "[green]✅ Context7 MCP server connected successfully[/green]"]
             ++ fst (loop (mkState theme []) turns)
             ++ match snd (loop (mkState theme []) turns) with
                | Ok Waiting => []
                | Ok Returned => [Print "[yellow]🔄 Shutting down gracefully...[/yellow]"]
                | Raise e =>
                    if caught_by ["Exception"] e then
                      [PrintApplicationError e;
                       Print "[yellow]Troubleshooting steps:[/yellow]";
                       Print "[dim]1. Ensure Node.js 18+ is installed[/dim]";
                       Print "[dim]2. Run: npm install -g @upstash/context7-mcp@latest[/dim]";
                       Print "[dim]3. Check internet connectivity[/dim]";
                       Print "[yellow]🔄 Shutting down gracefully...[/yellow]"]
                    else [Print "[yellow]🔄 Shutting down gracefully...[/yellow]"]
                end
         | Ok false =>
             [Print "[yellow]⚠️  Node.js 18+ and npm are required for MCP functionality[/yellow]";
              Print "[dim]Install from: https://nodejs.org/[/dim]"]
         | Raise _ => []
         end.
Proof.
  unfold main, print_ascii_art. unfold_io.
  destruct (get_theme_ok theme) as [x ->]. destruct (get_ascii_art_ok theme) as [y ->].
  exists x, y.
  destruct (check_nodejs run) as [acts [[|]|e]]; cbn [fst snd app negb].
  - destruct (loop (mkState theme []) turns) as [more [[|]|e]]; cbn [fst snd app].
    + now rewrite <- ?app_assoc.
    + now rewrite ?app_nil_r.
    + destruct (caught_by ["Exception"] e); cbn [fst snd app]; now rewrite <- ?app_assoc.
  - reflexivity.
  - now rewrite ?app_nil_r.
Qed.


Lemma main_run theme run turns :
  exchanges (fst (main theme run turns))
  /\ existsb uses_results (fst (main theme run turns)) = false
  /\ existsb chats_command (fst (main theme run turns)) = false
  /\ pushed 0 (fst (main theme run turns)) = Some 1.
Proof.
  destruct (main_opening theme run turns) as (x & y & ->).
  pose proof (check_nodejs_quiet run) as [N1 N2 N3 N4].
  pose proof (loop_run turns (mkState theme []) eq_refl) as [L1 L2 L3 L4].
  assert (T : run_ok
                match snd (loop (mkState theme []) turns) with
                | Ok Waiting => []
                | Ok Returned => [Print "[yellow]🔄 Shutting down gracefully...[/yellow]"]
                | Raise e =>
                    if caught_by ["Exception"] e then
                      [PrintApplicationError e;
                       Print "[yellow]Troubleshooting steps:[/yellow]";
                       Print "[dim]1. Ensure Node.js 18+ is installed[/dim]";
                       Print "[dim]2. Run: npm install -g @upstash/context7-mcp@latest[/dim]";
                       Print "[dim]3. Check internet connectivity[/dim]";
                       Print "[yellow]🔄 Shutting down gracefully...[/yellow]"]
                    else [Print "[yellow]🔄 Shutting down gracefully...[/yellow]"]
                end).
  { destruct (snd (loop _ turns)) as [[|]|e]; [| |destruct (caught_by _ e)];
      split; try reflexivity; quiet. }
  pose proof (loop_run turns (mkState theme []) eq_refl) as L.
  pose proof (check_nodejs_quiet run) as N.
  clear L1 L2 L3 L4 N1 N2 N3 N4.
  match goal with
  | |- context [?o ++ fst (check_nodejs run) ++ ?rest] =>
      assert (R : run_ok (fst (check_nodejs run) ++ rest));
      [|generalize dependent (fst (check_nodejs run) ++ rest)]
  end.
  { apply run_ok_app; [assumption|].
    destruct (snd (check_nodejs run)) as [[|]|e].
    - apply (run_ok_app [_; _]); [split; try reflexivity; quiet|].
      now apply run_ok_app.
    - split; try reflexivity; quiet.
    - apply run_ok_nil. }
  intros rest [R1 R2 R3 R4]. repeat split.
  - quiet. assumption.
  - cbn [app existsb uses_results orb]. assumption.
  - cbn [app existsb chats_command orb]. assumption.
  - cbn [app pushed]. apply R4.
Qed.

Lemma is_prefix_split x : forall s,
  is_prefix x s = true -> exists r, s = x ++ r.
Proof.
  induction x as [|a x IH]; intros s; cbn [is_prefix].
  - exists s. reflexivity.
  - destruct s as [|b s]; [discriminate|]. intros H.
    apply andb_true_iff in H as [Hab H]. apply Ascii.eqb_eq in Hab. subst b.
    destruct (IH s H) as [r ->]. now exists r.
Qed.

(** A line that starts with a slash and a small letter is not blank,
    and its first two characters stay under [lower]. *)
Lemma command_shape s p :
  startswith s p = true ->
  exists r, chars s = chars p ++ r.
Proof. unfold startswith. apply is_prefix_split. Qed.

Lemma strip_not_blank c r s :
  chars s = c :: r -> is_space c = false -> String.eqb (strip s) "" = false.
Proof.
  intros Hs Hc. unfold strip. rewrite Hs. cbn [drop_while]. rewrite Hc.
  destruct (rev (c :: r)) as [|x l] eqn:E.
  { apply (f_equal (@length _)) in E. rewrite length_rev in E. discriminate E. }
  assert (H : drop_while is_space (x :: l) <> []).
  { intros Hd. assert (Hall : forallb is_space (x :: l) = true).
    { clear -Hd. induction (x :: l) as [|a t IH]; [reflexivity|].
      cbn [drop_while] in Hd. cbn [forallb]. destruct (is_space a); [now apply IH | discriminate]. }
    rewrite <- E, forallb_rev in Hall. cbn [forallb] in Hall. rewrite Hc in Hall.
    discriminate Hall. }
  destruct (drop_while is_space (x :: l)) as [|y l'] eqn:D; [now destruct H|].
  destruct (rev (y :: l')) as [|z l''] eqn:R.
  { apply (f_equal (@length _)) in R. rewrite length_rev in R. discriminate R. }
  reflexivity.
Qed.

(** ** Lines that start with a command *)

Lemma text_cons c l : text (c :: l) = String c (text l).
Proof. reflexivity. Qed.

(** The conditions of the loop before the one for [/bookmark], on a
    line that starts with [/bookmark] or [/preview]. *)
Lemma before_bookmark s p :
  p = "/bookmark" \/ p = "/preview" ->
  startswith s p = true ->
  String.eqb (strip s) "" = false
  /\ String.eqb (lower s) "/exit" = false
  /\ String.eqb (lower s) "/help" = false
  /\ startswith s "/theme" = false
  /\ String.eqb (lower s) "/history" = false
  /\ (p = "/preview" -> startswith s "/bookmark" = false).
Proof.
  intros Hp H. destruct (command_shape s p H) as [r Hr].
  assert (Hs : exists c r', chars s = "/"%char :: c :: r'
                            /\ (c = "b"%char \/ c = "p"%char)
                            /\ (p = "/preview" -> c = "p"%char)).
  { destruct Hp; subst p; cbn in Hr; eexists _, _; (split; [exact Hr|]); auto.
    split; [now left | discriminate]. }
  destruct Hs as (c & r' & Hs & Hc & Hpre).
  split; [now apply (strip_not_blank "/"%char (c :: r') s)|].
  unfold lower, startswith. rewrite Hs. cbn [map]. rewrite !text_cons.
  change (lower_char "/") with "/"%char.
  assert (Hl : lower_char c = c) by (destruct Hc; now subst c).
  rewrite Hl. cbn [chars list_ascii_of_string is_prefix String.eqb].
  change (Ascii.eqb "/" "/") with true. cbn [andb].
  destruct Hc; subst c; repeat split; try reflexivity.
  all: intros Hq; specialize (Hpre Hq); discriminate Hpre.
Qed.

Lemma lower_char_slash c : lower_char c = "/"%char -> c = "/"%char.
Proof.
  destruct c as [[|] [|] [|] [|] [|] [|] [|] [|]]; vm_compute; congruence.
Qed.

Lemma lower_exit_not_blank s :
  String.eqb (lower s) "/exit" = true -> String.eqb (strip s) "" = false.
Proof.
  intros H. apply String.eqb_eq in H. unfold lower in H.
  destruct (chars s) as [|c r] eqn:E; [discriminate H|].
  cbn [map] in H. rewrite text_cons in H. inversion H as [[Hc Hr]].
  apply lower_char_slash in Hc. subst c.
  now apply (strip_not_blank "/"%char r s).
Qed.

Lemma before_theme s :
  startswith s "/theme" = true ->
  String.eqb (strip s) "" = false
  /\ String.eqb (lower s) "/exit" = false
  /\ String.eqb (lower s) "/help" = false.
Proof.
  intros H. destruct (command_shape s "/theme" H) as [r Hr]. cbn in Hr.
  split; [now apply (strip_not_blank "/"%char ("t"%char :: "h"%char :: "e"%char
                                                :: "m"%char :: "e"%char :: r) s)|].
  unfold lower. rewrite Hr. cbn [map]. rewrite !text_cons.
  change (lower_char "/") with "/"%char. change (lower_char "t") with "t"%char.
  split; reflexivity.
Qed.

End CliFacts.
Export CliFacts.

Module CliTheorems.

(** ** Properties of the themes and of the command line *)

(** X20 (the tables of the themes).  For every name, [get_theme],
    [get_ascii_art] and [get_animation_frames] return without
    [KeyError]: the entry of that name when it is one of [cyberpunk],
    [ocean], [forest] and [sunset] as written, the entry of [cyberpunk]
    for any other name.  The theme returned defines the same ten styles
    whatever the name, and the animation has eight frames. *)
Theorem getters_fall_back name :
  let entry := if existsb (String.eqb name) theme_names then name else "cyberpunk" in
  get_theme name = subscript THEMES entry
  /\ get_ascii_art name = subscript ASCII_ART entry
  /\ get_animation_frames name = subscript ANIMATION_FRAMES entry
  /\ exists styles art frames,
       get_theme name = Ok styles
       /\ get_ascii_art name = Ok art
       /\ get_animation_frames name = Ok frames
       /\ map fst styles = style_names
       /\ length frames = 8.
Proof.
  unfold theme_names. cbn [existsb].
  destruct (String.eqb name "cyberpunk") eqn:E1;
    [apply String.eqb_eq in E1; subst; cbn; repeat split; eexists _, _, _; repeat split|].
  destruct (String.eqb name "ocean") eqn:E2;
    [apply String.eqb_eq in E2; subst; cbn; repeat split; eexists _, _, _; repeat split|].
  destruct (String.eqb name "forest") eqn:E3;
    [apply String.eqb_eq in E3; subst; cbn; repeat split; eexists _, _, _; repeat split|].
  destruct (String.eqb name "sunset") eqn:E4;
    [apply String.eqb_eq in E4; subst; cbn; repeat split; eexists _, _, _; repeat split|].
  cbn [orb].
  unfold get_theme, get_ascii_art, get_animation_frames, get_or, subscript.
  cbn [THEMES ASCII_ART ANIMATION_FRAMES assoc]. rewrite E1, E2, E3, E4.
  repeat split. eexists _, _, _. repeat split.
Qed.

(** X21 ([check_nodejs]).  The answer is [True] exactly when [node
    --version] exits with code zero, or exits with another code and
    [npx --version] exits with code zero.  [npx] is run exactly when
    [node] exited with a code other than zero: when [node] exits with
    zero, or cannot be run, neither the answer nor what is printed
    depends on [npx].  At most one line is printed. *)
Theorem check_nodejs_answer run :
  (snd (check_nodejs run) = Ok true
   <-> exits_zero (run ["node"; "--version"]) = true
       \/ exits_nonzero (run ["node"; "--version"]) = true
          /\ exits_zero (run ["npx"; "--version"]) = true)
  /\ existsb (is_run ["npx"; "--version"]) (fst (check_nodejs run))
     = exits_nonzero (run ["node"; "--version"])
  /\ (exits_nonzero (run ["node"; "--version"]) = false ->
      forall run', run' ["node"; "--version"] = run ["node"; "--version"] ->
                   check_nodejs run' = check_nodejs run)
  /\ length (List.filter is_print (fst (check_nodejs run))) <= 1.
Proof.
  unfold check_nodejs, exits_zero, exits_nonzero. unfold_io.
  destruct (run ["node"; "--version"]) as [[rc out]|e] eqn:En;
    [cbn [returncode stdout]; destruct (rc =? 0)%Z eqn:Erc;
     [|destruct (run ["npx"; "--version"]) as [[rc2 out2]|e2] eqn:Ex;
       [cbn [returncode stdout]; destruct (rc2 =? 0)%Z eqn:Erc2
       |destruct (caught_by ["TimeoutExpired"; "FileNotFoundError"] e2) eqn:Ec2]]
    |destruct (caught_by ["TimeoutExpired"; "FileNotFoundError"] e) eqn:Ec];
    cbn [fst snd app existsb is_run List.filter is_print length negb orb];
    (split; [|split; [|split]]);
    try (split; [intros H; (discriminate H || tauto)
                |intros [H|[H1 H2]]; (discriminate || reflexivity)]);
    try reflexivity; try lia; try discriminate;
    try (intros _ run' ->; cbn [returncode]; rewrite ?Erc, ?Ec; reflexivity).
Qed.

(** X22 (no result to bookmark or preview).  [last_results] is empty
    from the start of [main] to its end, so no run of [main] calls
    [add_bookmark] or shows a preview: a line that starts with
    [/bookmark] prints [Invalid bookmark index.], one that starts with
    [/preview] prints [Invalid preview index.], whatever follows the
    command, and the loop goes on. *)
Theorem results_are_never_used theme run turns :
  existsb uses_results (fst (main theme run turns)) = false
  /\ forall st t s,
       last_results st = [] -> asked t = Ok s ->
       (startswith s "/bookmark" = true ->
        body st t = ([AskPrompt; Print (format_error "Invalid bookmark index.")],
                     Ok (Continue st)))
       /\ (startswith s "/preview" = true ->
           body st t = ([AskPrompt; Print (format_error "Invalid preview index.")],
                        Ok (Continue st))).
Proof.
  split; [apply main_run|].
  intros st t s Hst Ht. split; intros Hs.
  - destruct (before_bookmark s "/bookmark" (or_introl eq_refl) Hs)
      as (E0 & E1 & E2 & E3 & E4 & _).
    unfold body. rewrite Ht. unfold_io. cbn [fst snd app].
    rewrite E0, E1, E2, E3, E4, Hs, Hst.
    destruct (picked_nothing s) as [-> | ->]; reflexivity.
  - destruct (before_bookmark s "/preview" (or_intror eq_refl) Hs)
      as (E0 & E1 & E2 & E3 & E4 & E5).
    unfold body. rewrite Ht. unfold_io. cbn [fst snd app].
    rewrite E0, E1, E2, E3, E4, (E5 eq_refl), Hs, Hst.
    destruct (picked_nothing s) as [-> | ->]; reflexivity.
Qed.

(** X23 (one theme on the console).  [main] pushes a theme before
    anything else touches the themes, and a change of theme pops one
    theme and pushes one: no [pop_theme] of a run finds the stack of
    pushed themes empty, and at any point where the run stands one theme
    is pushed. *)
Theorem one_theme_is_pushed theme run turns :
  pushed 0 (fst (main theme run turns)) = Some 1.
Proof. apply main_run. Qed.

(** X24 (the agent and the history).  In every run of [main] the
    history is appended to and saved only after a chat the agent
    answered: the answer is shown, the line typed is appended as the
    message of the user, the answer as the message of the assistant, and
    the history is saved, in that order; a chat that raised is followed
    by nothing of this.  No blank line and no command of the loop is
    ever sent to the agent. *)
Theorem history_follows_the_chat theme run turns :
  exchanges (fst (main theme run turns))
  /\ existsb chats_command (fst (main theme run turns)) = false.
Proof. split; apply main_run. Qed.

(** X25 (without Node.js).  When [check_nodejs] answers [False], [main]
    returns without prompting and without calling the agent's chat,
    whatever lines are waiting. *)
Theorem main_stops_without_node theme run turns :
  snd (check_nodejs run) = Ok false ->
  snd (main theme run turns) = Ok Returned
  /\ existsb asks (fst (main theme run turns)) = false.
Proof.
  intros Hn. split.
  - unfold main, print_ascii_art. unfold_io.
    destruct (get_theme_ok theme) as [x ->]. destruct (get_ascii_art_ok theme) as [y ->].
    destruct (check_nodejs run) as [acts r]. cbn [snd] in Hn. subst r. reflexivity.
  - destruct (main_opening theme run turns) as (x & y & ->). rewrite Hn.
    rewrite !existsb_app. cbn [existsb asks orb].
    rewrite orb_false_r. unfold check_nodejs. unfold_io.
    destruct (run ["node"; "--version"]) as [[rc out]|e];
      [cbn [returncode stdout]; destruct (rc =? 0)%Z;
       [|destruct (run ["npx"; "--version"]) as [[rc2 out2]|e2];
         [cbn [returncode stdout]; destruct (rc2 =? 0)%Z
         |destruct (caught_by ["TimeoutExpired"; "FileNotFoundError"] e2)]]
      |destruct (caught_by ["TimeoutExpired"; "FileNotFoundError"] e)];
      reflexivity.
Qed.

(** No program is found: [main] returns before its first prompt. *)
Lemma main_stops_without_node_witness :
  snd (main "ocean" no_program []) = Ok Returned
  /\ existsb asks (fst (main "ocean" no_program [])) = false.
Proof.
  apply (main_stops_without_node "ocean" no_program []). reflexivity.
Defined.

(** X26 (how the loop ends).  A round of the loop ends the loop exactly
    when the line read is [/exit] in any letter case, or the prompt
    raised [KeyboardInterrupt] or [EOFError]; any other round goes on to
    the next or ends with an exception. *)
Theorem loop_ends_on_exit_or_interrupt st t :
  snd (body st t) = Ok Break
  <-> (exists s, asked t = Ok s /\ lower s = "/exit")
      \/ (exists e, asked t = Raise e
                    /\ caught_by ["KeyboardInterrupt"; "EOFError"] e = true).
Proof.
  split.
  - unfold body.
    destruct (asked t) as [s|e].
    2:{ unfold_io. destruct (caught_by ["KeyboardInterrupt"; "EOFError"] e) eqn:Ec;
          cbn [fst snd app]; [intros _; right; now exists e | discriminate]. }
    unfold_io. cbn [fst snd app].
    destruct (String.eqb (strip s) "") eqn:E0; [discriminate|].
    destruct (String.eqb (lower s) "/exit") eqn:E1.
    { intros _. left. exists s. split; [reflexivity | now apply String.eqb_eq]. }
    destruct (String.eqb (lower s) "/help") eqn:E2; [discriminate|].
    destruct (startswith s "/theme") eqn:E3.
    { destruct (split s) as [|p0 [|name rest]]; try discriminate.
      destruct (existsb (String.eqb name) ["cyberpunk"; "ocean"; "forest"; "sunset"]);
        [|discriminate].
      unfold print_ascii_art. unfold_io.
      destruct (get_theme_ok name) as [x ->]. destruct (get_ascii_art_ok name) as [y ->].
      discriminate. }
    destruct (String.eqb (lower s) "/history") eqn:E4.
    { destruct (table t) as [[]|e]; discriminate. }
    destruct (startswith s "/bookmark") eqn:E5.
    { destruct (picked s (last_results st)) as [doc|e];
        [destruct (bookmarked t) as [[]|e]|];
        try destruct (caught_by ["IndexError"; "ValueError"; "AttributeError"] e);
        discriminate. }
    destruct (startswith s "/preview") eqn:E6.
    { destruct (picked s (last_results st)) as [doc|e].
      - destruct (get doc "content" (PyStr "No content available")) as [content|e];
          [destruct (get doc "type" (PyStr "txt")) as [filetype|e];
           [destruct (shown t) as [[]|e]|]|];
          try destruct (caught_by ["IndexError"; "ValueError"] e); discriminate.
      - destruct (caught_by ["IndexError"; "ValueError"] e); discriminate. }
    destruct (String.eqb (lower s) "/analytics") eqn:E7; [discriminate|].
    destruct (get_animation_frames_ok (theme_of st)) as [frames ->].
    destruct (reply t) as [r|e];
      [destruct (saved t) as [[]|e]|];
      try destruct (caught_by ["Exception"] e); discriminate.
  - intros [(s & Ht & Hs)|(e & Ht & He)]; unfold body; rewrite Ht; unfold_io.
    + assert (E1 : String.eqb (lower s) "/exit" = true) by now apply String.eqb_eq.
      cbn [fst snd app]. now rewrite (lower_exit_not_blank s E1), E1.
    + now rewrite He.
Qed.

(** X28 (the [/theme] command).  A line that starts with [/theme] is
    handled by the loop and never reaches the agent or the history.  The
    theme changes exactly when the second word of the line is one of the
    four names as written, and it changes to that word, whatever comes
    after it; otherwise the theme stays and the line of the invalid theme
    is printed.  [last_results] stays as it is, and the loop goes on. *)
Theorem theme_command st t s :
  asked t = Ok s ->
  startswith s "/theme" = true ->
  snd (body st t)
  = Ok (Continue (mkState match asked_theme s with
                          | Some name => name
                          | None => theme_of st
                          end (last_results st)))
  /\ existsb on_history (fst (body st t)) = false
  /\ (asked_theme s = None ->
      fst (body st t)
      = [AskPrompt; Print "[red]Invalid theme. Use: cyberpunk, ocean, forest, sunset[/red]"]).
Proof.
  intros Ht Hs. destruct (before_theme s Hs) as (E0 & E1 & E2).
  unfold body, asked_theme, theme_names. rewrite Ht. unfold_io. cbn [fst snd app].
  rewrite E0, E1, E2, Hs.
  destruct (split s) as [|p0 [|name rest]];
    try (destruct st; repeat split; reflexivity).
  destruct (existsb (String.eqb name) ["cyberpunk"; "ocean"; "forest"; "sunset"]);
    [|destruct st; repeat split; reflexivity].
  unfold print_ascii_art. unfold_io.
  destruct (get_theme_ok name) as [x ->]. destruct (get_ascii_art_ok name) as [y ->].
  cbn [fst snd app]. repeat split. discriminate.
Qed.

(** [/themes ocean now], which starts with [/theme]: the theme becomes
    [ocean]. *)
Lemma theme_command_witness :
  snd (body (mkState "cyberpunk" []) (typed "/themes ocean now"))
  = Ok (Continue (mkState match asked_theme "/themes ocean now" with
                          | Some name => name
                          | None => theme_of (mkState "cyberpunk" [])
                          end (last_results (mkState "cyberpunk" []))))
  /\ existsb on_history (fst (body (mkState "cyberpunk" []) (typed "/themes ocean now")))
     = false
  /\ (asked_theme "/themes ocean now" = None ->
      fst (body (mkState "cyberpunk" []) (typed "/themes ocean now"))
      = [AskPrompt; Print "[red]Invalid theme. Use: cyberpunk, ocean, forest, sunset[/red]"]).
Proof.
  apply (theme_command (mkState "cyberpunk" []) (typed "/themes ocean now")
           "/themes ocean now"); reflexivity.
Defined.

End CliTheorems.
